(** * npc_mvr: alignment and verification engine of [src/npc_mvr/mvr.py]

    A shallow embedding of the functions of [mvr.py] that reconcile camera
    videos with the sync clock, and the properties of them that the
    specification states.

    Conventions of the embedding
    - Python [int] is [Z]; positions produced by [enumerate] and [len] are
      [Z] as well, list positions inside Rocq are [nat].
    - Python [str] is [string], restricted to ASCII text.
    - A raised exception is the [Raise] branch of [result]; only the class
      of the exception is kept.
    - numpy's binary64 arithmetic is not fixed by this file: the float
      type and the handful of numpy/Python operations the code calls on it
      are the fields of the class [FloatOps], and every general theorem
      holds for every instance.  The instance [Ideal.ops] (exact rationals
      plus NaN) is used to evaluate the code on concrete inputs made of
      small integers and dyadic fractions, where binary64 is exact too.
    - A [dict] is an association list in insertion order, first binding
      of a key is the live one ([dict_set] overwrites in place).
    - numpy's integer arrays hold fixed-width integers; they are lists of
      [Z] here, and a theorem that states their values assumes frame
      numbers that fit 32 bits.
    - Where the code reads a sync line by a name of its own, the reader is
      [read_edges]: a name that is no label of the sync file raises
      [ValueError]. *)

From Stdlib Require Import ZArith List String Ascii Bool Lia QArith Qround Qabs.
From Stdlib Require Import DecimalString DecimalNat.
Import ListNotations.

#[local] Open Scope string_scope.
#[local] Open Scope list_scope.
#[local] Open Scope Z_scope.

(** ** Exceptions *)

Inductive exn : Set :=
| ValueError | AssertionError | KeyError | IndexError
| TypeError | AttributeError | OverflowError.

Inductive result (A : Type) : Type :=
| Ok (a : A)
| Raise (e : exn).

Arguments Ok {A} a.
Arguments Raise {A} e.

Definition bind {A B} (c : result A) (k : A -> result B) : result B :=
  match c with
  | Ok a => k a
  | Raise e => Raise e
  end.

Declare Scope py_scope.
Delimit Scope py_scope with py.
Notation "x <- c ;; k" := (bind c (fun x => k))
  (at level 61, c at next level, right associativity) : py_scope.
Notation "'assert!' b ;; k" := (if b then k else Raise AssertionError)
  (at level 61, b at next level, right associativity) : py_scope.
#[local] Open Scope py_scope.

#[local] Infix "+++" := String.append (at level 60, right associativity).

(** [for x in xs: acc = body(acc, x)] with early exit on an exception. *)
Fixpoint for_each {A S} (xs : list A) (body : S -> A -> result S) (acc : S)
  : result S :=
  match xs with
  | [] => Ok acc
  | x :: xs' => acc' <- body acc x ;; for_each xs' body acc'
  end.

(** [[f(x) for x in xs]], evaluated left to right. *)
Fixpoint map_result {A B} (f : A -> result B) (xs : list A) : result (list B) :=
  match xs with
  | [] => Ok []
  | x :: xs' => y <- f x ;; ys <- map_result f xs' ;; Ok (y :: ys)
  end.

(** ** Strings *)

Definition is_upper (c : ascii) : bool :=
  let n := nat_of_ascii c in (65 <=? n)%nat && (n <=? 90)%nat.

Definition lower_ascii (c : ascii) : ascii :=
  if is_upper c then ascii_of_nat (nat_of_ascii c + 32) else c.

(** [str.lower()] *)
Fixpoint lower (s : string) : string :=
  match s with
  | EmptyString => EmptyString
  | String c s' => String (lower_ascii c) (lower s')
  end.

(** [needle in hay] on strings *)
Fixpoint contains (needle hay : string) : bool :=
  prefix needle hay ||
  match hay with
  | EmptyString => false
  | String _ hay' => contains needle hay'
  end.

(** [s.split(sep)] for a one-character separator: never the empty list. *)
Fixpoint split (sep : ascii) (s : string) : list string :=
  match s with
  | EmptyString => [EmptyString]
  | String c s' =>
      if Ascii.eqb c sep then EmptyString :: split sep s'
      else match split sep s' with
           | h :: t => String c h :: t
           | [] => [String c EmptyString]
           end
  end.

(** Characters [int()] treats as blank around the number. *)
Definition is_space (c : ascii) : bool :=
  let n := nat_of_ascii c in
  ((9 <=? n)%nat && (n <=? 13)%nat) || ((28 <=? n)%nat && (n <=? 32)%nat).

Definition digit_of (c : ascii) : option Z :=
  let n := nat_of_ascii c in
  if (48 <=? n)%nat && (n <=? 57)%nat then Some (Z.of_nat (n - 48)) else None.

Fixpoint lstrip (s : string) : string :=
  match s with
  | String c s' => if is_space c then lstrip s' else s
  | EmptyString => EmptyString
  end.

Fixpoint rstrip (s : string) : string :=
  match s with
  | EmptyString => EmptyString
  | String c s' =>
      match rstrip s' with
      | EmptyString => if is_space c then EmptyString else String c EmptyString
      | r => String c r
      end
  end.

(** Digits after a first digit was read; a single underscore may sit between
    two digits. *)
Fixpoint int_digits (s : string) (acc : Z) : option Z :=
  match s with
  | EmptyString => Some acc
  | String c s' =>
      if Ascii.eqb c "_"%char then
        match s' with
        | String d s'' =>
            match digit_of d with
            | Some v => int_digits s'' (10 * acc + v)
            | None => None
            end
        | EmptyString => None
        end
      else
        match digit_of c with
        | Some v => int_digits s' (10 * acc + v)
        | None => None
        end
  end.

Definition int_unsigned (s : string) : option Z :=
  match s with
  | String c s' =>
      match digit_of c with
      | Some v => int_digits s' v
      | None => None
      end
  | EmptyString => None
  end.

(** [int(s)] for a [str] in base 10: blanks stripped, optional sign, digits.
    (The interpreter's optional cap on the number of digits is not part of
    the model.) *)
Definition int_of_str (s : string) : result Z :=
  let body := rstrip (lstrip s) in
  let r :=
    match body with
    | String "+"%char s' => int_unsigned s'
    | String "-"%char s' => option_map Z.opp (int_unsigned s')
    | _ => int_unsigned body
    end in
  match r with
  | Some z => Ok z
  | None => Raise ValueError
  end.

(** ** Sequences *)

(** [enumerate(l, start)] *)
Fixpoint enumerate_from {A} (start : Z) (l : list A) : list (Z * A) :=
  match l with
  | [] => []
  | x :: l' => (start, x) :: enumerate_from (start + 1) l'
  end.

Definition enumerate {A} (l : list A) : list (Z * A) := enumerate_from 0 l.

Definition len {A} (l : list A) : Z := Z.of_nat (List.length l).

(** Position of a slice bound [k] in a sequence of length [n]. *)
Definition slice_bound (n : nat) (k : Z) : nat :=
  if k <? 0 then Z.to_nat (Z.max 0 (Z.of_nat n + k))
  else Nat.min n (Z.to_nat k).

(** [l[start:stop]] *)
Definition slice {A} (l : list A) (start stop : Z) : list A :=
  let a := slice_bound (List.length l) start in
  let b := slice_bound (List.length l) stop in
  firstn (b - a)%nat (skipn a l).

(** [l[:stop]] *)
Definition slice_to {A} (l : list A) (stop : Z) : list A :=
  firstn (slice_bound (List.length l) stop) l.

(** [np.arange(a, b)] on integers *)
Definition arange (a b : Z) : list Z :=
  map (fun i => a + Z.of_nat i) (seq 0 (Z.to_nat (b - a))).

(** [x in arr] for an array of integers *)
Definition np_contains (arr : list Z) (x : Z) : bool := existsb (Z.eqb x) arr.

(** ** Dictionaries *)

Section Dict.
Context {V : Type}.

Fixpoint dict_find (d : list (string * V)) (k : string) : option V :=
  match d with
  | [] => None
  | (k', v) :: d' => if String.eqb k k' then Some v else dict_find d' k
  end.

(** [d[k]] *)
Definition dict_get (d : list (string * V)) (k : string) : result V :=
  match dict_find d k with
  | Some v => Ok v
  | None => Raise KeyError
  end.

(** [k in d] *)
Definition dict_mem (d : list (string * V)) (k : string) : bool :=
  match dict_find d k with Some _ => true | None => false end.

(** [d[k] = v]: an existing key keeps its place. *)
Fixpoint dict_set (d : list (string * V)) (k : string) (v : V)
  : list (string * V) :=
  match d with
  | [] => [(k, v)]
  | (k', v') :: d' =>
      if String.eqb k k' then (k, v) :: d' else (k', v') :: dict_set d' k v
  end.

Definition dict_keys (d : list (string * V)) : list string := map fst d.
End Dict.

(** ** Floats *)

(** The operations of numpy and Python on binary64 values that [mvr.py]
    uses.  [np_mean] is [ndarray.mean()] of a one-dimensional float array,
    [np_mean_u8] is [np.mean] of a two-dimensional [uint8] array (rows of
    pixels), [np_round] is [np.round], [py_round] is the builtin [round]
    with one argument and [py_trunc] is [int()] on a float. *)
Class FloatOps (F : Type) : Type := {
  nan : F;
  of_int : Z -> F;
  fsub : F -> F -> F;
  fmul : F -> F -> F;
  fdiv : F -> F -> F;
  fabs : F -> F;
  feqb : F -> F -> bool;
  fltb : F -> F -> bool;
  np_mean : list F -> F;
  np_mean_u8 : list (list Z) -> F;
  np_round : F -> F;
  py_round : F -> result Z;
  py_trunc : F -> result Z
}.

(** ** Python values read from the camera's info.json *)

#[local] Set Warnings "-register-all".

Inductive pyval (F : Type) : Type :=
| PNone
| PBool (b : bool)
| PInt (z : Z)
| PFloat (x : F)
| PStr (s : string)
| PList (l : list (pyval F))
| PDict (d : list (string * pyval F)).

Arguments PNone {F}.
Arguments PBool {F} b.
Arguments PInt {F} z.
Arguments PFloat {F} x.
Arguments PStr {F} s.
Arguments PList {F} l.
Arguments PDict {F} d.

(** The timing source: edge times in seconds of every digital line. *)
Record SyncDataset (F : Type) : Type := {
  get_rising_edges : string -> list F;
  get_falling_edges : string -> list F;
  line_labels : list string
}.

Arguments get_rising_edges {F} _ _.
Arguments get_falling_edges {F} _ _.
Arguments line_labels {F} _.

(** A decoded frame: rows of pixels, each pixel a list of channels. *)
Definition frame : Type := list (list (list Z)).

(** [cv2.VideoCapture]: [read_frame n] is the frame returned by [read()]
    after seeking to [n], [None] when the read fails. *)
Record VideoCapture : Type := {
  read_frame : Z -> option frame
}.

(** Keys of [min(..., key=...)]: an [int] or a float. *)
Inductive num (F : Type) : Type :=
| NInt (z : Z)
| NFloat (x : F).

Arguments NInt {F} z.
Arguments NFloat {F} x.

Section Model.
Context {F : Type} {ops : FloatOps F}.

#[local] Abbreviation pyval := (pyval F).
#[local] Abbreviation info_dict := (list (string * pyval)).

(** *** Dynamic operations on values *)

Definition bool_int (b : bool) : Z := if b then 1 else 0.

(** [v == z] for an [int] literal [z] *)
Definition py_eq_int (v : pyval) (z : Z) : bool :=
  match v with
  | PInt z' => z' =? z
  | PBool b => bool_int b =? z
  | PFloat x => feqb x (of_int z)
  | _ => false
  end.

(** [v == s] for a [str] literal [s] *)
Definition py_eq_str (v : pyval) (s : string) : bool :=
  match v with
  | PStr s' => String.eqb s' s
  | _ => false
  end.

(** [s == x] for a [str] [s] and a float [x], the comparison [tuple.index]
    makes at line 399: values of the two types are never equal. *)
Definition str_eq_float (s : string) (x : F) : bool := false.

(** [bool(v)] *)
Definition truthy (v : pyval) : bool :=
  match v with
  | PNone => false
  | PBool b => b
  | PInt z => negb (z =? 0)
  | PFloat x => negb (feqb x (of_int 0))
  | PStr s => negb (String.eqb s "")
  | PList l => match l with [] => false | _ => true end
  | PDict d => match d with [] => false | _ => true end
  end.

(** [v.get(k, default)] *)
Definition py_get (v : pyval) (k : string) (default : pyval) : result pyval :=
  match v with
  | PDict d =>
      Ok (match dict_find d k with Some x => x | None => default end)
  | _ => Raise AttributeError
  end.

(** [v[k]] for a [str] key *)
Definition py_getitem (v : pyval) (k : string) : result pyval :=
  match v with
  | PDict d => dict_get d k
  | _ => Raise TypeError
  end.

(** [int(v)] *)
Definition py_int (v : pyval) : result Z :=
  match v with
  | PInt z => Ok z
  | PBool b => Ok (bool_int b)
  | PFloat x => py_trunc x
  | PStr s => int_of_str s
  | _ => Raise TypeError
  end.

(** [t.index(x)]; [eqb] is the [==] between an element and [x]. *)
Fixpoint tuple_index_from {A B} (eqb : A -> B -> bool) (i : Z) (t : list A)
    (x : B) : result Z :=
  match t with
  | [] => Raise ValueError
  | y :: t' => if eqb y x then Ok i else tuple_index_from eqb (i + 1) t' x
  end.

Definition tuple_index {A B} (eqb : A -> B -> bool) (t : list A) (x : B)
  : result Z := tuple_index_from eqb 0 t x.

(** [sorted(l, key=key)]: stable, by [<] on the keys.  Insertion from the
    right puts an item in front of the items of equal key that followed
    it; on keys that [<] orders totally every stable sort returns this
    list. *)
Fixpoint insert_sorted {A} (key : A -> F) (x : A) (l : list A) : list A :=
  match l with
  | [] => [x]
  | y :: l' =>
      if fltb (key y) (key x) then y :: insert_sorted key x l'
      else x :: y :: l'
  end.

Definition sorted {A} (key : A -> F) (l : list A) : list A :=
  fold_right (insert_sorted key) [] l.

(** [a - b] on one-dimensional arrays, with numpy's broadcasting. *)
Definition np_sub (a b : list F) : result (list F) :=
  if (List.length a =? List.length b)%nat then
    Ok (map (fun p => fsub (fst p) (snd p)) (combine a b))
  else
    match a, b with
    | _, [y] => Ok (map (fun x => fsub x y) a)
    | [x], _ => Ok (map (fun y => fsub x y) b)
    | _, _ => Raise ValueError
    end.

(** *** Metadata *)

(** [get_video_info_data] on a mapping (the path case reads a file). *)
Definition get_video_info_data (path_or_info_data : info_dict) : pyval :=
  match dict_find path_or_info_data "RecordingReport" with
  | Some report => report
  | None => PDict path_or_info_data
  end.

(** One pass of the loop over [lost_frame_spans]. *)
Definition add_span (lost_frames : list Z) (span : string) : result (list Z) :=
  match split "-" span with
  | [a] => x <- int_of_str a ;; Ok (lost_frames ++ [x])
  | a :: b :: _ =>
      x <- int_of_str a ;;
      y <- int_of_str b ;;
      Ok (lost_frames ++ arange x (y + 1))
  | [] => Raise IndexError
  end.

(** The result is the integer array of line 555.  [np.arange] and
    [np.subtract] compute in fixed-width integers; the [Z] of the model
    are their values as long as the frame numbers of the metadata fit
    them, which is what the properties of the positions assume. *)
Definition get_lost_frames_from_camera_info (info_path_or_data : info_dict)
  : result (list Z) :=
  let info := get_video_info_data info_path_or_data in
  count <- py_get info "FramesLostCount" PNone ;;
  if py_eq_int count 0 then Ok []
  else
    _lost_frames <- py_getitem info "LostFrames" ;;
    match _lost_frames with
    | PList l =>
        first <- match l with x :: _ => Ok x | [] => Raise IndexError end ;;
        lost_frame_spans <-
          match first with
          | PStr s => Ok (split "," s)
          | _ => Raise AttributeError
          end ;;
        lost_frames <- for_each lost_frame_spans add_span [] ;;
        Ok (map (fun z => z - 1) lost_frames)
    | _ => Raise AssertionError
    end.

(** *** [remove_lost_frame_times] *)

Definition remove_lost_frame_times {A} (frame_times : list A)
    (lost_frame_idx : list Z) : list A :=
  map snd
    (filter (fun it => negb (np_contains lost_frame_idx (fst it)))
            (enumerate frame_times)).

(** *** Camera names *)

Definition names : list (string * string) :=
  [("eye", "eye"); ("face", "face"); ("beh", "behavior")].

Definition get_camera_name (path : string) : result string :=
  match find (fun n => contains n (lower path)) (dict_keys names) with
  | Some n => dict_get names n
  | None => Raise ValueError
  end.

Definition get_camera_name_on_sync (sync_line : string) : result string :=
  name <- get_camera_name sync_line ;;
  Ok (if String.eqb name "behavior" then "beh" else name).

(** *** Line times *)

Definition get_cam_line_times_on_sync (sync_data : SyncDataset F)
    (sync_line_suffix : string) (rising : bool)
  : result (list (string * list F)) :=
  let edge_getter :=
    if rising then get_rising_edges sync_data
    else get_falling_edges sync_data in
  for_each
    (filter (contains sync_line_suffix) (line_labels sync_data))
    (fun line_times line =>
       camera_name <- get_camera_name line ;;
       Ok (dict_set line_times camera_name (edge_getter line)))
    [].

Definition get_cam_exposing_times_on_sync (sync_data : SyncDataset F) :=
  get_cam_line_times_on_sync sync_data "_cam_exposing" true.

Definition get_cam_transfer_times_on_sync (sync_data : SyncDataset F) :=
  get_cam_line_times_on_sync sync_data "_cam_frame_readout" true.

(** *** Line Identity Resolver: [get_camera_sync_line_name_mapping] *)

Definition camera_names_on_sync : list string := ["beh"; "face"; "eye"].

Definition line_suffixes : list string :=
  ["_cam_exposing"; "_cam_frame_readout"].

(** [camera_to_json_data] maps a camera name to the contents of its
    info.json, as [get_video_info_data] returns them. *)
Definition get_exposure_fingerprint_durations_from_jsons
    (camera_to_json_data : list (string * pyval))
  : result (list (string * pyval)) :=
  for_each camera_names_on_sync
    (fun d camera_name =>
       camera <- get_camera_name camera_name ;;
       info <- dict_get camera_to_json_data camera ;;
       v <- py_getitem info "CustomInitialExposureTime" ;;
       Ok (dict_set d (camera_name +++ "_cam_exposing") v))
    [].

(** [sync_data.get_rising_edges(line, units="seconds")] and
    [get_falling_edges] for a line given by name: the reader looks the
    name up with [line_labels.index] and raises [ValueError] for a label
    the sync file does not hold. *)
Definition read_edges (rising : bool) (sync_data : SyncDataset F)
    (line : string) : result (list F) :=
  if existsb (String.eqb line) (line_labels sync_data) then
    Ok (if rising then get_rising_edges sync_data line
        else get_falling_edges sync_data line)
  else Raise ValueError.

(** [round((falling[:8] - rising[:8]).mean() * 1000)] of one line *)
Definition signature_duration (sync_data : SyncDataset F) (n : string)
  : result Z :=
  falling <- read_edges false sync_data n ;;
  rising <- read_edges true sync_data n ;;
  diffs <- np_sub (slice_to falling 8) (slice_to rising 8) ;;
  py_round (fmul (np_mean diffs) (of_int 1000)).

Definition get_exposure_fingerprint_durations_from_sync
    (sync_data : SyncDataset F) : result (list (string * Z)) :=
  for_each camera_names_on_sync
    (fun d camera_name =>
       let n := camera_name +++ "_cam_exposing" in
       r <- signature_duration sync_data n ;;
       Ok (dict_set d n r))
    [].

Definition get_start_times_on_sync (sync_data : SyncDataset F)
  : result (list (string * F)) :=
  for_each
    (flat_map (fun camera_name =>
                 map (fun line_suffix => camera_name +++ line_suffix)
                     line_suffixes)
              camera_names_on_sync)
    (fun d line =>
       edges <- read_edges true sync_data line ;;
       match edges with
       | t :: _ => Ok (dict_set d line t)
       | [] => Raise IndexError
       end)
    [].

(** [abs(expected_duration - actual)] *)
Definition abs_difference (expected_duration : pyval) (actual : Z)
  : result (num F) :=
  match expected_duration with
  | PInt e => Ok (NInt (Z.abs (e - actual)))
  | PBool b => Ok (NInt (Z.abs (bool_int b - actual)))
  | PFloat x => Ok (NFloat (fabs (fsub x (of_int actual))))
  | _ => Raise TypeError
  end.

(** [a < b] on keys *)
Definition num_ltb (a b : num F) : bool :=
  match a, b with
  | NInt x, NInt y => x <? y
  | NInt x, NFloat y => fltb (of_int x) y
  | NFloat x, NInt y => fltb x (of_int y)
  | NFloat x, NFloat y => fltb x y
  end.

(** [min(l, key=key)]: the first item whose key no later key is below. *)
Fixpoint min_from {A} (key : A -> result (num F)) (best : A)
    (best_key : num F) (l : list A) : result A :=
  match l with
  | [] => Ok best
  | x :: l' =>
      k <- key x ;;
      if num_ltb k best_key then min_from key x k l'
      else min_from key best best_key l'
  end.

Definition py_min {A} (key : A -> result (num F)) (l : list A) : result A :=
  match l with
  | [] => Raise ValueError
  | x :: l' => k <- key x ;; min_from key x k l'
  end.

(** Lines 391-397: pick the line of closest signature duration and
    record it for the camera. *)
Definition assign_actual_line
    (expected_exposure_fingerprint_durations : list (string * pyval))
    (actual_exposure_fingerprint_durations : list (string * Z))
    (expected_to_actual_line_mapping : list (string * string))
    (sync_camera_name : string) : result (list (string * string)) :=
  let exposing_line := sync_camera_name +++ "_cam_exposing" in
  expected_duration <-
    dict_get expected_exposure_fingerprint_durations exposing_line ;;
  actual_line <-
    py_min (fun it => abs_difference expected_duration (snd it))
           actual_exposure_fingerprint_durations ;;
  on_sync <- get_camera_name_on_sync (fst actual_line) ;;
  camera <- get_camera_name sync_camera_name ;;
  Ok (dict_set expected_to_actual_line_mapping camera on_sync).

(** Lines 398-401: the assertion on the start order of the two lines. *)
Definition assert_readout_follows_exposing
    (start_times_on_sync : list (string * F))
    (lines_sorted_by_start_time : list string)
    (sync_camera_name : string) : result unit :=
  let exposing_line := sync_camera_name +++ "_cam_exposing" in
  let readout_line := sync_camera_name +++ "_cam_frame_readout" in
  t_exposing <- dict_get start_times_on_sync exposing_line ;;
  a <- tuple_index str_eq_float lines_sorted_by_start_time t_exposing ;;
  t_readout <- dict_get start_times_on_sync readout_line ;;
  b <- tuple_index str_eq_float lines_sorted_by_start_time t_readout ;;
  assert! (a + 1 =? b) ;;
  Ok tt.

Definition get_camera_sync_line_name_mapping (sync_data : SyncDataset F)
    (camera_to_json_data : list (string * pyval))
  : result (list (string * string)) :=
  start_times_on_sync <- get_start_times_on_sync sync_data ;;
  let lines_sorted_by_start_time :=
    map fst (sorted snd start_times_on_sync) in
  expected <- get_exposure_fingerprint_durations_from_jsons
                camera_to_json_data ;;
  actual <- get_exposure_fingerprint_durations_from_sync sync_data ;;
  for_each camera_names_on_sync
    (fun mapping sync_camera_name =>
       mapping' <- assign_actual_line expected actual mapping
                     sync_camera_name ;;
       _ <- assert_readout_follows_exposing start_times_on_sync
              lines_sorted_by_start_time sync_camera_name ;;
       Ok mapping')
    [].

(** The wiring-order assumption in the words of the specification: in the
    six lines sorted by first rising edge, the readout line of every
    prefix sits one position after its exposing line. *)
Fixpoint position_of (line : string) (lines : list string) : option nat :=
  match lines with
  | [] => None
  | l :: lines' =>
      if String.eqb l line then Some O
      else option_map S (position_of line lines')
  end.

Definition wiring_order_holds (start_times_on_sync : list (string * F))
  : bool :=
  let lines := map fst (sorted snd start_times_on_sync) in
  forallb
    (fun prefix =>
       match position_of (prefix +++ "_cam_exposing") lines,
             position_of (prefix +++ "_cam_frame_readout") lines with
       | Some a, Some b => (b =? a + 1)%nat
       | _, _ => false
       end)
    camera_names_on_sync.

(** *** Frame Time Reconstructor: [get_video_frame_times] *)

(** Lines 465-489 for one camera: the metadata frame's NaN in front, then
    padding or cutting to the number of frames in the video. *)
Definition reconcile_frame_times (apply_correction : bool)
    (num_frames_in_video : Z) (camera_frame_times : list F)
  : result (list F) :=
  let camera_frame_times := nan :: camera_frame_times in
  let frames_missing_from_sync :=
    num_frames_in_video - len camera_frame_times in
  let camera_frame_times :=
    if apply_correction && (frames_missing_from_sync >? 0) then
      camera_frame_times ++ repeat nan (Z.to_nat frames_missing_from_sync)
    else if apply_correction
            && (len camera_frame_times >? num_frames_in_video) then
      slice_to camera_frame_times num_frames_in_video
    else camera_frame_times in
  if apply_correction then
    assert! (len camera_frame_times =? num_frames_in_video) ;;
    Ok camera_frame_times
  else Ok camera_frame_times.

(** Lines 461-489 for one camera; [json_data] is the camera's entry of
    [camera_to_json_data], which has to be a mapping to be read as
    metadata. *)
Definition camera_frame_times (apply_correction : bool)
    (num_frames_in_video : Z) (exposing_times : list F)
    (json_data : pyval) : result (list F) :=
  info <- match json_data with
          | PDict d => Ok d
          | _ => Raise TypeError
          end ;;
  lost <- get_lost_frames_from_camera_info info ;;
  reconcile_frame_times apply_correction num_frames_in_video
    (remove_lost_frame_times exposing_times lost).

(** Lines 450-491, from the resolved line names on.
    [get_total_frames_in_video] is the video reader. *)
Definition video_frame_times_of_mapping
    (correct_sync_line_names : list (string * string))
    (sync_data : SyncDataset F)
    (camera_to_video_path : list (string * string))
    (camera_to_json_data : list (string * pyval))
    (get_total_frames_in_video : string -> Z)
    (apply_correction : bool) : result (list (string * list F)) :=
  times_by_line <- get_cam_exposing_times_on_sync sync_data ;;
  camera_exposing_times <-
    for_each (dict_keys times_by_line)
      (fun d camera =>
         on_sync <- dict_get correct_sync_line_names camera ;;
         line_camera <- get_camera_name on_sync ;;
         times <- dict_get times_by_line line_camera ;;
         Ok (dict_set d camera times))
      [] ;;
  for_each (dict_keys camera_exposing_times)
    (fun frame_times camera =>
       if dict_mem camera_to_video_path camera then
         path <- dict_get camera_to_video_path camera ;;
         let num_frames_in_video := get_total_frames_in_video path in
         exposing_times <- dict_get camera_exposing_times camera ;;
         json_data <- dict_get camera_to_json_data camera ;;
         times <- camera_frame_times apply_correction num_frames_in_video
                    exposing_times json_data ;;
         Ok (dict_set frame_times path times)
       else Ok frame_times)
    [].

Definition get_video_frame_times (sync_data : SyncDataset F)
    (camera_to_video_path : list (string * string))
    (camera_to_json_data : list (string * pyval))
    (get_total_frames_in_video : string -> Z)
    (apply_correction : bool) : result (list (string * list F)) :=
  correct_sync_line_names <-
    get_camera_sync_line_name_mapping sync_data camera_to_json_data ;;
  video_frame_times_of_mapping correct_sync_line_names sync_data
    camera_to_video_path camera_to_json_data get_total_frames_in_video
    apply_correction.

(** *** Barcode Decoder *)

Definition border : Z := 1.
Definition value_size : Z := 4.
Definition num_values_per_group : Z := 4.
Definition group_size : Z := num_values_per_group * (value_size + border * 2).
Definition group_separator : Z := 3.
Definition num_groups : Z := 5.

(** [range(n)] *)
Definition range (n : Z) : list Z := arange 0 n.

(** [image[:, a:b]] *)
Definition columns {A} (image : list (list A)) (a b : Z) : list (list A) :=
  map (fun row => slice row a b) image.

(** The normalised mean of one bit cell: -1 black, 0 grey, 1 white. *)
Definition cell_value (barcode_image : list (list Z))
    (group_idx value_idx : Z) : F :=
  let group_start := group_idx * (group_size + group_separator) in
  let group_end := group_start + group_size in
  let group_image := columns barcode_image group_start group_end in
  let value_start :=
    (value_size + border) * value_idx + (value_idx + 1) * border in
  let value_end := value_start + value_size in
  let value_image := columns group_image value_start value_end in
  let mean_value := np_mean_u8 value_image in
  np_round (fsub (fmul (fdiv mean_value (of_int 255)) (of_int 2)) (of_int 1)).

(** [values] after the two nested loops, in image order. *)
Definition barcode_values (barcode_image : list (list Z)) : list F :=
  flat_map
    (fun group_idx =>
       map (cell_value barcode_image group_idx) (range num_values_per_group))
    (range num_groups).

Definition is_white (x : F) : bool := feqb x (of_int 1).

(** The test of line 679. *)
Definition is_metadata_frame (barcode_image : list (list Z)) : result bool :=
  let exponent_values := rev (barcode_values barcode_image) in
  if forallb is_white exponent_values then
    r <- py_round (np_mean_u8 barcode_image) ;;
    Ok (r >? 250)
  else Ok false.

(** Lines 682-686. *)
Definition sum_white_exponents (exponent_values : list F) : Z :=
  fold_left
    (fun value it =>
       if is_white (snd it) then value + 2 ^ fst it else value)
    (enumerate exponent_values) 0.

Definition get_barcode_value (barcode_image : list (list Z)) : result Z :=
  let exponent_values := rev (barcode_values barcode_image) in
  metadata <- is_metadata_frame barcode_image ;;
  if metadata then Ok 0 else Ok (sum_white_exponents exponent_values).

(** The cells read left to right as a binary number, first cell most
    significant. *)
Definition binary_value (bits : list bool) : Z :=
  fold_left (fun acc b => 2 * acc + bool_int b) bits 0.

Definition get_barcode_image (fr : frame) (coordinates : list (string * Z))
  : result frame :=
  y <- dict_get coordinates "yOffset" ;;
  h <- dict_get coordinates "height" ;;
  x <- dict_get coordinates "xOffset" ;;
  w <- dict_get coordinates "width" ;;
  Ok (columns (slice fr (y + 1) (y + h)) x (x + w + 3)).

(** [image[:, :, 0]] *)
Definition channel0 (image : frame) : result (list (list Z)) :=
  map_result
    (map_result (fun pixel => match pixel with
                              | c :: _ => Ok c
                              | [] => Raise IndexError
                              end))
    image.

(** The lookups of lines 643-644, which run before the frame is
    subscripted. *)
Definition slice_bounds (coordinates : list (string * Z)) : result unit :=
  _ <- dict_get coordinates "yOffset" ;;
  _ <- dict_get coordinates "height" ;;
  _ <- dict_get coordinates "xOffset" ;;
  _ <- dict_get coordinates "width" ;;
  Ok tt.

(** After a failed read [frame] is [None]: the slice bounds are still
    evaluated, then subscripting [None] raises [TypeError]. *)
Definition get_barcode_value_from_frame (video_data : VideoCapture)
    (frame_number : Z) (barcode_image_coordinates : list (string * Z))
  : result Z :=
  match read_frame video_data frame_number with
  | None => _ <- slice_bounds barcode_image_coordinates ;; Raise TypeError
  | Some fr =>
      image <- get_barcode_image fr barcode_image_coordinates ;;
      barcode_image <- channel0 image ;;
      value <- get_barcode_value barcode_image ;;
      if value =? 0 then assert! (frame_number =? 0) ;; Ok value
      else Ok value
  end.

Definition default_coordinates : pyval :=
  PDict [("xOffset", PStr "0"); ("yOffset", PStr "0");
         ("width", PStr "129"); ("height", PStr "3")].

Definition get_barcode_image_coordinates (video_info : pyval)
  : result (list (string * Z)) :=
  c <- py_get video_info "BarcodeCoordinates" default_coordinates ;;
  match c with
  | PDict d =>
      map_result (fun kv => z <- py_int (snd kv) ;; Ok (fst kv, z)) d
  | _ => Raise AttributeError
  end.

(** Lines 732-734: what runs once the guard of line 730 is passed. *)
Definition decode_frame_number (video_data : VideoCapture)
    (video_info : pyval) (frame_number : Z) : result Z :=
  coordinates <- get_barcode_image_coordinates video_info ;;
  get_barcode_value_from_frame video_data frame_number coordinates.

Definition get_frame_number_from_barcode (video_data : VideoCapture)
    (info_path_or_data : info_dict) (frame_number : Z) : result Z :=
  let video_info := get_video_info_data info_path_or_data in
  flag <- py_get video_info "FrameID imprint enabled" (PBool false) ;;
  if negb (py_eq_str flag "true") then Raise ValueError
  else decode_frame_number video_data video_info frame_number.
End Model.

(** ** Session Validator: [MVRDataset.validate] *)

(** The data of a session that [validate] reads, once its files are found
    and opened: the sync file, the video file of every camera, the
    [RecordingReport] mapping of every camera's info.json and the frame
    count of every video.  A camera with a video has its info.json. *)
Record MVRDataset (F : Type) : Type := {
  sync_data : SyncDataset F;
  video_paths : list (string * string);
  info_data : list (string * list (string * pyval F));
  total_frames_in_video : string -> Z
}.

Arguments sync_data {F} _.
Arguments video_paths {F} _.
Arguments info_data {F} _.
Arguments total_frames_in_video {F} _ _.

Section Validator.
Context {F : Type} {ops : FloatOps F}.

Definition get_cam_exposing_falling_edge_times_on_sync
    (sync : SyncDataset F) :=
  get_cam_line_times_on_sync sync "_cam_exposing" false.

(** A metadata value in arithmetic: an [int], a [bool], which is one, or
    a float; anything else makes the operation raise [TypeError]. *)
Definition py_num (v : pyval F) : result (num F) :=
  match v with
  | PInt z => Ok (NInt z)
  | PBool b => Ok (NInt (bool_int b))
  | PFloat x => Ok (NFloat x)
  | _ => Raise TypeError
  end.

(** [a - b] *)
Definition num_sub (a b : num F) : num F :=
  match a, b with
  | NInt x, NInt y => NInt (x - y)
  | NInt x, NFloat y => NFloat (fsub (of_int x) y)
  | NFloat x, NInt y => NFloat (fsub x (of_int y))
  | NFloat x, NFloat y => NFloat (fsub x y)
  end.

(** [a + 1]; on floats, adding 1 is subtracting -1. *)
Definition num_succ (a : num F) : num F :=
  match a with
  | NInt x => NInt (x + 1)
  | NFloat x => NFloat (fsub x (of_int (-1)))
  end.

(** [a == b] *)
Definition num_eqb (a b : num F) : bool :=
  match a, b with
  | NInt x, NInt y => x =? y
  | NInt x, NFloat y => feqb (of_int x) y
  | NFloat x, NInt y => feqb x (of_int y)
  | NFloat x, NFloat y => feqb x y
  end.

Definition is_acceptable_expected_minus_actual_frame_count
    (expected_minus_actual : num F) : bool :=
  match expected_minus_actual with
  | NInt z => Z.abs z <? 20
  | NFloat x => fltb (fabs x) (of_int 20)
  end.

(** The entries that [augmented_camera_info] adds to a camera's metadata,
    but for ["signature_exposure_duration"], a rounded median that nothing
    in this module reads and that cannot raise. *)
Record augmented_info : Type := {
  num_frames_exposed : Z;
  num_frames_transfered : Z;
  num_frames_in_video : Z;
  num_frames_expected_from_sync : num F;
  expected_minus_actual : num F;
  num_frames_from_sync : Z;
  lost_frame_percentage : F
}.

(** Two parts of the source are parameters of the model.
    [percentage lost recorded] is the arithmetic of lines 220-222,
    [100 * lost / recorded] on two metadata values.
    [checks_before_frame_count] stands for lines 266-295 of [validate],
    the checks of one camera that come before the frame-count check: they
    read the dataset and the camera's augmented metadata and return or
    raise. *)
Variable percentage : pyval F -> pyval F -> result F.
Variable checks_before_frame_count :
  MVRDataset F -> string -> augmented_info -> result unit.

(** Lines 190-223: one pass of the loop of [augmented_camera_info].  The
    call of lines 210-216 passes one video, so that [get_video_frame_times]
    finds that video and its info.json only. *)
Definition augment_camera (d : MVRDataset F)
    (cam_exposing_times cam_transfer_times
     cam_exposing_falling_edge_times : list (string * list F))
    (augmented_camera_info : list (string * augmented_info))
    (item : string * string) : result (list (string * augmented_info)) :=
  let camera_name := fst item in
  let video_path := snd item in
  camera_info <- dict_get (info_data d) camera_name ;;
  frames_lost <- dict_get camera_info "FramesLostCount" ;;
  exposing <- dict_get cam_exposing_times camera_name ;;
  let num_exposures := len exposing in
  transfers <- dict_get cam_transfer_times camera_name ;;
  let num_transfers := len transfers in
  let frames_in_video := total_frames_in_video d video_path in
  lost <- py_num frames_lost ;;
  let num_expected_from_sync := num_succ (num_sub (NInt num_transfers) lost) in
  falling <- dict_get cam_exposing_falling_edge_times camera_name ;;
  signature_exposures <- np_sub (slice_to falling 10) (slice_to exposing 10) ;;
  frame_times <- get_video_frame_times (sync_data d)
                   [(camera_name, video_path)]
                   [(camera_name, PDict camera_info)]
                   (total_frames_in_video d) false ;;
  times <- dict_get frame_times video_path ;;
  recorded <- dict_get camera_info "FramesRecorded" ;;
  lost_percentage <- percentage frames_lost recorded ;;
  Ok (dict_set augmented_camera_info camera_name
        {| num_frames_exposed := num_exposures;
           num_frames_transfered := num_transfers;
           num_frames_in_video := frames_in_video;
           num_frames_expected_from_sync := num_expected_from_sync;
           expected_minus_actual :=
             num_sub num_expected_from_sync (NInt frames_in_video);
           num_frames_from_sync := len times;
           lost_frame_percentage := lost_percentage |}).

(** Lines 181-224. *)
Definition augmented_camera_info (d : MVRDataset F)
  : result (list (string * augmented_info)) :=
  cam_exposing_times <- get_cam_exposing_times_on_sync (sync_data d) ;;
  cam_transfer_times <- get_cam_transfer_times_on_sync (sync_data d) ;;
  cam_exposing_falling_edge_times <-
    get_cam_exposing_falling_edge_times_on_sync (sync_data d) ;;
  for_each (video_paths d)
    (augment_camera d cam_exposing_times cam_transfer_times
       cam_exposing_falling_edge_times)
    [].

(** Lines 297-307: the frame-count check. *)
Definition validate_frame_count (info : augmented_info) : result unit :=
  if negb (is_acceptable_expected_minus_actual_frame_count
             (expected_minus_actual info)) then
    if negb (num_eqb (num_frames_expected_from_sync info)
                     (NInt (num_frames_from_sync info)))
    then Raise AssertionError
    else Ok tt
  else Ok tt.

(** Lines 262-307.  Opening the camera's video at line 263 does not raise;
    [augmented_camera_info] is a cached property, computed in full when it
    is first read at line 265. *)
Definition validate (d : MVRDataset F) : result unit :=
  for_each (dict_keys (video_paths d))
    (fun _ camera =>
       info_json <- dict_get (info_data d) camera ;;
       augmented <- augmented_camera_info d ;;
       augmented_info <- dict_get augmented camera ;;
       _ <- checks_before_frame_count d camera augmented_info ;;
       validate_frame_count augmented_info)
    tt.
End Validator.

Arguments augmented_info : clear implicits.

(** ** An exact-arithmetic instance of the float operations

    Rationals with a NaN.  On integers and dyadic fractions of moderate
    size the operations below return what binary64 returns. *)

Module Ideal.
Definition F : Type := option Q.

Definition lift1 (f : Q -> Q) (a : F) : F := option_map f a.

Definition lift2 (f : Q -> Q -> Q) (a b : F) : F :=
  match a, b with
  | Some x, Some y => Some (f x y)
  | _, _ => None
  end.

Definition div (a b : F) : F :=
  match a, b with
  | Some x, Some y => if Qeq_bool y 0 then None else Some (x / y)%Q
  | _, _ => None
  end.

Definition eqb (a b : F) : bool :=
  match a, b with
  | Some x, Some y => Qeq_bool x y
  | _, _ => false
  end.

Definition ltb (a b : F) : bool :=
  match a, b with
  | Some x, Some y => negb (Qle_bool y x)
  | _, _ => false
  end.

(** Round to the nearest integer, ties to the even one. *)
Definition round_half_even (q : Q) : Z :=
  let f := Qfloor q in
  match (q - inject_Z f ?= 1 # 2)%Q with
  | Lt => f
  | Gt => f + 1
  | Eq => if Z.even f then f else f + 1
  end.

Fixpoint sum (l : list F) : F :=
  match l with
  | [] => Some 0%Q
  | x :: l' => lift2 Qplus x (sum l')
  end.

Definition mean (l : list F) : F :=
  match l with
  | [] => None
  | _ => div (sum l) (Some (inject_Z (Z.of_nat (List.length l))))
  end.

Definition mean_u8 (image : list (list Z)) : F :=
  mean (map (fun z => Some (inject_Z z)) (List.concat image)).

Definition round (a : F) : result Z :=
  match a with
  | Some q => Ok (round_half_even q)
  | None => Raise ValueError
  end.

Definition trunc (a : F) : result Z :=
  match a with
  | Some q => Ok (Z.quot (Qnum q) (Zpos (Qden q)))
  | None => Raise ValueError
  end.

#[global] Instance ops : FloatOps F := {|
  nan := None;
  of_int := fun z => Some (inject_Z z);
  fsub := lift2 Qminus;
  fmul := lift2 Qmult;
  fdiv := div;
  fabs := lift1 Qabs;
  feqb := eqb;
  fltb := ltb;
  np_mean := mean;
  np_mean_u8 := mean_u8;
  np_round := lift1 (fun q => inject_Z (round_half_even q));
  py_round := round;
  py_trunc := trunc
|}.

(** The fraction [n / d]. *)
Definition frac (n : Z) (d : positive) : F := Some (n # d)%Q.
End Ideal.

(** ** Definitions used to state the properties *)

(** Number of positions [k <= j < k + n] that the lost-index array holds. *)
Definition lost_between (lost : list Z) (k n : nat) : nat :=
  List.length (filter (fun j => np_contains lost (Z.of_nat j)) (seq k n)).

(** Number of lost positions strictly below position [i]. *)
Definition lost_below (lost : list Z) (i : nat) : nat := lost_between lost 0 i.

(** Decimal rendering of a frame number, as the recorder writes it. *)
Definition show_nat (n : nat) : string :=
  NilEmpty.string_of_uint (Nat.to_uint n).

(** A lost-frame span of the metadata: one frame ["a"] or a run ["a-b"],
    frames counted from 1. *)
Inductive span : Set :=
| Single (a : nat)
| Run (a b : nat).

Definition show_span (sp : span) : string :=
  match sp with
  | Single a => show_nat a
  | Run a b => show_nat a +++ "-" +++ show_nat b
  end.

(** The integers [lo], [lo + 1], ..., [hi]. *)
Definition inclusive (lo hi : Z) : list Z :=
  map (fun i => lo + Z.of_nat i) (seq 0 (Z.to_nat (hi - lo + 1))).

(** The 0-indexed positions a span stands for. *)
Definition span_positions (sp : span) : list Z :=
  match sp with
  | Single a => [Z.of_nat a - 1]
  | Run a b => inclusive (Z.of_nat a - 1) (Z.of_nat b - 1)
  end.

Definition is_digit (c : ascii) : bool :=
  match digit_of c with Some _ => true | None => false end.

Fixpoint all_digits (s : string) : bool :=
  match s with
  | EmptyString => true
  | String c s' => is_digit c && all_digits s'
  end.

(** [sep not in s] *)
Fixpoint avoids (sep : ascii) (s : string) : bool :=
  match s with
  | EmptyString => true
  | String c s' => negb (Ascii.eqb c sep) && avoids sep s'
  end.

(** The frame numbers a span is written with. *)
Definition span_numbers (sp : span) : list nat :=
  match sp with
  | Single a => [a]
  | Run a b => [a; b]
  end.

(** Every frame number of the spans, and the number after it, which is
    the end [np.arange] is called with, fits a signed 32-bit integer, the
    narrowest integer numpy computes the positions in. *)
Definition fit_int32 (spans : list span) : bool :=
  forallb (fun n => Z.of_nat n + 1 <? 2 ^ 31) (flat_map span_numbers spans).

(** The frame numbers one span adds, still counted from 1. *)
Definition span_frames (sp : span) : list Z :=
  match sp with
  | Single a => [Z.of_nat a]
  | Run a b => inclusive (Z.of_nat a) (Z.of_nat b)
  end.

(** The metadata of the docstring of [get_lost_frames_from_camera_info]. *)
Definition doctest_info {F} : list (string * pyval F) :=
  [("LostFrames", PList [PStr "1-2,4-5,7"])].

(** [d.get(k)] seen as a value, [None] for a missing key. *)
Definition get_or_none {F} (d : list (string * pyval F)) (k : string)
  : pyval F :=
  match dict_find d k with
  | Some v => v
  | None => PNone
  end.


(** Inputs for the frame-time examples: three exposure times, no frame
    lost. *)
Definition three_times : list Ideal.F :=
  [Ideal.frac 1 1; Ideal.frac 3 2; Ideal.frac 2 1].

Definition no_frames_lost : list (string * pyval Ideal.F) :=
  [("FramesLostCount", PInt 0)].

(** A small session.  Each exposing line starts with eight exposures a
    quarter of a second apart, lasting 1/8 s on [beh], 1/16 s on [face] and
    1/32 s on [eye]; each readout line rises 1/8 s after its exposing
    line. *)
Definition burst (start : Q) : list Ideal.F :=
  map (fun i => Some (start + inject_Z (Z.of_nat i) * (1 # 4))%Q) (seq 0 8).

Definition session_rising (line : string) : list Ideal.F :=
  if String.eqb line "beh_cam_exposing" then burst 1
  else if String.eqb line "beh_cam_frame_readout" then burst (9 # 8)
  else if String.eqb line "face_cam_exposing" then burst 2
  else if String.eqb line "face_cam_frame_readout" then burst (17 # 8)
  else if String.eqb line "eye_cam_exposing" then burst 3
  else if String.eqb line "eye_cam_frame_readout" then burst (25 # 8)
  else [].

Definition session_falling (line : string) : list Ideal.F :=
  if String.eqb line "beh_cam_exposing" then burst (9 # 8)
  else if String.eqb line "face_cam_exposing" then burst (33 # 16)
  else if String.eqb line "eye_cam_exposing" then burst (97 # 32)
  else [].

Definition session_sync : SyncDataset Ideal.F :=
  {| get_rising_edges := session_rising;
     get_falling_edges := session_falling;
     line_labels :=
       ["beh_cam_exposing"; "beh_cam_frame_readout";
        "face_cam_exposing"; "face_cam_frame_readout";
        "eye_cam_exposing"; "eye_cam_frame_readout"] |}.

(** The sync file of the small session without the label of the readout
    line of the face camera, and with the label but no edge on it. *)
Definition unrecorded_readout_sync : SyncDataset Ideal.F :=
  {| get_rising_edges := session_rising;
     get_falling_edges := session_falling;
     line_labels :=
       ["beh_cam_exposing"; "beh_cam_frame_readout";
        "face_cam_exposing"; "";
        "eye_cam_exposing"; "eye_cam_frame_readout"] |}.

Definition silent_readout_sync : SyncDataset Ideal.F :=
  {| get_rising_edges :=
       fun line =>
         if String.eqb line "face_cam_frame_readout" then []
         else session_rising line;
     get_falling_edges := session_falling;
     line_labels := line_labels session_sync |}.

(** Metadata of the three cameras; the nominal exposure times say that the
    face camera drives the [eye] line and the eye camera the [face] line. *)
Definition session_jsons : list (string * pyval Ideal.F) :=
  [("behavior", PDict [("CustomInitialExposureTime", PInt 125);
                       ("FramesLostCount", PInt 0)]);
   ("face", PDict [("CustomInitialExposureTime", PInt 31);
                   ("FramesLostCount", PInt 1);
                   ("LostFrames", PList [PStr "2"])]);
   ("eye", PDict [("CustomInitialExposureTime", PInt 62);
                  ("FramesLostCount", PInt 0)])].

Definition session_videos : list (string * string) :=
  [("behavior", "Behavior.mp4"); ("face", "Face.mp4"); ("eye", "Eye.mp4")].

Definition session_frame_counts (path : string) : Z :=
  if String.eqb path "Behavior.mp4" then 11
  else if String.eqb path "Face.mp4" then 5
  else 9.

(** The [RecordingReport]s of the small session: each video holds the
    recorded frames and the metadata frame. *)
Definition behavior_report : list (string * pyval Ideal.F) :=
  [("CustomInitialExposureTime", PInt 125); ("FramesLostCount", PInt 0);
   ("FramesRecorded", PInt 10)].

Definition session_infos : list (string * list (string * pyval Ideal.F)) :=
  [("behavior", behavior_report);
   ("face", [("CustomInitialExposureTime", PInt 31);
             ("FramesLostCount", PInt 1);
             ("LostFrames", PList [PStr "2"]);
             ("FramesRecorded", PInt 4)]);
   ("eye", [("CustomInitialExposureTime", PInt 62);
            ("FramesLostCount", PInt 0);
            ("FramesRecorded", PInt 8)])].

(** The small session with videos of any number of frames. *)
Definition session_with (frame_counts : string -> Z) : MVRDataset Ideal.F :=
  {| sync_data := session_sync;
     video_paths := session_videos;
     info_data := session_infos;
     total_frames_in_video := frame_counts |}.

Definition session_dataset : MVRDataset Ideal.F :=
  session_with session_frame_counts.

Definition swapped_mapping : list (string * string) :=
  [("behavior", "beh"); ("face", "eye"); ("eye", "face")].

(** The two duration tables of the small session. *)
Definition session_expected : list (string * pyval Ideal.F) :=
  [("beh_cam_exposing", PInt 125); ("face_cam_exposing", PInt 31);
   ("eye_cam_exposing", PInt 62)].

Definition session_actual : list (string * Z) :=
  [("beh_cam_exposing", 125); ("face_cam_exposing", 62);
   ("eye_cam_exposing", 31)].

(** Synthetic barcode strips of 2 rows and 132 columns: every bit cell has
    luminance [cell], the one-pixel borders of the cells [edge] and the
    three-pixel gaps between the groups [gap]. *)
Definition strip_row (cell edge gap : Z) : list Z :=
  map (fun c =>
         let g := c mod 27 in
         if 24 <=? g then gap
         else if (g mod 6 =? 0) || (g mod 6 =? 5) then edge
         else cell)
      (arange 0 132).

Definition strip (cell edge gap : Z) : list (list Z) :=
  [strip_row cell edge gap; strip_row cell edge gap].

Definition black_strip : list (list Z) := strip 0 128 128.
Definition white_cells_strip : list (list Z) := strip 255 0 0.
Definition white_strip : list (list Z) := strip 255 255 255.

(** 1 for a white cell, 0 otherwise. *)
Definition white_bit {F} {ops : FloatOps F} (x : F) : Z :=
  bool_int (is_white x).

(** A strip whose cells spell [n] in binary, grey borders and gaps. *)
Definition coded_row (n : Z) : list Z :=
  map (fun c =>
         let g := c mod 27 in
         if (24 <=? g) || (g mod 6 =? 0) || (g mod 6 =? 5) then 128
         else if Z.testbit n (19 - (4 * (c / 27) + g / 6)) then 255
         else 0)
      (arange 0 132).

(** A frame of three rows whose rows 1 and 2 are [row], on three equal
    channels. *)
Definition frame_of_row (row : list Z) : frame :=
  map (map (fun v => [v; v; v])) [row; row; row].

(** A video whose frame 0 is white and whose frame [k] carries the
    barcode of [k]. *)
Definition coded_video : VideoCapture :=
  {| read_frame := fun k =>
       if k =? 0 then Some (frame_of_row (strip_row 255 255 255))
       else Some (frame_of_row (coded_row k)) |}.

(** The value of the imprint flag in the metadata [d]. *)
Definition imprint_flag {F} (d : list (string * pyval F)) : pyval F :=
  match dict_find d "FrameID imprint enabled" with
  | Some v => v
  | None => PBool false
  end.

(** [get_camera_name line == camera] *)
Definition names_camera (camera line : string) : bool :=
  match get_camera_name line with
  | Ok c => String.eqb c camera
  | Raise _ => false
  end.

(** The six lines whose start the resolver reads, in the order of the two
    nested loops. *)
Definition start_lines : list string :=
  ["beh_cam_exposing"; "beh_cam_frame_readout";
   "face_cam_exposing"; "face_cam_frame_readout";
   "eye_cam_exposing"; "eye_cam_frame_readout"].

(** The line is one of the labels of the sync file and has a rising
    edge. *)
Definition recorded_with_edge {F} (sync_data : SyncDataset F)
    (line : string) : Prop :=
  In line (line_labels sync_data) /\ get_rising_edges sync_data line <> [].

(** A row of the barcode layout whose cell of exponent [k] is white when
    [bits k] holds; [coded_row n] is [row_of_bits (Z.testbit n)]. *)
Definition row_of_bits (bits : Z -> bool) : list Z :=
  map (fun c =>
         let g := c mod 27 in
         if (24 <=? g) || (g mod 6 =? 0) || (g mod 6 =? 5) then 128
         else if bits (19 - (4 * (c / 27) + g / 6)) then 255
         else 0)
      (arange 0 132).

(** The pixels of one bit cell of luminance [v] on two rows. *)
Definition cell_image (v : Z) : list (list Z) :=
  [[v; v; v; v]; [v; v; v; v]].

(** Line 667 on the pixels of one cell. *)
Definition normalise {F} {ops : FloatOps F} (value_image : list (list Z))
  : F :=
  np_round
    (fsub (fmul (fdiv (np_mean_u8 value_image) (of_int 255)) (of_int 2))
          (of_int 1)).

(** The exponents of the 20 cells in image order. *)
Definition exponents : list Z :=
  [19; 18; 17; 16; 15; 14; 13; 12; 11; 10; 9; 8; 7; 6; 5; 4; 3; 2; 1; 0].

(** What the decoder needs of the float operations to read a clean
    barcode: a white cell normalises to 1 and a black one does not, the
    rounded mean of the strip of [2 ^ 20 - 1], white cells between grey
    borders, is not above 250, and that of a uniformly white strip is. *)
Definition reads_barcodes {F} (ops : FloatOps F) : Prop :=
  is_white (normalise (cell_image 255)) = true
  /\ is_white (normalise (cell_image 0)) = false
  /\ (exists r,
         py_round (np_mean_u8 [coded_row (2 ^ 20 - 1);
                               coded_row (2 ^ 20 - 1)]) = Ok r
         /\ r <= 250)
  /\ (exists r,
         py_round (np_mean_u8 [strip_row 255 255 255;
                               strip_row 255 255 255]) = Ok r
         /\ 250 < r).

(** A video that lost [lost] frames before its first data frame: frame 0
    is the white metadata frame and frame [k] carries the barcode of
    [k + lost]. *)
Definition lossy_video (lost : Z) : VideoCapture :=
  {| read_frame := fun k =>
       if k =? 0 then Some (frame_of_row (strip_row 255 255 255))
       else Some (frame_of_row (coded_row (k + lost))) |}.

(** Lines 233-242 of [num_lost_frames_from_barcodes] for one camera;
    [frame_count] is the frame count the video reports. *)
Definition num_lost_frames_from_barcode {F} {ops : FloatOps F}
    (video_data : VideoCapture) (video_info : list (string * pyval F))
    (frame_count : Z) : result Z :=
  let actual_last_frame_index := frame_count - 1 in
  match get_frame_number_from_barcode video_data video_info
          actual_last_frame_index with
  | Ok last_frame_barcode_value =>
      Ok (last_frame_barcode_value - actual_last_frame_index)
  | Raise ValueError => Raise AttributeError
  | Raise e => Raise e
  end.

(** ** Frame totals and lick frames *)

(** [get_total_frames_from_camera_info] on a mapping.  [isinstance(x, int)]
    holds of an [int] and of a [bool], a subclass of [int]. *)
Definition get_total_frames_from_camera_info {F}
    (info_path_or_data : list (string * pyval F)) : result Z :=
  let info := get_video_info_data info_path_or_data in
  reported <- py_get info "FramesRecorded" PNone ;;
  match reported with
  | PInt n => Ok (n + 1)
  | PBool b => Ok (bool_int b + 1)
  | _ => Raise AssertionError
  end.

(** What a call ends in once global names are looked up: a value, an
    exception of [exn], or the [NameError] of a name bound nowhere. *)
Inductive outcome (A : Type) : Type :=
| Returns (a : A)
| Raises (e : exn)
| RaisesNameError.

Arguments Returns {A} a.
Arguments Raises {A} e.
Arguments RaisesNameError {A}.

(** The global names of the module: the imports of lines 1-16, the
    assignments of lines 18-26 and 567, the class and the functions.
    Python's builtins, searched next, have no [re]. *)
Definition module_names : list string :=
  ["annotations"; "datetime"; "functools"; "json"; "logging"; "Container";
   "Iterable"; "Mapping"; "Any"; "Literal"; "TypeVar"; "cv2"; "npc_io";
   "npc_sync"; "np"; "npt"; "upath"; "TypeAlias"; "logger"; "MVRInfoData";
   "CameraName"; "CameraNameOnSync"; "MVRDataset";
   "is_acceptable_frame_rate"; "is_acceptable_lost_frame_percentage";
   "is_acceptable_expected_minus_actual_frame_count"; "get_camera_name";
   "get_camera_name_on_sync"; "get_camera_sync_line_name_mapping";
   "get_video_frame_times"; "get_cam_line_times_on_sync";
   "get_cam_exposing_times_on_sync";
   "get_cam_exposing_falling_edge_times_on_sync";
   "get_cam_transfer_times_on_sync"; "get_lost_frames_from_camera_info";
   "get_total_frames_from_camera_info"; "NumericT";
   "remove_lost_frame_times"; "get_video_file_paths";
   "get_video_info_file_paths"; "get_video_info_data"; "get_video_data";
   "get_barcode_image"; "get_barcode_value"; "get_barcode_value_from_frame";
   "get_barcode_image_coordinates"; "get_frame_number_from_barcode";
   "get_total_frames_in_video"; "get_closest_index";
   "get_lick_frames_from_behavior_info"; "get_frame"].

Definition bound_in_module (name : string) : bool :=
  existsb (String.eqb name) module_names.

(** [v == ["1,0"]] *)
Definition is_default_camera_input {F} (v : pyval F) : bool :=
  match v with
  | PList [PStr s] => String.eqb s "1,0"
  | _ => false
  end.

(** [v[0]]; the mappings of the metadata have [str] keys only. *)
Definition py_item0 {F} (v : pyval F) : result (pyval F) :=
  match v with
  | PList (x :: _) => Ok x
  | PList [] => Raise IndexError
  | PStr (String c _) => Ok (PStr (String c EmptyString))
  | PStr EmptyString => Raise IndexError
  | PDict _ => Raise KeyError
  | _ => Raise TypeError
  end.

(** [s.strip()] *)
Definition strip_blanks (s : string) : string := rstrip (lstrip s).

(** [re.findall(r"(\d+)(?=,1,)", s)] on an ASCII string: the maximal runs
    of digits that [",1,"] follows, [run] being the digits read since the
    last other character. *)
Fixpoint findall_before_rise (run s : string) : list string :=
  match s with
  | EmptyString => []
  | String c s' =>
      if is_digit c then findall_before_rise (run +++ String c EmptyString) s'
      else
        (if negb (String.eqb run "") && prefix ",1," (String c s')
         then [run] else [])
        ++ findall_before_rise "" s'
  end.

(** The inner function of lines 753-760. *)
Definition parse_camera_input {F} (camera_input : pyval F)
  : outcome (list Z) :=
  match py_item0 camera_input with
  | Raise e => Raises e
  | Ok first =>
      if bound_in_module "re" then
        match first with
        | PStr s =>
            match map_result (fun x => int_of_str (strip_blanks x))
                    (findall_before_rise "" s) with
            | Ok frames => Returns frames
            | Raise e => Raises e
            end
        | _ => Raises TypeError
        end
      else RaisesNameError
  end.

Definition get_lick_frames_from_behavior_info {F}
    (info_path_or_data : list (string * pyval F)) : outcome (list Z) :=
  match py_get (get_video_info_data info_path_or_data) "CameraInput"
          (PList [PStr "1,0"]) with
  | Raise e => Raises e
  | Ok camera_input =>
      if is_default_camera_input camera_input then Raises ValueError
      else parse_camera_input camera_input
  end.

(** [MVRDataset.lick_frames] of a session without sync file (lines
    253-257), from the metadata of the behavior camera. *)
Definition lick_frames_without_sync {F}
    (behavior_info : list (string * pyval F)) : outcome (list Z) :=
  match get_lick_frames_from_behavior_info behavior_info with
  | Raises ValueError => Raises AttributeError
  | r => r
  end.

(** The camera input of the docstring of line 755. *)
Definition docstring_camera_input : string :=
  "1,0,105847,1,105849,0,105936,1,105940,0,105945,1,105952,0,"
  +++ "105962,1,105966,1,398682,0".

(** * Properties *)

(** ** [remove_lost_frame_times] *)

Section RemoveLost.
Context {A : Type}.
Variable lost : list Z.

Let keep (it : Z * A) : bool := negb (np_contains lost (fst it)).

Let survivors (k : nat) (l : list A) : list A :=
  map snd (filter keep (enumerate_from (Z.of_nat k) l)).

Lemma survivors_cons k x l :
  survivors k (x :: l) =
  if np_contains lost (Z.of_nat k) then survivors (S k) l
  else x :: survivors (S k) l.
Proof.
  unfold survivors, keep; simpl.
  replace (Z.of_nat k + 1) with (Z.of_nat (S k)) by lia.
  destruct (np_contains lost (Z.of_nat k)); reflexivity.
Qed.

Lemma lost_between_succ k n :
  lost_between lost k (S n) =
  ((if np_contains lost (Z.of_nat k) then 1 else 0)
   + lost_between lost (S k) n)%nat.
Proof.
  unfold lost_between; simpl.
  destruct (np_contains lost (Z.of_nat k)); reflexivity.
Qed.

Lemma lost_between_le k n : (lost_between lost k n <= n)%nat.
Proof.
  unfold lost_between.
  eapply Nat.le_trans; [apply filter_length_le|].
  rewrite length_seq. apply Nat.le_refl.
Qed.

Lemma survivors_nth k l :
  forall i x,
    nth_error l i = Some x ->
    np_contains lost (Z.of_nat (k + i)) = false ->
    nth_error (survivors k l) (i - lost_between lost k i) = Some x.
Proof.
  revert k; induction l as [|y l IH]; intros k i x Hnth Hkeep.
  - destruct i; discriminate.
  - rewrite survivors_cons. destruct i as [|i].
    + simpl in Hnth. injection Hnth as ->.
      rewrite Nat.add_0_r in Hkeep. rewrite Hkeep. reflexivity.
    + simpl in Hnth. rewrite lost_between_succ.
      pose proof (lost_between_le (S k) i) as Hle.
      assert (Hi : np_contains lost (Z.of_nat (S k + i)) = false)
        by (rewrite <- Hkeep; f_equal; lia).
      specialize (IH (S k) i x Hnth Hi).
      destruct (np_contains lost (Z.of_nat k)).
      * replace (S i - (1 + lost_between lost (S k) i))%nat
          with (i - lost_between lost (S k) i)%nat by lia.
        exact IH.
      * replace (S i - (0 + lost_between lost (S k) i))%nat
          with (S (i - lost_between lost (S k) i)) by lia.
        exact IH.
Qed.

Lemma survivors_length k l :
  (List.length (survivors k l) + lost_between lost k (List.length l)
   = List.length l)%nat.
Proof.
  revert k; induction l as [|y l IH]; intro k.
  - reflexivity.
  - rewrite survivors_cons. cbn [List.length].
    rewrite lost_between_succ. specialize (IH (S k)).
    destruct (np_contains lost (Z.of_nat k)); simpl; lia.
Qed.

Lemma survivors_eq l : remove_lost_frame_times l lost = survivors 0 l.
Proof. reflexivity. Qed.
End RemoveLost.

Lemma remove_nothing {A} (l : list A) : remove_lost_frame_times l [] = l.
Proof.
  unfold remove_lost_frame_times, enumerate.
  generalize 0. induction l as [|x l IH]; intro k; simpl.
  - reflexivity.
  - f_equal. apply IH.
Qed.

(** C5. [remove_lost_frame_times] keeps, in their original order, exactly
    the entries whose position is not in the lost-index array: the entry
    at a surviving position [i] moves down by the number of lost positions
    below [i], nothing else is in the result, and with an empty lost-index
    array the input comes back unchanged. *)
Theorem remove_lost_frame_times_exact {A} (frame_times : list A)
    (lost : list Z) :
  (forall i x,
      nth_error frame_times i = Some x ->
      np_contains lost (Z.of_nat i) = false ->
      nth_error (remove_lost_frame_times frame_times lost)
                (i - lost_below lost i) = Some x)
  /\ (List.length (remove_lost_frame_times frame_times lost)
      + lost_below lost (List.length frame_times)
      = List.length frame_times)%nat
  /\ remove_lost_frame_times frame_times [] = frame_times.
Proof.
  split; [|split].
  - intros i x Hnth Hkeep. rewrite survivors_eq.
    apply (survivors_nth lost 0 frame_times i x Hnth Hkeep).
  - rewrite survivors_eq. apply survivors_length.
  - apply remove_nothing.
Qed.

(** The docstring's call: of [1, 2, 3, 4, 5] without positions 1 and 3 the
    entry at position 4 ends at position 2, and three entries are left. *)
Lemma remove_lost_frame_times_exact_witness :
  remove_lost_frame_times [1; 2; 3; 4; 5] [1; 3] = [1; 3; 5]
  /\ nth_error (remove_lost_frame_times [1; 2; 3; 4; 5] [1; 3]) 2 = Some 5
  /\ Nat.add (List.length (remove_lost_frame_times [1; 2; 3; 4; 5] [1; 3])) 2
     = 5%nat.
Proof.
  pose proof (remove_lost_frame_times_exact [1; 2; 3; 4; 5] [1; 3])
    as (Hnth & Hlen & _).
  split; [reflexivity|]. split.
  - exact (Hnth 4%nat 5 eq_refl eq_refl).
  - exact Hlen.
Defined.

(** ** Strings of digits *)

Lemma string_of_uint_digits d : all_digits (NilEmpty.string_of_uint d) = true.
Proof. induction d; simpl; auto. Qed.

Lemma digit_not_sep c sep :
  is_digit c = true -> is_digit sep = false -> Ascii.eqb c sep = false.
Proof.
  intros Hc Hsep. destruct (Ascii.eqb c sep) eqn:E; [|reflexivity].
  apply Ascii.eqb_eq in E. subst. congruence.
Qed.

Lemma digits_avoid sep s :
  is_digit sep = false -> all_digits s = true -> avoids sep s = true.
Proof.
  intro Hsep. induction s as [|c s IH]; simpl; [reflexivity|].
  intro H. apply andb_prop in H as [Hc Hs].
  rewrite (digit_not_sep c sep Hc Hsep). simpl. auto.
Qed.

Lemma avoids_app sep s t :
  avoids sep (s +++ t) = avoids sep s && avoids sep t.
Proof.
  induction s as [|c s IH]; simpl; [reflexivity|].
  rewrite IH. apply andb_assoc.
Qed.

Lemma split_avoids sep s : avoids sep s = true -> split sep s = [s].
Proof.
  induction s as [|c s IH]; simpl; [reflexivity|].
  intro H. apply andb_prop in H as [Hc Hs].
  apply negb_true_iff in Hc. rewrite Hc, (IH Hs). reflexivity.
Qed.

Lemma split_app sep s t :
  avoids sep s = true ->
  split sep (s +++ String sep t) = s :: split sep t.
Proof.
  induction s as [|c s IH]; simpl.
  - intros _. rewrite Ascii.eqb_refl. reflexivity.
  - intro H. apply andb_prop in H as [Hc Hs].
    apply negb_true_iff in Hc. rewrite Hc, (IH Hs). reflexivity.
Qed.

Lemma split_concat sep x l :
  Forall (fun s => avoids sep s = true) (x :: l) ->
  split sep (String.concat (String sep "") (x :: l)) = x :: l.
Proof.
  revert x; induction l as [|y l IH]; intros x H.
  - simpl. apply split_avoids. now inversion H.
  - change (String.concat (String sep "") (x :: y :: l))
      with (x +++ String sep (String.concat (String sep "") (y :: l))).
    inversion H as [|? ? Hx Hl]; subst.
    rewrite (split_app sep x _ Hx), (IH y Hl). reflexivity.
Qed.

Lemma digit_not_space c : is_digit c = true -> is_space c = false.
Proof.
  unfold is_digit, digit_of, is_space.
  generalize (nat_of_ascii c) as n; intro n.
  destruct ((48 <=? n)%nat && (n <=? 57)%nat) eqn:E; [|discriminate].
  intros _. apply andb_prop in E as [E1 E2].
  apply Nat.leb_le in E1. apply Nat.leb_le in E2.
  apply orb_false_iff; split; apply andb_false_iff.
  - right. apply Nat.leb_gt. lia.
  - right. apply Nat.leb_gt. lia.
Qed.

Lemma lstrip_digits s : all_digits s = true -> lstrip s = s.
Proof.
  destruct s as [|c s]; simpl; [reflexivity|].
  intro H. apply andb_prop in H as [Hc _].
  now rewrite (digit_not_space c Hc).
Qed.

Lemma rstrip_digits s : all_digits s = true -> rstrip s = s.
Proof.
  induction s as [|c s IH]; simpl; [reflexivity|].
  intro H. apply andb_prop in H as [Hc Hs].
  rewrite (IH Hs). destruct s; [|reflexivity].
  now rewrite (digit_not_space c Hc).
Qed.

Lemma int_digits_of_uint d acc :
  int_digits (NilEmpty.string_of_uint d) (Z.of_nat acc)
  = Some (Z.of_nat (Nat.of_uint_acc d acc)).
Proof.
  revert acc; induction d; intro acc;
    cbn [NilEmpty.string_of_uint Nat.of_uint_acc];
    [reflexivity|..];
    cbn [int_digits Ascii.eqb Bool.eqb];
    match goal with
    | |- context [digit_of ?c] =>
        let v := eval vm_compute in (digit_of c) in
        change (digit_of c) with v
    end;
    cbv iota; rewrite <- IHd; f_equal;
    rewrite Nat.tail_mul_spec; lia.
Qed.

Lemma int_of_str_show_nat n : int_of_str (show_nat n) = Ok (Z.of_nat n).
Proof.
  unfold show_nat, int_of_str.
  pose proof (DecimalNat.Unsigned.of_to n) as Hn.
  assert (Hnil : Nat.to_uint n <> Decimal.Nil).
  { rewrite <- Hn at 1. rewrite DecimalNat.Unsigned.to_of.
    apply DecimalFacts.unorm_nonnil. }
  pose proof (string_of_uint_digits (Nat.to_uint n)) as Hd.
  rewrite (lstrip_digits _ Hd), (rstrip_digits _ Hd).
  unfold Nat.of_uint in Hn.
  destruct (Nat.to_uint n) as [|d|d|d|d|d|d|d|d|d|d]; [congruence|..];
    cbn [NilEmpty.string_of_uint Nat.of_uint_acc] in *;
    cbv beta iota; unfold int_unsigned;
    match goal with
    | |- context [digit_of ?c] =>
        let v := eval vm_compute in (digit_of c) in
        change (digit_of c) with v
    end;
    cbv iota;
    match goal with
    | |- context [int_digits _ ?z] =>
        let k := eval vm_compute in (Z.to_nat z) in
        change z with (Z.of_nat k)
    end;
    rewrite int_digits_of_uint, <- Hn; reflexivity.
Qed.

Lemma show_nat_digits n : all_digits (show_nat n) = true.
Proof. apply string_of_uint_digits. Qed.

Lemma show_nat_avoids sep n :
  is_digit sep = false -> avoids sep (show_nat n) = true.
Proof. intro H. apply digits_avoid; [exact H | apply show_nat_digits]. Qed.

Lemma show_span_avoids_comma sp : avoids "," (show_span sp) = true.
Proof.
  destruct sp as [a|a b]; simpl.
  - now apply show_nat_avoids.
  - rewrite avoids_app. rewrite show_nat_avoids by reflexivity.
    simpl. now apply show_nat_avoids.
Qed.

(** ** [get_lost_frames_from_camera_info] *)

Lemma arange_inclusive a b : arange a (b + 1) = inclusive a b.
Proof.
  unfold arange, inclusive.
  replace (b + 1 - a) with (b - a + 1) by lia. reflexivity.
Qed.

Lemma map_pred_inclusive a b :
  map (fun z => z - 1) (inclusive a b) = inclusive (a - 1) (b - 1).
Proof.
  unfold inclusive. rewrite map_map.
  replace (b - 1 - (a - 1) + 1) with (b - a + 1) by lia.
  apply map_ext. intro i. lia.
Qed.

Section LostFrames.
Context {F : Type} {ops : FloatOps F}.

Lemma add_span_show acc sp :
  add_span acc (show_span sp) = Ok (acc ++ span_frames sp).
Proof.
  unfold add_span. destruct sp as [a|a b]; simpl.
  - rewrite split_avoids by now apply show_nat_avoids.
    rewrite int_of_str_show_nat. reflexivity.
  - rewrite split_app by now apply show_nat_avoids.
    rewrite split_avoids by now apply show_nat_avoids.
    rewrite !int_of_str_show_nat. simpl.
    now rewrite arange_inclusive.
Qed.

Lemma add_spans_show spans : forall acc,
  for_each (map show_span spans) add_span acc
  = Ok (acc ++ flat_map span_frames spans).
Proof.
  induction spans as [|sp spans IH]; intro acc; simpl.
  - now rewrite app_nil_r.
  - rewrite add_span_show. simpl. rewrite IH, <- app_assoc. reflexivity.
Qed.

Lemma span_positions_frames spans :
  map (fun z => z - 1) (flat_map span_frames spans)
  = flat_map span_positions spans.
Proof.
  induction spans as [|sp spans IH]; simpl; [reflexivity|].
  rewrite map_app, IH. f_equal.
  destruct sp as [a|a b]; simpl; [reflexivity|].
  apply map_pred_inclusive.
Qed.

(** What the function does once the metadata mapping [d] is in hand. *)
Lemma get_lost_frames_unfold (info : list (string * pyval F)) d :
  get_video_info_data info = PDict d ->
  get_lost_frames_from_camera_info info =
  (if py_eq_int
        (match dict_find d "FramesLostCount" with
         | Some c => c
         | None => PNone
         end) 0
   then Ok []
   else
     match dict_find d "LostFrames" with
     | None => Raise KeyError
     | Some (PList []) => Raise IndexError
     | Some (PList (PStr s :: _)) =>
         lost_frames <- for_each (split "," s) add_span [] ;;
         Ok (map (fun z => z - 1) lost_frames)
     | Some (PList (_ :: _)) => Raise AttributeError
     | Some _ => Raise AssertionError
     end).
Proof.
  intro Hd. unfold get_lost_frames_from_camera_info. rewrite Hd.
  cbn [py_get bind].
  destruct (py_eq_int _ 0); [reflexivity|].
  unfold py_getitem, dict_get.
  destruct (dict_find d "LostFrames") as [v|]; [|reflexivity].
  cbn [bind].
  destruct v as [| | | | |l|]; try reflexivity.
  destruct l as [|x l]; [reflexivity|].
  cbn [bind]. destruct x; reflexivity.
Qed.
End LostFrames.

(** The positions of spans whose frame numbers fit 32 bits fit them too. *)
Lemma span_positions_fit (spans : list span) :
  fit_int32 spans = true ->
  Forall (fun z => -1 <= z < 2 ^ 31) (flat_map span_positions spans).
Proof.
  unfold fit_int32. rewrite forallb_forall. intro Hfit.
  apply Forall_forall. intros z Hz.
  apply in_flat_map in Hz as (sp & Hsp & Hz).
  assert (Hn : forall n, In n (span_numbers sp) -> Z.of_nat n + 1 < 2 ^ 31).
  { intros n Hn. apply Z.ltb_lt, Hfit, in_flat_map. now exists sp. }
  destruct sp as [a|a b]; cbn [span_positions span_numbers In] in Hz, Hn.
  - destruct Hz as [<-|[]]. specialize (Hn a (or_introl eq_refl)). lia.
  - unfold inclusive in Hz. apply in_map_iff in Hz as (i & <- & Hi).
    apply in_seq in Hi.
    pose proof (Hn a (or_introl eq_refl)).
    pose proof (Hn b (or_intror (or_introl eq_refl))). lia.
Qed.

(** C3. When the metadata says frames were lost and the first entry of
    [LostFrames] is a comma-separated list of spans counted from 1, with
    frame numbers that fit numpy's integers, the function returns the
    0-indexed positions of the spans in order: [a - 1] for a single frame
    ["a"], [a - 1, ..., b - 1] for a run ["a-b"]; every position fits the
    same integers, so that the fixed-width subtraction of line 555 is the
    subtraction of the model. *)
Theorem lost_frames_from_spans {F} {ops : FloatOps F}
    (info d : list (string * pyval F)) (spans : list span)
    (rest : list (pyval F)) :
  spans <> [] ->
  fit_int32 spans = true ->
  get_video_info_data info = PDict d ->
  py_eq_int (get_or_none d "FramesLostCount") 0 = false ->
  dict_find d "LostFrames"
  = Some (PList (PStr (String.concat "," (map show_span spans)) :: rest)) ->
  get_lost_frames_from_camera_info info = Ok (flat_map span_positions spans)
  /\ Forall (fun z => -1 <= z < 2 ^ 31) (flat_map span_positions spans).
Proof.
  intros Hne Hfit Hd Hcount Hlost.
  split; [|exact (span_positions_fit spans Hfit)].
  rewrite (get_lost_frames_unfold info d Hd).
  unfold get_or_none in Hcount. rewrite Hcount, Hlost.
  destruct spans as [|sp spans]; [congruence|].
  change (map show_span (sp :: spans))
    with (show_span sp :: map show_span spans).
  rewrite split_concat.
  - change (show_span sp :: map show_span spans)
      with (map show_span (sp :: spans)).
    rewrite add_spans_show. cbn [bind app].
    now rewrite span_positions_frames.
  - change (show_span sp :: map show_span spans)
      with (map show_span (sp :: spans)).
    apply Forall_forall. intros s Hs.
    apply in_map_iff in Hs as [sp' [<- _]].
    apply show_span_avoids_comma.
Qed.

(** The docstring's input ["1-2,4-5,7"] gives the positions 0, 1, 3, 4, 6. *)
Lemma lost_frames_from_spans_witness :
  get_lost_frames_from_camera_info (ops := Ideal.ops) doctest_info
  = Ok [0; 1; 3; 4; 6].
Proof.
  apply (lost_frames_from_spans (ops := Ideal.ops) doctest_info doctest_info
           [Run 1 2; Run 4 5; Single 7] []); discriminate || reflexivity.
Defined.



(** ** Frame Time Reconstructor *)

Lemma len_app {A} (l1 l2 : list A) : len (l1 ++ l2) = len l1 + len l2.
Proof. unfold len. rewrite length_app. lia. Qed.

Lemma len_repeat {A} (x : A) n : len (repeat x n) = Z.of_nat n.
Proof. unfold len. now rewrite repeat_length. Qed.

Lemma len_nonneg {A} (l : list A) : 0 <= len l.
Proof. unfold len. lia. Qed.

Lemma slice_to_nonneg {A} (l : list A) k :
  0 <= k -> slice_to l k = firstn (Z.to_nat k) l.
Proof.
  intro Hk. unfold slice_to, slice_bound.
  destruct (k <? 0) eqn:E; [apply Z.ltb_lt in E; lia|].
  destruct (Nat.le_ge_cases (List.length l) (Z.to_nat k)) as [H|H].
  - rewrite Nat.min_l by exact H. now rewrite !firstn_all2.
  - now rewrite Nat.min_r.
Qed.

Lemma len_slice_to {A} (l : list A) k :
  len (slice_to l k) =
  if k <? 0 then Z.max 0 (len l + k) else Z.min (len l) k.
Proof.
  unfold slice_to, slice_bound, len.
  destruct (k <? 0) eqn:E; rewrite length_firstn.
  - apply Z.ltb_lt in E. lia.
  - apply Z.ltb_ge in E. lia.
Qed.

Section Reconstructor.
Context {F : Type} {ops : FloatOps F}.

(** The corrected array, case by case on the number of frames [V]. *)
Lemma reconcile_cases (V : Z) (l : list F) :
  let produced := nan :: l in
  (len produced < V ->
   reconcile_frame_times true V l
   = Ok (produced ++ repeat nan (Z.to_nat (V - len produced))))
  /\ (0 <= V < len produced ->
      reconcile_frame_times true V l = Ok (firstn (Z.to_nat V) produced))
  /\ (V = len produced -> reconcile_frame_times true V l = Ok produced)
  /\ (V < 0 -> reconcile_frame_times true V l = Raise AssertionError).
Proof.
  intro produced. unfold reconcile_frame_times. fold produced.
  cbn [andb].
  pose proof (len_nonneg produced) as Hn.
  repeat split; intro HV.
  - destruct (V - len produced >? 0) eqn:E;
      [|rewrite Z.gtb_ltb in E; apply Z.ltb_ge in E; lia].
    rewrite len_app, len_repeat.
    replace (len produced + Z.of_nat (Z.to_nat (V - len produced)) =? V)
      with true by (symmetry; apply Z.eqb_eq; lia).
    reflexivity.
  - destruct (V - len produced >? 0) eqn:E;
      [rewrite Z.gtb_ltb in E; apply Z.ltb_lt in E; lia|].
    destruct (len produced >? V) eqn:E';
      [|rewrite Z.gtb_ltb in E'; apply Z.ltb_ge in E'; lia].
    rewrite len_slice_to.
    destruct (V <? 0) eqn:E''; [apply Z.ltb_lt in E''; lia|].
    replace (Z.min (len produced) V =? V)
      with true by (symmetry; apply Z.eqb_eq; lia).
    now rewrite slice_to_nonneg by lia.
  - destruct (V - len produced >? 0) eqn:E;
      [rewrite Z.gtb_ltb in E; apply Z.ltb_lt in E; lia|].
    destruct (len produced >? V) eqn:E';
      [rewrite Z.gtb_ltb in E'; apply Z.ltb_lt in E'; lia|].
    replace (len produced =? V) with true by (symmetry; apply Z.eqb_eq; lia).
    reflexivity.
  - destruct (V - len produced >? 0) eqn:E;
      [rewrite Z.gtb_ltb in E; apply Z.ltb_lt in E; lia|].
    destruct (len produced >? V) eqn:E';
      [|rewrite Z.gtb_ltb in E'; apply Z.ltb_ge in E'; lia].
    rewrite len_slice_to.
    destruct (V <? 0) eqn:E''; [|apply Z.ltb_ge in E''; lia].
    replace (Z.max 0 (len produced + V) =? V)
      with false by (symmetry; apply Z.eqb_neq; lia).
    reflexivity.
Qed.

(** Whatever is returned under correction has the length of the video. *)
Lemma reconcile_length (V : Z) (l times : list F) :
  reconcile_frame_times true V l = Ok times -> len times = V.
Proof.
  unfold reconcile_frame_times. cbn [andb].
  match goal with
  | |- (if (?n =? V) then _ else _) = _ -> _ => destruct (n =? V) eqn:E
  end; [|discriminate].
  intro H. injection H as <-. now apply Z.eqb_eq.
Qed.

Lemma reconcile_uncorrected (V : Z) (l : list F) :
  reconcile_frame_times false V l = Ok (nan :: l).
Proof. reflexivity. Qed.

Lemma camera_frame_times_unfold apply V exposing_times
    (info : list (string * pyval F)) lost :
  get_lost_frames_from_camera_info info = Ok lost ->
  camera_frame_times apply V exposing_times (PDict info)
  = reconcile_frame_times apply V
      (remove_lost_frame_times exposing_times lost).
Proof. intro H. unfold camera_frame_times. cbn [bind]. now rewrite H. Qed.
End Reconstructor.

(** The array of one camera under correction, case by case on the number
    of frames [V] of its video. *)
Lemma camera_frame_times_cases {F} {ops : FloatOps F} (V : Z)
    (exposing_times : list F) (info : list (string * pyval F))
    (lost : list Z) :
  get_lost_frames_from_camera_info info = Ok lost ->
  let produced := nan :: remove_lost_frame_times exposing_times lost in
  let returned := camera_frame_times true V exposing_times (PDict info) in
  (len produced < V ->
   returned = Ok (produced ++ repeat nan (Z.to_nat (V - len produced))))
  /\ (0 <= V < len produced ->
      returned = Ok (firstn (Z.to_nat V) produced))
  /\ (V = len produced -> returned = Ok produced)
  /\ (V < 0 -> returned = Raise AssertionError)
  /\ (forall times, returned = Ok times -> len times = V).
Proof.
  intros Hlost produced returned. subst returned.
  rewrite (camera_frame_times_unfold true V exposing_times info lost Hlost).
  pose proof (reconcile_cases V (remove_lost_frame_times exposing_times lost))
    as (H1 & H2 & H3 & H4).
  repeat split; try assumption.
  intros times. apply reconcile_length.
Qed.

Lemma for_each_preserves {A S} (P : S -> Prop) (body : S -> A -> result S)
    (xs : list A) :
  (forall acc x acc', P acc -> body acc x = Ok acc' -> P acc') ->
  forall acc r, P acc -> for_each xs body acc = Ok r -> P r.
Proof.
  intro Hstep. induction xs as [|x xs IH]; intros acc r Hacc; simpl.
  - intro H. now injection H as <-.
  - destruct (body acc x) as [acc'|e] eqn:E; simpl; [|discriminate].
    apply IH. exact (Hstep acc x acc' Hacc E).
Qed.

Lemma for_each_app {A S} (body : S -> A -> result S) (xs ys : list A) :
  forall acc,
    for_each (xs ++ ys) body acc
    = (acc' <- for_each xs body acc ;; for_each ys body acc').
Proof.
  induction xs as [|x xs IH]; intro acc; cbn [app for_each bind].
  - reflexivity.
  - destruct (body acc x); cbn [bind]; [apply IH | reflexivity].
Qed.

Lemma dict_set_Forall {V} (P : string * V -> Prop) d k v :
  Forall P d -> P (k, v) -> Forall P (dict_set d k v).
Proof.
  intros Hd Hkv. induction d as [|[k' v'] d IH]; simpl.
  - now constructor.
  - inversion Hd; subst. destruct (String.eqb k k'); constructor; auto.
Qed.

(** Over the whole loop of [get_video_frame_times]: every array that is
    returned under correction has the length of its video. *)
Lemma video_frame_times_lengths {F} {ops : FloatOps F} mapping
    (sync_data : SyncDataset F) videos jsons frame_counts frame_times :
  video_frame_times_of_mapping mapping sync_data videos jsons frame_counts
    true = Ok frame_times ->
  Forall (fun kv => len (snd kv) = frame_counts (fst kv)) frame_times.
Proof.
  unfold video_frame_times_of_mapping.
  destruct (get_cam_exposing_times_on_sync sync_data) as [lines|];
    [|discriminate].
  cbn [bind].
  destruct (for_each (dict_keys lines) _ []) as [times|]; [|discriminate].
  cbn [bind].
  apply for_each_preserves; [|constructor].
  intros acc camera acc' Hacc.
  destruct (dict_mem videos camera); [|intro H; now injection H as <-].
  destruct (dict_get videos camera) as [path|]; [|discriminate].
  cbn [bind].
  destruct (dict_get times camera) as [t|]; [|discriminate].
  cbn [bind].
  destruct (dict_get jsons camera) as [json|]; [|discriminate].
  cbn [bind].
  destruct (camera_frame_times true (frame_counts path) t json)
    as [arr|] eqn:E; [|discriminate].
  cbn [bind]. intro H. injection H as <-.
  apply dict_set_Forall; [exact Hacc|]. cbn [fst snd].
  unfold camera_frame_times in E.
  destruct json; try discriminate. cbn [bind] in E.
  destruct (get_lost_frames_from_camera_info d); [|discriminate].
  cbn [bind] in E. exact (reconcile_length _ _ _ E).
Qed.

(** The loop on the small session, with the lines of the face and eye
    cameras swapped: three arrays of the three videos' lengths. *)
Example session_frame_times :
  video_frame_times_of_mapping swapped_mapping session_sync session_videos
    session_jsons session_frame_counts true
  = Ok [("Behavior.mp4", [nan] ++ burst 1 ++ [nan; nan]);
        ("Face.mp4", [nan; Ideal.frac 12 4; Ideal.frac 14 4; Ideal.frac 15 4;
                      Ideal.frac 16 4]);
        ("Eye.mp4", [nan] ++ burst 2)].
Proof. vm_compute. reflexivity. Qed.

(** For one camera, lines 461-489 with correction enabled: the timestamps
    left after lost-frame removal, behind the metadata frame's NaN, are
    followed by NaN entries when the video holds more frames, cut at the
    end when it holds fewer, and kept as they are when the counts agree; a
    frame count that no length can equal fails the assertion, and every
    array that is returned has as many entries as the video has frames. *)
Theorem reconstruction_pads_or_cuts {F} {ops : FloatOps F} (V : Z)
    (exposing_times : list F) (info : list (string * pyval F))
    (lost : list Z) :
  get_lost_frames_from_camera_info info = Ok lost ->
  let produced := nan :: remove_lost_frame_times exposing_times lost in
  let returned := camera_frame_times true V exposing_times (PDict info) in
  (len produced < V ->
   returned = Ok (produced ++ repeat nan (Z.to_nat (V - len produced))))
  /\ (0 <= V < len produced ->
      returned = Ok (firstn (Z.to_nat V) produced))
  /\ (V = len produced -> returned = Ok produced)
  /\ (V < 0 -> returned = Raise AssertionError)
  /\ (forall times, returned = Ok times -> len times = V).
Proof.
  intro Hlost.
  exact (camera_frame_times_cases V exposing_times info lost Hlost).
Qed.

(** Three timestamps and a video of 6 frames: one NaN in front, two
    behind; a video of 2 frames: the array is cut to 2 entries. *)
Lemma reconstruction_pads_or_cuts_witness :
  camera_frame_times true 6 three_times (PDict no_frames_lost)
  = Ok ([nan] ++ three_times ++ [nan; nan])
  /\ camera_frame_times true 2 three_times (PDict no_frames_lost)
     = Ok [nan; Ideal.frac 1 1].
Proof.
  split.
  - pose proof (reconstruction_pads_or_cuts 6 three_times no_frames_lost []
                  eq_refl) as (H & _).
    apply H. reflexivity.
  - pose proof (reconstruction_pads_or_cuts 2 three_times no_frames_lost []
                  eq_refl) as (_ & H & _).
    apply H. split; [discriminate | reflexivity].
Defined.

(** C1 (defect of the code).  On the small session, whose videos hold 11,
    5 and 9 frames, [get_video_frame_times] with correction enabled
    returns no array of any length: the resolver it calls at line 447
    raises the [ValueError] of line 399, and the loop of lines 456-491 is
    not reached. *)
Theorem frame_times_raise_with_correction :
  get_video_frame_times session_sync session_videos session_jsons
    session_frame_counts true
  = Raise ValueError.
Proof. vm_compute. reflexivity. Qed.

(** For one camera, lines 461-489: the array starts with the one NaN
    that stands for the metadata frame whenever the video has at least one
    frame, and always when no correction is applied, where the array is
    that NaN followed by the timestamps left after lost-frame removal. *)
Theorem metadata_frame_nan_first {F} {ops : FloatOps F} (V : Z)
    (exposing_times : list F) (info : list (string * pyval F))
    (lost : list Z) :
  get_lost_frames_from_camera_info info = Ok lost ->
  camera_frame_times false V exposing_times (PDict info)
  = Ok (nan :: remove_lost_frame_times exposing_times lost)
  /\ (1 <= V ->
      exists rest,
        camera_frame_times true V exposing_times (PDict info)
        = Ok (nan :: rest)).
Proof.
  intro Hlost. split.
  - now rewrite (camera_frame_times_unfold false V _ info lost Hlost).
  - intro HV.
    rewrite (camera_frame_times_unfold true V _ info lost Hlost).
    set (l := remove_lost_frame_times exposing_times lost).
    pose proof (reconcile_cases V l) as (H1 & H2 & H3 & _).
    cbv zeta in H1, H2, H3.
    destruct (Z.lt_trichotomy (len (nan :: l)) V) as [Hlt|[Heq|Hgt]].
    + rewrite (H1 Hlt). cbn [app]. eauto.
    + rewrite (H3 (eq_sym Heq)). eauto.
    + rewrite H2 by lia.
      destruct (Z.to_nat V) as [|n] eqn:En; [lia|].
      cbn [firstn]. eauto.
Qed.

Lemma metadata_frame_nan_first_witness :
  camera_frame_times false 2 three_times (PDict no_frames_lost)
  = Ok (nan :: three_times)
  /\ exists rest,
       camera_frame_times true 2 three_times (PDict no_frames_lost)
       = Ok (nan :: rest).
Proof.
  pose proof (metadata_frame_nan_first 2 three_times no_frames_lost []
                eq_refl) as [H0 H1].
  split; [exact H0 | apply H1; discriminate].
Defined.

(** ** Line Identity Resolver *)

Lemma dict_find_set_same {V} (d : list (string * V)) k v :
  dict_find (dict_set d k v) k = Some v.
Proof.
  induction d as [|[k' v'] d IH]; simpl.
  - now rewrite String.eqb_refl.
  - destruct (String.eqb k k') eqn:E; simpl.
    + now rewrite String.eqb_refl.
    + now rewrite E.
Qed.

Section Resolver.
Context {F : Type} {ops : FloatOps F}.

(** A tuple of line names holds no float. *)
Lemma index_of_time_fails (lines : list string) (t : F) : forall i,
  tuple_index_from str_eq_float i lines t = Raise ValueError.
Proof. induction lines as [|l lines IH]; intro i; simpl; auto. Qed.

Lemma assert_readout_fails (start_times : list (string * F)) lines name :
  exists e, assert_readout_follows_exposing start_times lines name = Raise e.
Proof.
  unfold assert_readout_follows_exposing.
  destruct (dict_get start_times (name +++ "_cam_exposing")) as [t|e];
    cbn [bind]; [|eauto].
  unfold tuple_index. rewrite index_of_time_fails. cbn [bind]. eauto.
Qed.

(** No input makes the resolver return a mapping. *)
Lemma resolver_never_returns (sync_data : SyncDataset F) jsons :
  exists e, get_camera_sync_line_name_mapping sync_data jsons = Raise e.
Proof.
  unfold get_camera_sync_line_name_mapping.
  destruct (get_start_times_on_sync sync_data) as [st|e]; cbn [bind]; [|eauto].
  destruct (get_exposure_fingerprint_durations_from_jsons jsons) as [ex|e];
    cbn [bind]; [|eauto].
  destruct (get_exposure_fingerprint_durations_from_sync sync_data) as [ac|e];
    cbn [bind]; [|eauto].
  unfold camera_names_on_sync. cbn [for_each].
  destruct (assign_actual_line ex ac [] "beh") as [m|e]; cbn [bind]; [|eauto].
  destruct (assert_readout_fails st (map fst (sorted snd st)) "beh")
    as [e He].
  rewrite He. cbn [bind]. eauto.
Qed.

Lemma frame_times_never_return (sync_data : SyncDataset F) videos jsons
    frame_counts apply_correction :
  exists e,
    get_video_frame_times sync_data videos jsons frame_counts
      apply_correction = Raise e.
Proof.
  unfold get_video_frame_times.
  destruct (resolver_never_returns sync_data jsons) as [e He].
  rewrite He. cbn [bind]. eauto.
Qed.

Lemma durations_from_sync_inv (sync_data : SyncDataset F) actual :
  get_exposure_fingerprint_durations_from_sync sync_data = Ok actual ->
  exists a1 a2 a3,
    signature_duration sync_data "beh_cam_exposing" = Ok a1
    /\ signature_duration sync_data "face_cam_exposing" = Ok a2
    /\ signature_duration sync_data "eye_cam_exposing" = Ok a3
    /\ actual = [("beh_cam_exposing", a1); ("face_cam_exposing", a2);
                 ("eye_cam_exposing", a3)].
Proof.
  unfold get_exposure_fingerprint_durations_from_sync, camera_names_on_sync.
  cbn [for_each String.append].
  destruct (signature_duration sync_data "beh_cam_exposing") as [a1|];
    [|discriminate].
  cbn [bind dict_set].
  destruct (signature_duration sync_data "face_cam_exposing") as [a2|];
    [|discriminate].
  cbn [bind]. 
  destruct (signature_duration sync_data "eye_cam_exposing") as [a3|];
    [|discriminate].
  cbn [bind]. intro H. injection H as <-.
  exists a1, a2, a3. repeat split; reflexivity.
Qed.

Lemma durations_from_jsons_inv (jsons : list (string * pyval F)) expected :
  get_exposure_fingerprint_durations_from_jsons jsons = Ok expected ->
  exists v1 v2 v3,
    (info <- dict_get jsons "behavior" ;;
     py_getitem info "CustomInitialExposureTime") = Ok v1
    /\ (info <- dict_get jsons "face" ;;
        py_getitem info "CustomInitialExposureTime") = Ok v2
    /\ (info <- dict_get jsons "eye" ;;
        py_getitem info "CustomInitialExposureTime") = Ok v3
    /\ expected = [("beh_cam_exposing", v1); ("face_cam_exposing", v2);
                   ("eye_cam_exposing", v3)].
Proof.
  unfold get_exposure_fingerprint_durations_from_jsons, camera_names_on_sync.
  cbn [for_each String.append].
  change (get_camera_name "beh") with (@Ok string "behavior").
  change (get_camera_name "face") with (@Ok string "face").
  change (get_camera_name "eye") with (@Ok string "eye").
  cbn [bind].
  destruct (dict_get jsons "behavior") as [i1|]; [|discriminate].
  cbn [bind].
  destruct (py_getitem i1 "CustomInitialExposureTime") as [v1|];
    [|discriminate].
  cbn [bind dict_set].
  destruct (dict_get jsons "face") as [i2|]; [|discriminate].
  cbn [bind].
  destruct (py_getitem i2 "CustomInitialExposureTime") as [v2|];
    [|discriminate].
  cbn [bind].
  destruct (dict_get jsons "eye") as [i3|]; [|discriminate].
  cbn [bind].
  destruct (py_getitem i3 "CustomInitialExposureTime") as [v3|];
    [|discriminate].
  cbn [bind]. intro H. injection H as <-.
  exists v1, v2, v3. repeat split; reflexivity.
Qed.
End Resolver.

(** [min] over the three signature durations, for an integer nominal
    duration [e]: the line picked and the fact that none is closer. *)
Lemma closest_of_three {F} {ops : FloatOps F} (e a1 a2 a3 : Z) :
  exists line a,
    py_min (fun it : string * Z => abs_difference (PInt e) (snd it))
      [("beh_cam_exposing", a1); ("face_cam_exposing", a2);
       ("eye_cam_exposing", a3)] = Ok (line, a)
    /\ In (line, a) [("beh_cam_exposing", a1); ("face_cam_exposing", a2);
                     ("eye_cam_exposing", a3)]
    /\ Z.abs (e - a) <= Z.abs (e - a1)
    /\ Z.abs (e - a) <= Z.abs (e - a2)
    /\ Z.abs (e - a) <= Z.abs (e - a3).
Proof.
  cbn [py_min min_from abs_difference bind snd num_ltb].
  destruct (Z.abs (e - a2) <? Z.abs (e - a1)) eqn:E21.
  - destruct (Z.abs (e - a3) <? Z.abs (e - a2)) eqn:E32.
    + exists "eye_cam_exposing", a3. cbn [In].
      apply Z.ltb_lt in E21, E32. intuition lia.
    + exists "face_cam_exposing", a2. cbn [In].
      apply Z.ltb_lt in E21. apply Z.ltb_ge in E32. intuition lia.
  - destruct (Z.abs (e - a3) <? Z.abs (e - a1)) eqn:E31.
    + exists "eye_cam_exposing", a3. cbn [In].
      apply Z.ltb_ge in E21. apply Z.ltb_lt in E31. intuition lia.
    + exists "beh_cam_exposing", a1. cbn [In].
      apply Z.ltb_ge in E21, E31. intuition lia.
Qed.

(** The assignment of lines 391-397, on the two duration tables read at
    lines 387-388 and for an integer nominal duration: the prefix recorded
    for the role's camera is one whose signature exposure duration, the
    rounded mean in milliseconds of the first 8 falling-minus-rising
    differences of the prefix's exposing line, is at the least absolute
    difference from the [CustomInitialExposureTime] of the role's
    metadata. *)
Theorem closest_signature_line_assigned {F} {ops : FloatOps F}
    (sync_data : SyncDataset F) (jsons : list (string * pyval F))
    (expected : list (string * pyval F)) (actual : list (string * Z))
    (mapping : list (string * string)) (role camera : string)
    (info : pyval F) (e : Z) :
  In role camera_names_on_sync ->
  get_exposure_fingerprint_durations_from_jsons jsons = Ok expected ->
  get_exposure_fingerprint_durations_from_sync sync_data = Ok actual ->
  get_camera_name role = Ok camera ->
  dict_find jsons camera = Some info ->
  py_getitem info "CustomInitialExposureTime" = Ok (PInt e) ->
  exists prefix a,
    In prefix camera_names_on_sync
    /\ signature_duration sync_data (prefix +++ "_cam_exposing") = Ok a
    /\ (forall prefix' a',
           In prefix' camera_names_on_sync ->
           signature_duration sync_data (prefix' +++ "_cam_exposing") = Ok a' ->
           Z.abs (e - a) <= Z.abs (e - a'))
    /\ exists mapping',
         assign_actual_line expected actual mapping role = Ok mapping'
         /\ dict_find mapping' camera = Some prefix.
Proof.
  intros Hrole Hexp Hact Hcam Hinfo He.
  destruct (durations_from_sync_inv sync_data actual Hact)
    as (a1 & a2 & a3 & H1 & H2 & H3 & ->).
  destruct (durations_from_jsons_inv jsons expected Hexp)
    as (v1 & v2 & v3 & J1 & J2 & J3 & ->).
  destruct (closest_of_three e a1 a2 a3)
    as (line & a & Hmin & Hin & L1 & L2 & L3).
  assert (Hall : forall prefix' a',
             In prefix' camera_names_on_sync ->
             signature_duration sync_data (prefix' +++ "_cam_exposing")
             = Ok a' ->
             Z.abs (e - a) <= Z.abs (e - a')).
  { intros p a' Hp Ha'. cbn [camera_names_on_sync In] in Hp.
    destruct Hp as [<-|[<-|[<-|[]]]]; cbn [String.append] in Ha';
      congruence. }
  assert (Hexpected :
            dict_get [("beh_cam_exposing", v1); ("face_cam_exposing", v2);
                      ("eye_cam_exposing", v3)] (role +++ "_cam_exposing")
            = Ok (PInt e)).
  { cbn [camera_names_on_sync In] in Hrole.
    destruct Hrole as [<-|[<-|[<-|[]]]];
      vm_compute in Hcam; injection Hcam as <-;
      unfold dict_get in J1, J2, J3; rewrite Hinfo in *; cbn [bind] in *;
      rewrite He in *.
    - injection J1 as <-. reflexivity.
    - injection J2 as <-. reflexivity.
    - injection J3 as <-. reflexivity. }
  assert (Hassign : forall prefix,
             get_camera_name_on_sync line = Ok prefix ->
             exists mapping',
               assign_actual_line
                 [("beh_cam_exposing", v1); ("face_cam_exposing", v2);
                  ("eye_cam_exposing", v3)]
                 [("beh_cam_exposing", a1); ("face_cam_exposing", a2);
                  ("eye_cam_exposing", a3)] mapping role = Ok mapping'
               /\ dict_find mapping' camera = Some prefix).
  { intros prefix Hprefix. unfold assign_actual_line.
    rewrite Hexpected. cbn [bind]. rewrite Hmin. cbn [bind fst].
    rewrite Hprefix. cbn [bind]. rewrite Hcam. cbn [bind].
    eexists. split; [reflexivity|]. apply dict_find_set_same. }
  cbn [In] in Hin.
  destruct Hin as [Hin|[Hin|[Hin|[]]]]; injection Hin as <- <-.
  - exists "beh", a1. split; [cbn; tauto|]. split; [exact H1|].
    split; [exact Hall|]. now apply Hassign.
  - exists "face", a2. split; [cbn; tauto|]. split; [exact H2|].
    split; [exact Hall|]. now apply Hassign.
  - exists "eye", a3. split; [cbn; tauto|]. split; [exact H3|].
    split; [exact Hall|]. now apply Hassign.
Qed.

(** On the small session the behavior camera, of nominal duration 125 ms,
    gets one of the three prefixes, and no line's signature is closer to
    125. *)
Lemma closest_signature_line_assigned_witness :
  exists prefix a,
    In prefix camera_names_on_sync
    /\ signature_duration session_sync (prefix +++ "_cam_exposing") = Ok a
    /\ (forall prefix' a',
           In prefix' camera_names_on_sync ->
           signature_duration session_sync (prefix' +++ "_cam_exposing")
           = Ok a' ->
           Z.abs (125 - a) <= Z.abs (125 - a'))
    /\ exists mapping',
         assign_actual_line session_expected session_actual [] "beh"
         = Ok mapping'
         /\ dict_find mapping' "behavior" = Some prefix.
Proof.
  apply (closest_signature_line_assigned session_sync session_jsons
           session_expected session_actual [] "beh" "behavior"
           (PDict [("CustomInitialExposureTime", PInt 125);
                   ("FramesLostCount", PInt 0)]) 125).
  - cbn. tauto.
  - vm_compute. reflexivity.
  - vm_compute. reflexivity.
  - vm_compute. reflexivity.
  - vm_compute. reflexivity.
  - vm_compute. reflexivity.
Defined.

(** The assignments of the three passes of the loop on the small session:
    the mapping of the swapped wiring. *)
Example session_assignments :
  for_each camera_names_on_sync
    (assign_actual_line session_expected session_actual) []
  = Ok swapped_mapping.
Proof. vm_compute. reflexivity. Qed.

(** C2. On the small session the six lines start in the order the wiring
    assumption asks for, each readout line right after its exposing line,
    and [get_camera_sync_line_name_mapping] raises [ValueError] instead of
    returning a mapping: the start time it looks up in the tuple of sorted
    line names is not an element of that tuple. *)
Theorem resolver_raises_on_adjacent_lines :
  exists start_times,
    get_start_times_on_sync session_sync = Ok start_times
    /\ map fst (sorted snd start_times)
       = ["beh_cam_exposing"; "beh_cam_frame_readout";
          "face_cam_exposing"; "face_cam_frame_readout";
          "eye_cam_exposing"; "eye_cam_frame_readout"]
    /\ wiring_order_holds start_times = true
    /\ get_camera_sync_line_name_mapping session_sync session_jsons
       = Raise ValueError.
Proof.
  eexists. split; [vm_compute; reflexivity|].
  split; [vm_compute; reflexivity|].
  split; vm_compute; reflexivity.
Qed.

(** C4 (defect of the code).  On the small session the two duration
    tables are read, the behavior camera is assigned the [beh] line, the
    one of closest signature, and the resolver raises [ValueError] at line
    399 of that first pass: the face and the eye camera are assigned no
    line, and no mapping is returned. *)
Theorem resolver_stops_after_first_assignment :
  get_exposure_fingerprint_durations_from_jsons session_jsons
  = Ok session_expected
  /\ get_exposure_fingerprint_durations_from_sync session_sync
     = Ok session_actual
  /\ assign_actual_line session_expected session_actual [] "beh"
     = Ok [("behavior", "beh")]
  /\ (exists start_times,
        get_start_times_on_sync session_sync = Ok start_times
        /\ assert_readout_follows_exposing start_times
             (map fst (sorted snd start_times)) "beh"
           = Raise ValueError)
  /\ get_camera_sync_line_name_mapping session_sync session_jsons
     = Raise ValueError.
Proof.
  split; [vm_compute; reflexivity|].
  split; [vm_compute; reflexivity|].
  split; [vm_compute; reflexivity|].
  split; [|vm_compute; reflexivity].
  eexists. split; vm_compute; reflexivity.
Qed.

(** C6 (defect of the code).  On the small session, whose three videos
    all hold frames, [get_video_frame_times] returns no array, with or
    without correction, so that no NaN is put in front of anything: the
    resolver called at line 447 raises the [ValueError] of line 399 before
    line 466 is reached. *)
Theorem no_metadata_entry_is_returned (apply_correction : bool) :
  get_video_frame_times session_sync session_videos session_jsons
    session_frame_counts apply_correction
  = Raise ValueError.
Proof. destruct apply_correction; vm_compute; reflexivity. Qed.

(** ** Barcode Decoder *)

Section Barcode.
Context {F : Type} {ops : FloatOps F}.

(** The sum of lines 682-686 started at exponent [k] with value [acc]. *)
Lemma sum_from_cons k x (l : list F) acc :
  fold_left
    (fun value (it : Z * F) =>
       if is_white (snd it) then value + 2 ^ fst it else value)
    (enumerate_from k (x :: l)) acc
  = fold_left
      (fun value (it : Z * F) =>
         if is_white (snd it) then value + 2 ^ fst it else value)
      (enumerate_from (k + 1) l) (acc + white_bit x * 2 ^ k).
Proof.
  cbn [enumerate_from fold_left fst snd]. unfold white_bit, bool_int.
  destruct (is_white x); f_equal; lia.
Qed.

Lemma sum_from_app (l : list F) : forall k x acc,
  fold_left
    (fun value (it : Z * F) =>
       if is_white (snd it) then value + 2 ^ fst it else value)
    (enumerate_from k (l ++ [x])) acc
  = fold_left
      (fun value (it : Z * F) =>
         if is_white (snd it) then value + 2 ^ fst it else value)
      (enumerate_from k l) acc
    + white_bit x * 2 ^ (k + len l).
Proof.
  induction l as [|y l IH]; intros k x acc.
  - cbn [app]. rewrite sum_from_cons. cbn [enumerate_from fold_left].
    unfold len. cbn [List.length]. now rewrite Z.add_0_r.
  - cbn [app]. rewrite !sum_from_cons, IH.
    replace (k + len (y :: l)) with (k + 1 + len l)
      by (unfold len; cbn [List.length]; lia).
    reflexivity.
Qed.

Lemma binary_value_acc (bits : list bool) : forall acc,
  fold_left (fun a b => 2 * a + bool_int b) bits acc
  = acc * 2 ^ len bits + binary_value bits.
Proof.
  unfold binary_value.
  induction bits as [|b bits IH]; intro acc; cbn [fold_left].
  - unfold len. cbn. lia.
  - rewrite IH, (IH (2 * 0 + bool_int b)).
    replace (len (b :: bits)) with (len bits + 1)
      by (unfold len; cbn [List.length]; lia).
    rewrite Z.pow_add_r by (unfold len; lia). ring.
Qed.

(** The exponent sum over the reversed cells is the binary number the
    cells spell from left to right. *)
Lemma sum_white_exponents_rev (values : list F) :
  sum_white_exponents (rev values) = binary_value (map is_white values).
Proof.
  unfold sum_white_exponents, enumerate.
  induction values as [|x values IH].
  - reflexivity.
  - cbn [rev map]. rewrite sum_from_app, IH.
    unfold binary_value at 2. cbn [fold_left].
    rewrite binary_value_acc.
    replace (len (rev values)) with (len (map is_white values))
      by (unfold len; now rewrite length_rev, length_map).
    unfold white_bit. rewrite Z.add_0_l. ring.
Qed.

Lemma forallb_rev {A} (p : A -> bool) (l : list A) :
  forallb p (rev l) = forallb p l.
Proof.
  induction l as [|x l IH]; [reflexivity|].
  cbn [rev forallb]. rewrite forallb_app, IH. cbn [forallb].
  rewrite andb_true_r. apply andb_comm.
Qed.

Lemma binary_value_all_white (values : list F) :
  forallb is_white values = true ->
  binary_value (map is_white values) = 2 ^ len values - 1.
Proof.
  induction values as [|x values IH] using rev_ind.
  - reflexivity.
  - rewrite forallb_app. cbn [forallb]. rewrite andb_true_r.
    intro H. apply andb_prop in H as [Hl Hx].
    rewrite map_app. cbn [map]. unfold binary_value.
    rewrite fold_left_app. cbn [fold_left].
    fold (binary_value (map is_white values)). rewrite (IH Hl), Hx.
    rewrite len_app. replace (len [x]) with 1 by reflexivity.
    rewrite Z.pow_add_r by (try apply len_nonneg; lia).
    cbn [bool_int]. lia.
Qed.

Lemma binary_value_none_white (values : list F) :
  existsb is_white values = false ->
  binary_value (map is_white values) = 0.
Proof.
  induction values as [|x values IH] using rev_ind.
  - reflexivity.
  - rewrite existsb_app. cbn [existsb]. rewrite orb_false_r.
    intro H. apply orb_false_iff in H as [Hl Hx].
    rewrite map_app. cbn [map]. unfold binary_value.
    rewrite fold_left_app. cbn [fold_left].
    fold (binary_value (map is_white values)). rewrite (IH Hl), Hx.
    reflexivity.
Qed.

Lemma barcode_values_length (image : list (list Z)) :
  len (barcode_values image) = 20.
Proof. reflexivity. Qed.
End Barcode.

Lemma no_white_not_all_white {A} (p : A -> bool) (l : list A) :
  l <> [] -> existsb p l = false -> forallb p l = false.
Proof.
  destruct l as [|x l]; [congruence|]. intros _. cbn [existsb forallb].
  intro H. apply orb_false_iff in H as [-> _]. reflexivity.
Qed.

(** C7 (amended). [get_barcode_value] takes the metadata-frame branch
    exactly when all 20 cells read white and the rounded mean of the whole
    strip is above 250, and returns 0 there; otherwise it returns the
    binary number the cells spell, first cell most significant (the sum of
    the powers of two over the reversed cells).  So an all-white strip whose
    rounded mean is at most 250 decodes to [2 ^ 20 - 1], and a strip without
    a white cell decodes to 0 through the bit path, the metadata-frame test
    being false. *)
Theorem barcode_metadata_frame_rule {F} {ops : FloatOps F}
    (image : list (list Z)) :
  let cells := barcode_values image in
  (is_metadata_frame image = Ok true <->
   forallb is_white cells = true
   /\ exists r, py_round (np_mean_u8 image) = Ok r /\ 250 < r)
  /\ (is_metadata_frame image = Ok true -> get_barcode_value image = Ok 0)
  /\ (is_metadata_frame image = Ok false ->
      get_barcode_value image = Ok (binary_value (map is_white cells)))
  /\ (forall r,
         forallb is_white cells = true ->
         py_round (np_mean_u8 image) = Ok r ->
         r <= 250 ->
         is_metadata_frame image = Ok false
         /\ get_barcode_value image = Ok (2 ^ 20 - 1))
  /\ (existsb is_white cells = false ->
      is_metadata_frame image = Ok false
      /\ get_barcode_value image = Ok 0).
Proof.
  intro cells.
  assert (Hbits : is_metadata_frame image = Ok false ->
                  get_barcode_value image
                  = Ok (binary_value (map is_white cells))).
  { intro H. unfold get_barcode_value. rewrite H. cbn [bind].
    now rewrite sum_white_exponents_rev. }
  assert (Hmeta : is_metadata_frame image = Ok true <->
                  forallb is_white cells = true
                  /\ exists r, py_round (np_mean_u8 image) = Ok r /\ 250 < r).
  { unfold is_metadata_frame. rewrite forallb_rev. fold cells.
    destruct (forallb is_white cells).
    - destruct (py_round (np_mean_u8 image)) as [r|e]; cbn [bind].
      + split.
        * intro H. injection H as H. rewrite Z.gtb_ltb in H.
          apply Z.ltb_lt in H. eauto.
        * intros [_ [r' [Hr' Hlt]]]. injection Hr' as <-.
          f_equal. rewrite Z.gtb_ltb. now apply Z.ltb_lt.
      + split; [discriminate|]. intros [_ [r' [Hr' _]]]. discriminate.
    - split; [discriminate|]. intros [H _]. discriminate. }
  split; [exact Hmeta|]. split; [|split; [exact Hbits|split]].
  - intro H. unfold get_barcode_value. now rewrite H.
  - intros r Hwhite Hr Hle.
    assert (Hfalse : is_metadata_frame image = Ok false).
    { unfold is_metadata_frame. rewrite forallb_rev. fold cells.
      rewrite Hwhite, Hr. cbn [bind]. f_equal.
      rewrite Z.gtb_ltb. apply Z.ltb_ge. exact Hle. }
    split; [exact Hfalse|].
    rewrite (Hbits Hfalse), (binary_value_all_white cells Hwhite).
    unfold cells. now rewrite barcode_values_length.
  - intro Hnone.
    assert (Hfalse : is_metadata_frame image = Ok false).
    { unfold is_metadata_frame. rewrite forallb_rev. fold cells.
      rewrite (no_white_not_all_white is_white cells); auto.
      intro Hnil. pose proof (barcode_values_length image) as Hlen.
      fold cells in Hlen. rewrite Hnil in Hlen. discriminate. }
    split; [exact Hfalse|].
    now rewrite (Hbits Hfalse), (binary_value_none_white cells Hnone).
Qed.

(** White cells inside dark borders decode to [2 ^ 20 - 1] through the bit
    path, a uniformly white strip is the metadata frame, and a strip of
    black cells decodes to 0 through the bit path. *)
Lemma barcode_metadata_frame_rule_witness :
  (is_metadata_frame white_cells_strip = Ok false
   /\ get_barcode_value white_cells_strip = Ok 1048575)
  /\ get_barcode_value white_strip = Ok 0
  /\ (is_metadata_frame black_strip = Ok false
      /\ get_barcode_value black_strip = Ok 0).
Proof.
  split; [|split].
  - pose proof (barcode_metadata_frame_rule white_cells_strip)
      as (_ & _ & _ & H & _).
    apply (H 155); [vm_compute; reflexivity | vm_compute; reflexivity |].
    discriminate.
  - pose proof (barcode_metadata_frame_rule white_strip) as (H0 & H & _).
    apply H, H0. split; [vm_compute; reflexivity|].
    exists 255. split; [vm_compute; reflexivity | reflexivity].
  - pose proof (barcode_metadata_frame_rule black_strip)
      as (_ & _ & _ & _ & H).
    apply H. vm_compute. reflexivity.
Defined.

(** C7 as stated fails on a strip whose 20 cells are all black: it decodes
    to 0 although the metadata-frame test is false. *)
Lemma black_strip_decodes_without_heuristic :
  barcode_values black_strip = repeat (of_int (-1)) 20
  /\ get_barcode_value black_strip = Ok 0
  /\ is_metadata_frame black_strip = Ok false
  /\ ~ (get_barcode_value black_strip = Ok 0 ->
        is_metadata_frame black_strip = Ok true).
Proof.
  assert (H : is_metadata_frame black_strip = Ok false)
    by (vm_compute; reflexivity).
  split; [vm_compute; reflexivity|].
  split; [vm_compute; reflexivity|].
  split; [exact H|].
  intro Himp. rewrite H in Himp.
  assert (H0 : get_barcode_value black_strip = Ok 0)
    by (vm_compute; reflexivity).
  specialize (Himp H0). discriminate.
Qed.

(** C8 (amended). [get_frame_number_from_barcode] goes on to decode the
    requested frame exactly when the metadata value of
    ["FrameID imprint enabled"] is the string ["true"]; for any other
    value, a missing one included, it raises [ValueError] whatever the
    video and the frame number are. *)
Theorem frame_number_lookup_gate {F} {ops : FloatOps F}
    (video_data : VideoCapture) (info d : list (string * pyval F))
    (frame_number : Z) :
  get_video_info_data info = PDict d ->
  (imprint_flag d = PStr "true" ->
   get_frame_number_from_barcode video_data info frame_number
   = decode_frame_number video_data (PDict d) frame_number)
  /\ (imprint_flag d <> PStr "true" ->
      get_frame_number_from_barcode video_data info frame_number
      = Raise ValueError).
Proof.
  intro Hd. unfold get_frame_number_from_barcode. rewrite Hd.
  cbn [py_get bind]. fold (imprint_flag d).
  split; intro Hflag.
  - rewrite Hflag. reflexivity.
  - destruct (imprint_flag d) as [| | | |s| |]; try reflexivity.
    cbn [py_eq_str]. destruct (String.eqb s "true") eqn:E; [|reflexivity].
    apply String.eqb_eq in E. congruence.
Qed.

(** With the flag ["true"] frame 5 of the coded video decodes to 5; with
    the flag ["false"] the lookup raises. *)
Lemma frame_number_lookup_gate_witness :
  get_frame_number_from_barcode (ops := Ideal.ops) coded_video
    [("FrameID imprint enabled", PStr "true")] 5 = Ok 5
  /\ get_frame_number_from_barcode (ops := Ideal.ops) coded_video
       [("FrameID imprint enabled", PStr "false")] 5 = Raise ValueError.
Proof.
  split.
  - pose proof (frame_number_lookup_gate (ops := Ideal.ops) coded_video
                  [("FrameID imprint enabled", PStr "true")]
                  [("FrameID imprint enabled", PStr "true")] 5 eq_refl)
      as [H _].
    rewrite (H eq_refl). vm_compute. reflexivity.
  - pose proof (frame_number_lookup_gate (ops := Ideal.ops) coded_video
                  [("FrameID imprint enabled", PStr "false")]
                  [("FrameID imprint enabled", PStr "false")] 5 eq_refl)
      as [_ H].
    apply H. discriminate.
Defined.

(** C8 as stated fails for a flag that is the boolean [True]: it is
    truthy, the frame could be decoded, and the lookup raises. *)
Lemma truthy_flag_still_raises :
  truthy (ops := Ideal.ops) (PBool true) = true
  /\ decode_frame_number (ops := Ideal.ops) coded_video
       (PDict [("FrameID imprint enabled", PBool true)]) 5 = Ok 5
  /\ get_frame_number_from_barcode (ops := Ideal.ops) coded_video
       [("FrameID imprint enabled", PBool true)] 5 = Raise ValueError.
Proof. repeat split; vm_compute; reflexivity. Qed.

(** ** Session Validator *)

Section ValidatorRaises.
Context {F : Type} {ops : FloatOps F}.
Variable percentage : pyval F -> pyval F -> result F.

(** The first pass of the loop of [augmented_camera_info] does not get
    past the call of lines 210-216. *)
Lemma augment_camera_raises (d : MVRDataset F) exposing transfers falling
    acc item :
  exists e,
    augment_camera percentage d exposing transfers falling acc item
    = Raise e.
Proof.
  unfold augment_camera.
  repeat match goal with
         | |- exists e, bind ?c _ = Raise e =>
             lazymatch c with
             | get_video_frame_times _ _ _ _ _ => fail
             | _ => destruct c; cbn [bind]; [|eauto]
             end
         end.
  match goal with
  | |- context [get_video_frame_times ?s ?v ?j ?c ?a] =>
      destruct (frame_times_never_return s v j c a) as [e He]; rewrite He
  end.
  cbn [bind]. eauto.
Qed.

Lemma augmented_camera_info_raises (d : MVRDataset F) :
  video_paths d <> [] ->
  exists e, augmented_camera_info percentage d = Raise e.
Proof.
  intro Hvideos. unfold augmented_camera_info.
  destruct (get_cam_exposing_times_on_sync (sync_data d)) as [ex|];
    cbn [bind]; [|eauto].
  destruct (get_cam_transfer_times_on_sync (sync_data d)) as [tr|];
    cbn [bind]; [|eauto].
  destruct (get_cam_exposing_falling_edge_times_on_sync (sync_data d))
    as [fa|]; cbn [bind]; [|eauto].
  destruct (video_paths d) as [|item rest]; [congruence|].
  cbn [for_each].
  destruct (augment_camera_raises d ex tr fa [] item) as [e He].
  rewrite He. cbn [bind]. eauto.
Qed.

End ValidatorRaises.

(** C9 (defect of the code).  On the small session the expected frame
    count of every camera is within 20 of its video's, so that the
    frame-count check has to pass.  [validate] raises [KeyError] all the
    same, whatever the earlier checks do and whatever the number of frames
    of the videos: reading [augmented_camera_info] at line 265 runs
    [get_video_frame_times] on the video of the behavior camera alone
    (lines 210-216), and the resolver then misses the metadata of the face
    camera at line 363.  The frame-count check of lines 297-307 is not
    reached. *)
Theorem validate_raises_before_frame_count_check
    (percentage : pyval Ideal.F -> pyval Ideal.F -> result Ideal.F)
    (checks_before_frame_count :
       MVRDataset Ideal.F -> string -> augmented_info Ideal.F
       -> result unit)
    (frame_counts : string -> Z) :
  get_exposure_fingerprint_durations_from_jsons
    [("behavior", PDict behavior_report)]
  = Raise KeyError
  /\ get_video_frame_times session_sync [("behavior", "Behavior.mp4")]
       [("behavior", PDict behavior_report)] frame_counts false
     = Raise KeyError
  /\ augmented_camera_info percentage (session_with frame_counts)
     = Raise KeyError
  /\ validate percentage checks_before_frame_count
       (session_with frame_counts)
     = Raise KeyError.
Proof. repeat split; vm_compute; reflexivity. Qed.

(** [validate] returns for a session without videos and for no other: as
    soon as there is a video, reading [augmented_camera_info] raises. *)
Theorem validate_returns_without_videos_only {F} {ops : FloatOps F}
    (percentage : pyval F -> pyval F -> result F)
    (checks_before_frame_count :
       MVRDataset F -> string -> augmented_info F -> result unit)
    (d : MVRDataset F) :
  (video_paths d = [] ->
   validate percentage checks_before_frame_count d = Ok tt)
  /\ (video_paths d <> [] ->
      exists e,
        validate percentage checks_before_frame_count d = Raise e
        /\ (forall info_json,
               dict_find (info_data d) (fst (hd ("", "") (video_paths d)))
               = Some info_json ->
               augmented_camera_info percentage d = Raise e)).
Proof.
  split.
  - intro Hnone. unfold validate. rewrite Hnone. reflexivity.
  - intro Hvideos.
    destruct (augmented_camera_info_raises percentage d Hvideos) as [e He].
    unfold validate.
    destruct (video_paths d) as [|[camera path] rest]; [congruence|].
    cbn [dict_keys map fst hd for_each]. unfold dict_get.
    destruct (dict_find (info_data d) camera) as [info_json|];
      cbn [bind].
    + rewrite He. cbn [bind]. exists e. split; [reflexivity|].
      intros _ _. reflexivity.
    + exists KeyError. split; [reflexivity|]. discriminate.
Qed.

(** The small session has three videos: [validate] raises. *)
Lemma validate_returns_without_videos_only_witness :
  exists e,
    validate (ops := Ideal.ops) (fun _ _ => Ok nan) (fun _ _ _ => Ok tt)
      session_dataset = Raise e.
Proof.
  pose proof (validate_returns_without_videos_only (ops := Ideal.ops)
                (fun _ _ => Ok nan) (fun _ _ _ => Ok tt) session_dataset)
    as [_ H].
  destruct H as [e [He _]]; [discriminate|].
  exists e. exact He.
Defined.

(** ** Camera names *)

Lemma lower_ascii_idempotent c : lower_ascii (lower_ascii c) = lower_ascii c.
Proof. destruct c as [[] [] [] [] [] [] [] []]; reflexivity. Qed.

Lemma lower_idempotent s : lower (lower s) = lower s.
Proof.
  induction s as [|c s IH]; simpl; [reflexivity|].
  now rewrite lower_ascii_idempotent, IH.
Qed.

Lemma lower_app a b : lower (a +++ b) = lower a +++ lower b.
Proof. induction a as [|c a IH]; simpl; [reflexivity|]. now rewrite IH. Qed.

Lemma prefix_app n b : prefix n (n +++ b) = true.
Proof.
  induction n as [|c n IH]; simpl; [now destruct b|].
  destruct (ascii_dec c c); [exact IH | congruence].
Qed.

Lemma contains_app n a b : contains n (a +++ n +++ b) = true.
Proof.
  induction a as [|c a IH]; cbn [String.append].
  - destruct (n +++ b) eqn:E; cbn [contains];
      rewrite <- E, prefix_app; reflexivity.
  - cbn [contains]. rewrite IH. apply orb_true_r.
Qed.

(** Which of the three substrings decides: ["eye"] before ["face"] before
    ["beh"], looked for in the lowercased path. *)
Lemma get_camera_name_cases path :
  get_camera_name path =
  if contains "eye" (lower path) then Ok "eye"
  else if contains "face" (lower path) then Ok "face"
  else if contains "beh" (lower path) then Ok "behavior"
  else Raise ValueError.
Proof.
  unfold get_camera_name. cbn [names dict_keys map fst find].
  destruct (contains "eye" (lower path)); [reflexivity|].
  destruct (contains "face" (lower path)); [reflexivity|].
  destruct (contains "beh" (lower path)); reflexivity.
Qed.

(** The camera of a file or line name does not depend on letter case, and
    a name that holds the word eye in any case, wherever it stands and
    whatever else the name holds, is the eye camera's; the word face
    decides when there is no eye, and beh when there is neither. *)
Theorem camera_name_by_substring (pre label post : string) :
  let path := pre +++ label +++ post in
  get_camera_name (lower path) = get_camera_name path
  /\ (lower label = "eye" -> get_camera_name path = Ok "eye")
  /\ (lower label = "face" ->
      contains "eye" (lower path) = false ->
      get_camera_name path = Ok "face")
  /\ (lower label = "beh" ->
      contains "eye" (lower path) = false ->
      contains "face" (lower path) = false ->
      get_camera_name path = Ok "behavior").
Proof.
  intro path.
  assert (Hin : contains (lower label) (lower path) = true).
  { unfold path. rewrite !lower_app. apply contains_app. }
  split; [|split; [|split]].
  - rewrite !get_camera_name_cases. now rewrite lower_idempotent.
  - intro Hl. rewrite Hl in Hin.
    rewrite get_camera_name_cases. now rewrite Hin.
  - intros Hl Heye. rewrite Hl in Hin.
    rewrite get_camera_name_cases. now rewrite Heye, Hin.
  - intros Hl Heye Hface. rewrite Hl in Hin.
    rewrite get_camera_name_cases. now rewrite Heye, Hface, Hin.
Qed.

(** The video Face_Eye.MP4 is the eye camera's; Behavior_2023.mp4 is the
    behavior camera's. *)
Lemma camera_name_by_substring_witness :
  get_camera_name "Face_Eye.MP4" = Ok "eye"
  /\ get_camera_name "Behavior_2023.mp4" = Ok "behavior".
Proof.
  split.
  - pose proof (camera_name_by_substring "Face_" "Eye" ".MP4")
      as (_ & H & _).
    apply H. reflexivity.
  - pose proof (camera_name_by_substring "" "Beh" "avior_2023.mp4")
      as (_ & _ & _ & H).
    apply H; reflexivity.
Defined.

(** A name that holds none of the three words raises [ValueError], and
    the name of a camera on sync leads back to the camera: whenever
    [get_camera_name_on_sync] returns a prefix it is one of beh, eye and
    face, and [get_camera_name] of the prefix is [get_camera_name] of the
    line. *)
Theorem camera_name_on_sync_round_trip (sync_line prefix : string) :
  get_camera_name_on_sync sync_line = Ok prefix ->
  In prefix ["beh"; "eye"; "face"]
  /\ get_camera_name prefix = get_camera_name sync_line
  /\ get_camera_name_on_sync prefix = Ok prefix.
Proof.
  unfold get_camera_name_on_sync. rewrite get_camera_name_cases.
  destruct (contains "eye" (lower sync_line)).
  { cbn [bind]. intro H. injection H as <-.
    repeat split; cbn; tauto. }
  destruct (contains "face" (lower sync_line)).
  { cbn [bind]. intro H. injection H as <-.
    repeat split; cbn; tauto. }
  destruct (contains "beh" (lower sync_line)); [|discriminate].
  cbn [bind]. intro H. injection H as <-.
  repeat split; cbn; tauto.
Qed.

Lemma camera_name_on_sync_round_trip_witness :
  In "beh" ["beh"; "eye"; "face"]
  /\ get_camera_name "beh" = get_camera_name "Beh_cam_exposing"
  /\ get_camera_name_on_sync "beh" = Ok "beh".
Proof.
  apply (camera_name_on_sync_round_trip "Beh_cam_exposing" "beh").
  reflexivity.
Defined.

(** ** Line times *)

Lemma dict_find_set {V} (d : list (string * V)) k v k' :
  dict_find (dict_set d k v) k' =
  if String.eqb k' k then Some v else dict_find d k'.
Proof.
  induction d as [|[k0 v0] d IH]; simpl.
  - reflexivity.
  - destruct (String.eqb k k0) eqn:E; simpl.
    + apply String.eqb_eq in E. subst k0.
      destruct (String.eqb k' k); reflexivity.
    + rewrite IH. destruct (String.eqb k' k0) eqn:E'; [|reflexivity].
      apply String.eqb_eq in E'. subst k0.
      destruct (String.eqb k' k) eqn:E''; [|reflexivity].
      apply String.eqb_eq in E''. subst k'.
      rewrite String.eqb_refl in E. discriminate.
Qed.

Lemma find_snoc {A} (p : A -> bool) (l : list A) (x : A) :
  find p (l ++ [x]) =
  match find p l with
  | Some y => Some y
  | None => if p x then Some x else None
  end.
Proof.
  induction l as [|y l IH]; simpl; [reflexivity|].
  destruct (p y); [reflexivity | exact IH].
Qed.

Lemma get_camera_name_error path e :
  get_camera_name path = Raise e -> e = ValueError.
Proof.
  rewrite get_camera_name_cases.
  destruct (contains "eye" (lower path)); [discriminate|].
  destruct (contains "face" (lower path)); [discriminate|].
  destruct (contains "beh" (lower path)); [discriminate|].
  congruence.
Qed.

Section LineTimes.
Context {F : Type}.
Variable edge_getter : string -> list F.

Let body (line_times : list (string * list F)) (line : string) :=
  camera_name <- get_camera_name line ;;
  Ok (dict_set line_times camera_name (edge_getter line)).

Lemma line_times_last_wins (lines : list string) : forall acc,
  Forall (fun line => exists c, get_camera_name line = Ok c) lines ->
  exists d,
    for_each lines body acc = Ok d
    /\ forall camera,
         dict_find d camera =
         match find (names_camera camera) (rev lines) with
         | Some line => Some (edge_getter line)
         | None => dict_find acc camera
         end.
Proof.
  induction lines as [|line lines IH]; intros acc Hall.
  - exists acc. split; reflexivity.
  - inversion Hall as [|? ? Hline Hrest]; subst.
    destruct Hline as [c Hc].
    cbn [for_each]. unfold body at 1. rewrite Hc. cbn [bind].
    destruct (IH (dict_set acc c (edge_getter line)) Hrest)
      as (d & Hd & Hfind).
    exists d. split; [exact Hd|].
    intro camera. rewrite Hfind. cbn [rev]. rewrite find_snoc.
    destruct (find (names_camera camera) (rev lines)); [reflexivity|].
    rewrite dict_find_set. unfold names_camera. rewrite Hc.
    rewrite (String.eqb_sym camera c).
    destruct (String.eqb c camera); reflexivity.
Qed.

Lemma line_times_unknown_line (lines : list string) : forall acc,
  Exists (fun line => get_camera_name line = Raise ValueError) lines ->
  for_each lines body acc = Raise ValueError.
Proof.
  induction lines as [|line lines IH]; intros acc Hex.
  - inversion Hex.
  - cbn [for_each]. unfold body at 1.
    destruct (get_camera_name line) as [c|e] eqn:Hc; cbn [bind].
    + inversion Hex as [? ? H|? ? H]; subst; [congruence|].
      apply IH. exact H.
    + now rewrite (get_camera_name_error line e Hc).
Qed.
End LineTimes.

(** [get_cam_line_times_on_sync] reads the lines whose label holds the
    suffix.  If each of them names a camera, every camera gets the edge
    times of the last such line that names it, and a camera no line names
    gets no entry; if one of them names no camera the whole call raises
    [ValueError]. *)
Theorem line_times_of_last_line {F} {ops : FloatOps F}
    (sync_data : SyncDataset F) (sync_line_suffix : string) (rising : bool) :
  let lines :=
    filter (contains sync_line_suffix) (line_labels sync_data) in
  let edge_getter :=
    if rising then get_rising_edges sync_data
    else get_falling_edges sync_data in
  (Forall (fun line => exists c, get_camera_name line = Ok c) lines ->
   exists d,
     get_cam_line_times_on_sync sync_data sync_line_suffix rising = Ok d
     /\ forall camera,
          dict_find d camera =
          option_map edge_getter
            (find (names_camera camera) (rev lines)))
  /\ (Exists (fun line => get_camera_name line = Raise ValueError) lines ->
      get_cam_line_times_on_sync sync_data sync_line_suffix rising
      = Raise ValueError).
Proof.
  intros lines edge_getter. split.
  - intro Hall.
    destruct (line_times_last_wins edge_getter lines [] Hall)
      as (d & Hd & Hfind).
    exists d. split; [exact Hd|].
    intro camera. rewrite Hfind.
    now destruct (find (names_camera camera) (rev lines)).
  - intro Hex. exact (line_times_unknown_line edge_getter lines [] Hex).
Qed.

(** On the small session the behavior camera gets the eight rising edges
    of [beh_cam_exposing], the only exposing line that names it. *)
Lemma line_times_of_last_line_witness :
  exists d,
    get_cam_line_times_on_sync session_sync "_cam_exposing" true = Ok d
    /\ forall camera,
         dict_find d camera =
         option_map session_rising
           (find (names_camera camera)
                 (rev (filter (contains "_cam_exposing")
                              (line_labels session_sync)))).
Proof.
  pose proof (line_times_of_last_line session_sync "_cam_exposing" true)
    as [H _].
  apply H. vm_compute.
  repeat constructor; eexists; reflexivity.
Defined.

Section StartTimes.
Context {F : Type} {ops : FloatOps F}.
Variable sync : SyncDataset F.

Lemma read_edges_recorded rising line :
  In line (line_labels sync) ->
  read_edges rising sync line
  = Ok (if rising then get_rising_edges sync line
        else get_falling_edges sync line).
Proof.
  intro Hin. unfold read_edges.
  replace (existsb (String.eqb line) (line_labels sync)) with true;
    [reflexivity|].
  symmetry. apply existsb_exists. exists line.
  split; [exact Hin | apply String.eqb_refl].
Qed.

Lemma read_edges_absent rising line :
  ~ In line (line_labels sync) ->
  read_edges rising sync line = Raise ValueError.
Proof.
  intro Hout. unfold read_edges.
  destruct (existsb (String.eqb line) (line_labels sync)) eqn:E;
    [|reflexivity].
  apply existsb_exists in E as (l & Hl & E).
  apply String.eqb_eq in E. subst l. contradiction.
Qed.

(** The pass of the loop of lines 380-384 for one line. *)
Let start_of (d : list (string * F)) (line : string)
  : result (list (string * F)) :=
  edges <- read_edges true sync line ;;
  match edges with
  | t :: _ => Ok (dict_set d line t)
  | [] => Raise IndexError
  end.

Lemma start_times_loop (lines : list string) : forall acc,
  Forall (recorded_with_edge sync) lines ->
  for_each lines start_of acc
  = Ok (fold_left
          (fun d line =>
             dict_set d line (hd nan (get_rising_edges sync line)))
          lines acc).
Proof.
  induction lines as [|line lines IH]; intros acc Hall; [reflexivity|].
  inversion Hall as [|? ? [Hin Hedge] Hrest]; subst.
  cbn [for_each fold_left]. unfold start_of at 1.
  rewrite (read_edges_recorded true line Hin). cbn [bind].
  destruct (get_rising_edges sync line) as [|t edges]; [congruence|].
  cbn [bind hd]. apply IH. exact Hrest.
Qed.

Lemma start_times_stop (before after : list string) (line : string) e :
  Forall (recorded_with_edge sync) before ->
  (forall d, start_of d line = Raise e) ->
  for_each (before ++ line :: after) start_of [] = Raise e.
Proof.
  intros Hbefore Hline. rewrite for_each_app.
  rewrite (start_times_loop before [] Hbefore). cbn [bind for_each].
  rewrite Hline. reflexivity.
Qed.
End StartTimes.

(** [get_start_times_on_sync] returns the first rising edge of each of
    the six lines, in the order of its two loops, when every line is
    recorded in the sync file and has a rising edge.  It stops at the first
    line that is not so: with the reader's [ValueError] when the sync file
    does not hold the line, with [IndexError] when it holds the line
    without a rising edge. *)
Theorem start_times_need_an_edge {F} {ops : FloatOps F}
    (sync_data : SyncDataset F) :
  (Forall (recorded_with_edge sync_data) start_lines ->
   get_start_times_on_sync sync_data
   = Ok (map (fun line => (line, hd nan (get_rising_edges sync_data line)))
             start_lines))
  /\ (forall before line after,
         start_lines = before ++ line :: after ->
         Forall (recorded_with_edge sync_data) before ->
         (~ In line (line_labels sync_data) ->
          get_start_times_on_sync sync_data = Raise ValueError)
         /\ (In line (line_labels sync_data) ->
             get_rising_edges sync_data line = [] ->
             get_start_times_on_sync sync_data = Raise IndexError)).
Proof.
  assert (Hlines :
            flat_map (fun camera_name =>
                        map (fun line_suffix => camera_name +++ line_suffix)
                            line_suffixes)
                     camera_names_on_sync
            = start_lines) by reflexivity.
  unfold get_start_times_on_sync. rewrite Hlines. split.
  - intro Hall.
    rewrite (start_times_loop sync_data start_lines [] Hall). reflexivity.
  - intros before line after Hsplit Hbefore. rewrite Hsplit. split.
    + intro Hout. apply start_times_stop; [exact Hbefore|].
      intro d. now rewrite (read_edges_absent sync_data true line Hout).
    + intros Hin Hedge. apply start_times_stop; [exact Hbefore|].
      intro d. rewrite (read_edges_recorded sync_data true line Hin).
      cbn [bind]. now rewrite Hedge.
Qed.

(** The small session holds the six lines with their edges.  Without the
    label of the readout line of the face camera the reader's
    [ValueError] comes out, and with the label but no edge on the line,
    [IndexError]. *)
Lemma start_times_need_an_edge_witness :
  get_start_times_on_sync session_sync
  = Ok (map (fun line => (line, hd nan (session_rising line))) start_lines)
  /\ get_start_times_on_sync unrecorded_readout_sync = Raise ValueError
  /\ get_start_times_on_sync silent_readout_sync = Raise IndexError.
Proof.
  split; [|split].
  - pose proof (start_times_need_an_edge session_sync) as [H _].
    apply H.
    repeat (constructor; [split; [simpl; tauto | discriminate]|]).
    constructor.
  - pose proof (start_times_need_an_edge unrecorded_readout_sync) as [_ H].
    apply (H ["beh_cam_exposing"; "beh_cam_frame_readout";
              "face_cam_exposing"] "face_cam_frame_readout"
             ["eye_cam_exposing"; "eye_cam_frame_readout"] eq_refl).
    + repeat (constructor; [split; [simpl; tauto | discriminate]|]).
      constructor.
    + cbn. intros [H'|[H'|[H'|[H'|[H'|[H'|[]]]]]]]; discriminate H'.
  - pose proof (start_times_need_an_edge silent_readout_sync) as [_ H].
    apply (H ["beh_cam_exposing"; "beh_cam_frame_readout";
              "face_cam_exposing"] "face_cam_frame_readout"
             ["eye_cam_exposing"; "eye_cam_frame_readout"] eq_refl).
    + repeat (constructor; [split; [simpl; tauto | discriminate]|]).
      constructor.
    + cbn. tauto.
    + reflexivity.
Defined.

(** ** How many entries [remove_lost_frame_times] drops *)

Lemma np_contains_In lost z : np_contains lost z = true <-> In z lost.
Proof.
  unfold np_contains. rewrite existsb_exists. split.
  - intros (x & Hx & E). apply Z.eqb_eq in E. now subst.
  - intro H. exists z. split; [exact H | apply Z.eqb_refl].
Qed.

Lemma NoDup_map_of_nat (l : list nat) : NoDup l -> NoDup (map Z.of_nat l).
Proof.
  induction 1 as [|x l Hx Hl IH]; cbn [map]; constructor; [|exact IH].
  intro Hin. apply in_map_iff in Hin as (y & Hy & Hin).
  apply Nat2Z.inj in Hy. now subst.
Qed.

Lemma lost_between_le_lost lost k n :
  (lost_between lost k n <= List.length lost)%nat.
Proof.
  unfold lost_between.
  rewrite <- (length_map Z.of_nat).
  apply NoDup_incl_length.
  - apply NoDup_map_of_nat, NoDup_filter, seq_NoDup.
  - intros z Hz. apply in_map_iff in Hz as (j & <- & Hj).
    apply filter_In in Hj as [_ Hj]. now apply np_contains_In.
Qed.

Lemma lost_below_all lost n :
  NoDup lost ->
  (forall z, In z lost -> 0 <= z < Z.of_nat n) ->
  lost_below lost n = List.length lost.
Proof.
  intros Hnd Hrange. apply Nat.le_antisymm.
  - apply lost_between_le_lost.
  - unfold lost_below, lost_between.
    rewrite <- (length_map Z.of_nat).
    apply NoDup_incl_length; [exact Hnd|].
    intros z Hz. apply in_map_iff. exists (Z.to_nat z).
    pose proof (Hrange z Hz) as Hr.
    split; [lia|]. apply filter_In. split.
    + apply in_seq. lia.
    + rewrite Z2Nat.id by lia. now apply np_contains_In.
Qed.

Lemma lost_below_none lost n :
  (forall z, In z lost -> z < 0 \/ Z.of_nat n <= z) ->
  lost_below lost n = 0%nat.
Proof.
  intro Hout. unfold lost_below, lost_between.
  destruct (filter _ (seq 0 n)) as [|j l] eqn:E; [reflexivity|].
  assert (Hj : In j (filter (fun j => np_contains lost (Z.of_nat j)) (seq 0 n)))
    by (rewrite E; now left).
  apply filter_In in Hj as [Hseq Hin].
  apply in_seq in Hseq. apply np_contains_In in Hin.
  destruct (Hout _ Hin); lia.
Qed.

Lemma keep_everything {A} (l : list A) lost : forall k,
  (forall i, (i < List.length l)%nat ->
             np_contains lost (Z.of_nat (k + i)) = false) ->
  map snd (filter (fun it : Z * A => negb (np_contains lost (fst it)))
                  (enumerate_from (Z.of_nat k) l)) = l.
Proof.
  induction l as [|x l IH]; intros k Hk; [reflexivity|].
  cbn [enumerate_from filter fst].
  pose proof (Hk 0%nat ltac:(cbn; lia)) as H0.
  rewrite Nat.add_0_r in H0. rewrite H0. cbn [negb map snd]. f_equal.
  replace (Z.of_nat k + 1) with (Z.of_nat (S k)) by lia.
  apply IH. intros i Hi.
  replace (S k + i)%nat with (k + S i)%nat by lia.
  apply Hk. cbn [List.length]. lia.
Qed.

(** [remove_lost_frame_times] drops at most as many entries as the
    lost-index array has; it drops exactly that many when the lost
    indices are distinct positions of the sequence, and none at all when
    every lost index is negative or past the end. *)
Theorem removed_count {A} (frame_times : list A) (lost : list Z) :
  (List.length frame_times - List.length lost
   <= List.length (remove_lost_frame_times frame_times lost))%nat
  /\ (NoDup lost ->
      (forall z, In z lost -> 0 <= z < len frame_times) ->
      List.length (remove_lost_frame_times frame_times lost)
      = (List.length frame_times - List.length lost)%nat)
  /\ ((forall z, In z lost -> z < 0 \/ len frame_times <= z) ->
      remove_lost_frame_times frame_times lost = frame_times).
Proof.
  assert (Hlen : (List.length (remove_lost_frame_times frame_times lost)
                  + lost_between lost 0 (List.length frame_times)
                  = List.length frame_times)%nat)
    by exact (survivors_length lost 0 frame_times).
  split; [|split].
  - pose proof (lost_between_le_lost lost 0 (List.length frame_times)). lia.
  - intros Hnd Hrange.
    pose proof (lost_below_all lost (List.length frame_times) Hnd Hrange)
      as Hall.
    unfold lost_below in Hall. lia.
  - intro Hout. rewrite survivors_eq. apply keep_everything.
    intros i Hi. cbn [Nat.add].
    destruct (np_contains lost (Z.of_nat i)) eqn:E; [|reflexivity].
    apply np_contains_In in E. unfold len in Hout.
    destruct (Hout _ E); lia.
Qed.

(** Of five entries the distinct positions 1 and 3 take two away; the
    indices -1 and 5 take nothing away. *)
Lemma removed_count_witness :
  List.length (remove_lost_frame_times [10; 20; 30; 40; 50] [1; 3]) = 3%nat
  /\ remove_lost_frame_times [10; 20; 30; 40; 50] [-1; 5]
     = [10; 20; 30; 40; 50].
Proof.
  split.
  - pose proof (removed_count [10; 20; 30; 40; 50] [1; 3]) as (_ & H & _).
    apply H.
    + repeat constructor; cbn; intuition discriminate.
    + intros z [<-|[<-|[]]]; split; reflexivity || discriminate.
  - pose proof (removed_count [10; 20; 30; 40; 50] [-1; 5]) as (_ & _ & H).
    apply H. intros z [<-|[<-|[]]]; [left; reflexivity | right; discriminate].
Defined.

(** The exposure at position [j], when [j] is not a lost index, is the
    timestamp of video frame [j - (lost positions below j) + 1] in the
    corrected array, as soon as the video has that frame: the metadata
    frame shifts it up by one and every lost frame before it down by
    one. *)
Theorem exposure_lands_on_frame {F} {ops : FloatOps F} (V : Z)
    (exposing_times : list F) (info : list (string * pyval F))
    (lost : list Z) (j : nat) (t : F) :
  get_lost_frames_from_camera_info info = Ok lost ->
  nth_error exposing_times j = Some t ->
  np_contains lost (Z.of_nat j) = false ->
  Z.of_nat (S (j - lost_below lost j)) < V ->
  exists times,
    camera_frame_times true V exposing_times (PDict info) = Ok times
    /\ nth_error times (S (j - lost_below lost j)) = Some t.
Proof.
  intros Hlost Hnth Hkeep HV.
  rewrite (camera_frame_times_unfold true V exposing_times info lost Hlost).
  set (l := remove_lost_frame_times exposing_times lost).
  assert (Hl : nth_error l (j - lost_below lost j) = Some t).
  { unfold l. rewrite survivors_eq.
    apply (survivors_nth lost 0 exposing_times j t Hnth Hkeep). }
  assert (Hlt : (j - lost_below lost j < List.length l)%nat)
    by (apply nth_error_Some; congruence).
  pose proof (reconcile_cases V l) as (H1 & H2 & H3 & _).
  cbv zeta in H1, H2, H3.
  assert (Hlen : len (nan :: l) = Z.of_nat (S (List.length l)))
    by reflexivity.
  destruct (Z.lt_trichotomy (len (nan :: l)) V) as [Hpad|[Heq|Hcut]].
  - rewrite (H1 Hpad). eexists. split; [reflexivity|].
    rewrite nth_error_app1 by (cbn [List.length]; lia). exact Hl.
  - rewrite (H3 (eq_sym Heq)). eexists. split; [reflexivity|]. exact Hl.
  - rewrite H2 by lia. eexists. split; [reflexivity|].
    rewrite nth_error_firstn.
    destruct (Nat.ltb_spec (S (j - lost_below lost j)) (Z.to_nat V)); [|lia].
    exact Hl.
Qed.

(** On the small session's face line: exposure 2 of five, with exposure 1
    lost, is the timestamp of video frame 2. *)
Lemma exposure_lands_on_frame_witness :
  exists times,
    camera_frame_times true 4
      [Ideal.frac 1 1; Ideal.frac 2 1; Ideal.frac 3 1; Ideal.frac 4 1;
       Ideal.frac 5 1]
      (PDict [("FramesLostCount", PInt 1); ("LostFrames", PList [PStr "2"])])
    = Ok times
    /\ nth_error times 2 = Some (Ideal.frac 3 1).
Proof.
  apply (exposure_lands_on_frame 4 _ _ [1] 2 (Ideal.frac 3 1));
    reflexivity.
Defined.

(** ** Metadata read by [get_lost_frames_from_camera_info] *)

(** Metadata wrapped in a ["RecordingReport"] entry and the bare report
    give the same lost frames, and a ["RecordingReport"] that is not a
    mapping raises [AttributeError]. *)
Theorem lost_frames_of_wrapped_report {F} {ops : FloatOps F}
    (info : list (string * pyval F)) (report : pyval F) :
  dict_find info "RecordingReport" = Some report ->
  (forall d, report = PDict d ->
             dict_find d "RecordingReport" = None ->
             get_lost_frames_from_camera_info info
             = get_lost_frames_from_camera_info d)
  /\ ((forall d, report <> PDict d) ->
      get_lost_frames_from_camera_info info = Raise AttributeError).
Proof.
  intro Hwrap. split.
  - intros d -> Hbare.
    rewrite (get_lost_frames_unfold info d),  (get_lost_frames_unfold d d);
      [reflexivity | |];
      unfold get_video_info_data; [now rewrite Hbare | now rewrite Hwrap].
  - intro Hnot. unfold get_lost_frames_from_camera_info, get_video_info_data.
    rewrite Hwrap. destruct report; try reflexivity.
    now destruct (Hnot d).
Qed.

Lemma lost_frames_of_wrapped_report_witness :
  get_lost_frames_from_camera_info (ops := Ideal.ops)
    [("RecordingReport", PDict doctest_info)]
  = get_lost_frames_from_camera_info (ops := Ideal.ops) doctest_info
  /\ get_lost_frames_from_camera_info (ops := Ideal.ops)
       [("RecordingReport", PStr "1-2")] = Raise AttributeError.
Proof.
  split.
  - pose proof (lost_frames_of_wrapped_report (ops := Ideal.ops)
                  [("RecordingReport", PDict doctest_info)]
                  (PDict doctest_info) eq_refl) as [H _].
    apply (H doctest_info); reflexivity.
  - pose proof (lost_frames_of_wrapped_report (ops := Ideal.ops)
                  [("RecordingReport", PStr "1-2")]
                  (PStr "1-2") eq_refl) as [_ H].
    apply H. discriminate.
Defined.

(** When the metadata does not say that no frame was lost, each way the
    [LostFrames] entry can be wrong has its own exception: missing,
    [KeyError]; an empty list, [IndexError]; a first entry that is not a
    string, [AttributeError]; and a first entry that is empty or ends in a
    comma after well-formed spans, [ValueError]. *)
Theorem lost_frames_errors {F} {ops : FloatOps F}
    (info d : list (string * pyval F)) :
  get_video_info_data info = PDict d ->
  py_eq_int (get_or_none d "FramesLostCount") 0 = false ->
  (dict_find d "LostFrames" = None ->
   get_lost_frames_from_camera_info info = Raise KeyError)
  /\ (dict_find d "LostFrames" = Some (PList []) ->
      get_lost_frames_from_camera_info info = Raise IndexError)
  /\ (forall first rest,
         dict_find d "LostFrames" = Some (PList (first :: rest)) ->
         (forall s, first <> PStr s) ->
         get_lost_frames_from_camera_info info = Raise AttributeError)
  /\ (forall spans rest,
         dict_find d "LostFrames"
         = Some (PList (PStr (String.concat ","
                                (map show_span spans ++ [""])) :: rest)) ->
         get_lost_frames_from_camera_info info = Raise ValueError).
Proof.
  intros Hd Hcount.
  rewrite (get_lost_frames_unfold info d Hd).
  unfold get_or_none in Hcount. rewrite Hcount.
  split; [|split; [|split]].
  - now intros ->.
  - now intros ->.
  - intros first rest -> Hfirst.
    destruct first; try reflexivity. now destruct (Hfirst s).
  - intros spans rest ->.
    assert (Hsplit : split "," (String.concat "," (map show_span spans ++ [""]))
                     = map show_span spans ++ [""]).
    { destruct (map show_span spans ++ [""]) as [|x l] eqn:E.
      - now destruct (map show_span spans).
      - apply split_concat. rewrite <- E.
        apply Forall_app. split.
        + apply Forall_forall. intros s Hs.
          apply in_map_iff in Hs as (sp & <- & _).
          apply show_span_avoids_comma.
        + now repeat constructor. }
    rewrite Hsplit, for_each_app, add_spans_show. reflexivity.
Qed.

(** A trailing comma after the docstring's spans, and a plain empty
    string, raise [ValueError]. *)
Lemma lost_frames_errors_witness :
  get_lost_frames_from_camera_info (ops := Ideal.ops)
    [("LostFrames", PList [PStr "1-2,4-5,7,"])] = Raise ValueError
  /\ get_lost_frames_from_camera_info (ops := Ideal.ops)
       [("FramesLostCount", PInt 3); ("LostFrames", PList [PStr ""])]
     = Raise ValueError.
Proof.
  split.
  - pose proof (lost_frames_errors (ops := Ideal.ops)
                  [("LostFrames", PList [PStr "1-2,4-5,7,"])]
                  [("LostFrames", PList [PStr "1-2,4-5,7,"])]
                  eq_refl eq_refl) as (_ & _ & _ & H).
    apply (H [Run 1 2; Run 4 5; Single 7] []). reflexivity.
  - pose proof (lost_frames_errors (ops := Ideal.ops)
                  [("FramesLostCount", PInt 3); ("LostFrames", PList [PStr ""])]
                  [("FramesLostCount", PInt 3); ("LostFrames", PList [PStr ""])]
                  eq_refl eq_refl) as (_ & _ & _ & H).
    apply (H [] []). reflexivity.
Defined.

(** ** Reading a clean barcode *)

Lemma binary_value_cons (b : bool) (bits : list bool) :
  binary_value (b :: bits) = bool_int b * 2 ^ len bits + binary_value bits.
Proof.
  unfold binary_value at 1. cbn [fold_left].
  rewrite binary_value_acc. rewrite Z.mul_0_r, Z.add_0_l. reflexivity.
Qed.

Lemma binary_value_bound (bits : list bool) :
  0 <= binary_value bits < 2 ^ len bits.
Proof.
  induction bits as [|b bits IH].
  - cbn. lia.
  - rewrite binary_value_cons.
    replace (len (b :: bits)) with (len bits + 1)
      by (unfold len; cbn [List.length]; lia).
    rewrite Z.pow_add_r by (try apply len_nonneg; lia).
    destruct b; cbn [bool_int]; lia.
Qed.

(** The bits of [n] below exponent [k], most significant first, spell
    [n mod 2 ^ k]. *)
Lemma binary_value_testbit (n : Z) (k : nat) :
  binary_value (map (Z.testbit n) (rev (map Z.of_nat (seq 0 k))))
  = n mod 2 ^ Z.of_nat k.
Proof.
  induction k as [|k IH].
  - cbn. now rewrite Z.mod_1_r.
  - rewrite seq_S, map_app, rev_app_distr. cbn [map rev app Nat.add].
    rewrite binary_value_cons, IH.
    replace (len (map (Z.testbit n) (rev (map Z.of_nat (seq 0 k)))))
      with (Z.of_nat k)
      by (unfold len; now rewrite length_map, length_rev, length_map,
                                  length_seq).
    change (bool_int (Z.testbit n (Z.of_nat k)))
      with (Z.b2z (Z.testbit n (Z.of_nat k))).
    rewrite Z.testbit_spec' by lia.
    rewrite Nat2Z.inj_succ, Z.pow_succ_r by lia.
    rewrite (Z.mul_comm 2), Z.rem_mul_r by lia. lia.
Qed.

Lemma slice_whole {A} (l : list A) (stop : Z) :
  len l <= stop -> slice l 0 stop = l.
Proof.
  intro H. unfold slice, slice_bound, len in *.
  destruct (stop <? 0) eqn:E; [apply Z.ltb_lt in E; lia|].
  cbn [Z.ltb Z.compare Z.to_nat]. rewrite Nat.min_0_r, Nat.sub_0_r.
  cbn [skipn]. apply firstn_all2. lia.
Qed.

Lemma channel0_of_grey (rows : list (list Z)) :
  channel0 (map (map (fun v => [v; v; v])) rows) = Ok rows.
Proof.
  unfold channel0.
  induction rows as [|row rows IH]; cbn [map map_result]; [reflexivity|].
  assert (Hrow : map_result
                   (fun pixel : list Z =>
                      match pixel with
                      | c :: _ => Ok c
                      | [] => Raise IndexError
                      end)
                   (map (fun v => [v; v; v]) row) = Ok row).
  { induction row as [|v row IHr]; cbn [map map_result]; [reflexivity|].
    cbn [bind]. now rewrite IHr. }
  rewrite Hrow. cbn [bind]. now rewrite IH.
Qed.

Section CleanBarcode.
Context {F : Type} {ops : FloatOps F}.
Hypothesis Hops : reads_barcodes ops.

Lemma barcode_values_of_bits (bits : Z -> bool) :
  barcode_values [row_of_bits bits; row_of_bits bits]
  = map (fun k => normalise (cell_image (if bits k then 255 else 0)))
        exponents.
Proof. vm_compute. reflexivity. Qed.

Lemma barcode_values_white :
  barcode_values [strip_row 255 255 255; strip_row 255 255 255]
  = repeat (normalise (cell_image 255)) 20.
Proof. vm_compute. reflexivity. Qed.

Lemma white_cells_of_bits (bits : Z -> bool) :
  map is_white (barcode_values [row_of_bits bits; row_of_bits bits])
  = map bits exponents.
Proof.
  destruct Hops as (Hw & Hb & _).
  rewrite barcode_values_of_bits, map_map. apply map_ext.
  intro k. now destruct (bits k).
Qed.

Lemma bit_path_value (image : list (list Z)) :
  is_metadata_frame image = Ok false ->
  get_barcode_value image
  = Ok (binary_value (map is_white (barcode_values image))).
Proof.
  intro H. unfold get_barcode_value. rewrite H. cbn [bind].
  now rewrite sum_white_exponents_rev.
Qed.

Lemma forallb_map {A B} (f : A -> B) (p : B -> bool) (l : list A) :
  forallb p (map f l) = forallb (fun x => p (f x)) l.
Proof. induction l; cbn; congruence. Qed.

Lemma coded_strip_value (n : Z) :
  0 <= n < 2 ^ 20 ->
  binary_value (map is_white (barcode_values [coded_row n; coded_row n]))
  = n.
Proof.
  intro Hn. change (coded_row n) with (row_of_bits (Z.testbit n)).
  rewrite white_cells_of_bits.
  change exponents with (rev (map Z.of_nat (seq 0 20))).
  rewrite binary_value_testbit. apply Z.mod_small. exact Hn.
Qed.

Lemma coded_strip_not_metadata (n : Z) :
  0 <= n < 2 ^ 20 ->
  is_metadata_frame [coded_row n; coded_row n] = Ok false.
Proof.
  intro Hn. unfold is_metadata_frame. rewrite forallb_rev.
  destruct (forallb is_white (barcode_values [coded_row n; coded_row n]))
    eqn:Hall; [|reflexivity].
  pose proof (binary_value_all_white _ Hall) as Hfull.
  rewrite (coded_strip_value n Hn), barcode_values_length in Hfull.
  subst n.
  destruct Hops as (_ & _ & (r & Hr & Hle) & _).
  rewrite Hr. cbn [bind]. f_equal.
  rewrite Z.gtb_ltb. now apply Z.ltb_ge.
Qed.

Lemma coded_strip_decodes (n : Z) :
  0 <= n < 2 ^ 20 -> get_barcode_value [coded_row n; coded_row n] = Ok n.
Proof.
  intro Hn. rewrite (bit_path_value _ (coded_strip_not_metadata n Hn)).
  now rewrite (coded_strip_value n Hn).
Qed.

Lemma white_strip_decodes :
  get_barcode_value [strip_row 255 255 255; strip_row 255 255 255] = Ok 0.
Proof.
  unfold get_barcode_value, is_metadata_frame.
  rewrite forallb_rev, barcode_values_white.
  destruct Hops as (Hw & _ & _ & (r & Hr & Hlt)).
  cbn [repeat forallb]. rewrite Hw. cbn [andb].
  rewrite Hr. cbn [bind].
  replace (r >? 250) with true
    by (symmetry; rewrite Z.gtb_ltb; now apply Z.ltb_lt).
  reflexivity.
Qed.
End CleanBarcode.

(** Decoding inverts the barcode layout: the strip that spells a number
    below [2 ^ 20] in its 20 cells, one-pixel grey borders around the
    cells and three-pixel gaps between the groups, decodes to that
    number, and a uniformly white strip decodes to 0. *)
Theorem barcode_round_trip {F} {ops : FloatOps F} (n : Z) :
  reads_barcodes ops ->
  0 <= n < 2 ^ 20 ->
  get_barcode_value [coded_row n; coded_row n] = Ok n
  /\ get_barcode_value [strip_row 255 255 255; strip_row 255 255 255] = Ok 0.
Proof.
  intros Hops Hn. split.
  - exact (coded_strip_decodes Hops n Hn).
  - exact (white_strip_decodes Hops).
Qed.

Lemma ideal_reads_barcodes : reads_barcodes Ideal.ops.
Proof.
  unfold reads_barcodes. split; [vm_compute; reflexivity|].
  split; [vm_compute; reflexivity|]. split.
  - exists 205. split; [vm_compute; reflexivity | discriminate].
  - exists 255. split; vm_compute; reflexivity.
Qed.

(** In exact arithmetic the strip of 703333 decodes to 703333. *)
Lemma barcode_round_trip_witness :
  get_barcode_value (ops := Ideal.ops) [coded_row 703333; coded_row 703333]
  = Ok 703333
  /\ get_barcode_value (ops := Ideal.ops)
       [strip_row 255 255 255; strip_row 255 255 255] = Ok 0.
Proof.
  apply (barcode_round_trip (ops := Ideal.ops) 703333 ideal_reads_barcodes).
  split; [discriminate | reflexivity].
Defined.

Lemma sum_white_bound {F} {ops : FloatOps F} (values : list F) :
  0 <= sum_white_exponents (rev values) < 2 ^ len values.
Proof.
  rewrite sum_white_exponents_rev.
  pose proof (binary_value_bound (map is_white values)) as H.
  replace (len (map is_white values)) with (len values) in H
    by (unfold len; now rewrite length_map).
  exact H.
Qed.

(** A decoded value is a 20-bit number, and decoding fails in one way
    only: all 20 cells read white and the rounding of the mean of the
    strip fails. *)
Theorem barcode_value_range {F} {ops : FloatOps F} (image : list (list Z)) :
  (forall v, get_barcode_value image = Ok v -> 0 <= v < 2 ^ 20)
  /\ (forall e,
         get_barcode_value image = Raise e ->
         forallb is_white (barcode_values image) = true
         /\ py_round (np_mean_u8 image) = Raise e).
Proof.
  pose proof (sum_white_bound (barcode_values image)) as Hsum.
  rewrite barcode_values_length in Hsum.
  unfold get_barcode_value, is_metadata_frame. rewrite forallb_rev.
  destruct (forallb is_white (barcode_values image)).
  - destruct (py_round (np_mean_u8 image)) as [r|e']; cbn [bind].
    + split; [|intros e H; destruct (r >? 250); discriminate].
      intro v. destruct (r >? 250); intro H.
      * assert (v = 0) by congruence. lia.
      * assert (Hv : v = sum_white_exponents (rev (barcode_values image)))
          by congruence.
        rewrite Hv. exact Hsum.
    + split; [discriminate|]. intros e H. split; congruence.
  - cbn [bind]. split; [|discriminate].
    intros v H.
    assert (Hv : v = sum_white_exponents (rev (barcode_values image)))
      by congruence.
    rewrite Hv. exact Hsum.
Qed.

Lemma barcode_value_range_witness :
  0 <= 1048575 < 2 ^ 20
  /\ get_barcode_value (ops := Ideal.ops) white_cells_strip = Ok 1048575.
Proof.
  assert (H : get_barcode_value (ops := Ideal.ops) white_cells_strip
              = Ok 1048575) by (vm_compute; reflexivity).
  pose proof (barcode_value_range (ops := Ideal.ops) white_cells_strip)
    as [Hr _].
  split; [exact (Hr _ H) | exact H].
Defined.

(** ** Cropping the barcode and looking a frame number up *)

Lemma len_slice {A} (l : list A) (a b : Z) :
  0 <= a <= b -> b <= len l -> len (slice l a b) = b - a.
Proof.
  intros Hab Hb. unfold slice, slice_bound, len in *.
  destruct (a <? 0) eqn:Ea; [apply Z.ltb_lt in Ea; lia|].
  destruct (b <? 0) eqn:Eb; [apply Z.ltb_lt in Eb; lia|].
  rewrite length_firstn, length_skipn. lia.
Qed.

Lemma In_slice {A} (l : list A) (a b : Z) x : In x (slice l a b) -> In x l.
Proof.
  unfold slice. intro H.
  rewrite <- (firstn_skipn (slice_bound (List.length l) a) l).
  apply in_or_app. right.
  rewrite <- (firstn_skipn
                (slice_bound (List.length l) b
                 - slice_bound (List.length l) a)
                (skipn (slice_bound (List.length l) a) l)).
  apply in_or_app. now left.
Qed.

(** On a frame that holds the whole box, [get_barcode_image] returns
    [height - 1] rows of [width + 3] pixels: the row at [yOffset] is left
    out and three columns are added to the declared width. *)
Theorem barcode_image_size (fr : frame) (coordinates : list (string * Z))
    (x y w h cols : Z) :
  dict_find coordinates "xOffset" = Some x ->
  dict_find coordinates "yOffset" = Some y ->
  dict_find coordinates "width" = Some w ->
  dict_find coordinates "height" = Some h ->
  Forall (fun row => len row = cols) fr ->
  0 <= x -> 0 <= y -> 0 <= w + 3 -> 1 <= h ->
  y + h <= len fr -> x + w + 3 <= cols ->
  exists image,
    get_barcode_image fr coordinates = Ok image
    /\ len image = h - 1
    /\ Forall (fun row => len row = w + 3) image.
Proof.
  intros Hx Hy Hw Hh Hrect Hx0 Hy0 Hw0 Hh1 Hrows Hcols.
  unfold get_barcode_image, dict_get. rewrite Hy, Hh, Hx, Hw. cbn [bind].
  eexists. split; [reflexivity|]. split.
  - unfold columns, len. rewrite length_map.
    fold (len (slice fr (y + 1) (y + h))).
    rewrite len_slice; lia.
  - unfold columns. apply Forall_map, Forall_forall.
    intros row Hrow. apply In_slice in Hrow.
    rewrite Forall_forall in Hrect. pose proof (Hrect row Hrow) as Hlen.
    rewrite len_slice; lia.
Qed.

(** With the default box, a frame of 3 rows and 132 columns gives the 2
    rows of 132 pixels that the five groups of the layout fill. *)
Lemma barcode_image_size_witness :
  exists image,
    get_barcode_image (frame_of_row (coded_row 5))
      [("xOffset", 0); ("yOffset", 0); ("width", 129); ("height", 3)]
    = Ok image
    /\ len image = 3 - 1
    /\ Forall (fun row => len row = 129 + 3) image.
Proof.
  apply (barcode_image_size _ _ 0 0 129 3 132); try reflexivity;
    try discriminate.
  repeat constructor.
Defined.

Lemma default_coordinates_used {F} {ops : FloatOps F}
    (d : list (string * pyval F)) :
  dict_find d "BarcodeCoordinates" = None ->
  get_barcode_image_coordinates (PDict d)
  = Ok [("xOffset", 0); ("yOffset", 0); ("width", 129); ("height", 3)].
Proof.
  intro H. unfold get_barcode_image_coordinates. cbn [py_get bind].
  rewrite H. reflexivity.
Qed.

Lemma default_crop_of_row (row : list Z) :
  len row = 132 ->
  (image <- get_barcode_image (frame_of_row row)
              [("xOffset", 0); ("yOffset", 0); ("width", 129);
               ("height", 3)] ;;
   channel0 image) = Ok [row; row].
Proof.
  intro Hlen.
  change (get_barcode_image (frame_of_row row)
            [("xOffset", 0); ("yOffset", 0); ("width", 129); ("height", 3)])
    with (@Ok frame
            [slice (map (fun v => [v; v; v]) row) 0 132;
             slice (map (fun v => [v; v; v]) row) 0 132]).
  cbn [bind].
  rewrite slice_whole by (unfold len in *; rewrite length_map; lia).
  exact (channel0_of_grey [row; row]).
Qed.

Lemma len_coded_row n : len (coded_row n) = 132.
Proof. unfold coded_row, len. now rewrite length_map. Qed.

Section FrameLookup.
Context {F : Type} {ops : FloatOps F}.
Hypothesis Hops : reads_barcodes ops.

Lemma lossy_video_frame (lost k : Z) :
  0 <= lost -> 0 <= k -> k + lost < 2 ^ 20 ->
  get_barcode_value_from_frame (lossy_video lost) k
    [("xOffset", 0); ("yOffset", 0); ("width", 129); ("height", 3)]
  = Ok (if k =? 0 then 0 else k + lost).
Proof.
  intros Hl Hk Hmax. unfold get_barcode_value_from_frame.
  cbn [lossy_video read_frame].
  destruct (k =? 0) eqn:E.
  - pose proof (default_crop_of_row (strip_row 255 255 255) eq_refl) as Hc.
    destruct (get_barcode_image _ _) as [image|]; [|discriminate].
    cbn [bind] in Hc |- *. rewrite Hc. cbn [bind].
    rewrite (white_strip_decodes Hops). cbn [bind]. reflexivity.
  - apply Z.eqb_neq in E.
    pose proof (default_crop_of_row (coded_row (k + lost))
                  (len_coded_row (k + lost))) as Hc.
    destruct (get_barcode_image _ _) as [image|]; [|discriminate].
    cbn [bind] in Hc |- *. rewrite Hc. cbn [bind].
    rewrite (coded_strip_decodes Hops (k + lost)) by lia. cbn [bind].
    destruct (k + lost =? 0) eqn:E0; [apply Z.eqb_eq in E0; lia|].
    reflexivity.
Qed.
End FrameLookup.

Lemma lookup_on_lossy_video {F} {ops : FloatOps F}
    (info d : list (string * pyval F)) (lost k : Z) :
  reads_barcodes ops ->
  get_video_info_data info = PDict d ->
  imprint_flag d = PStr "true" ->
  dict_find d "BarcodeCoordinates" = None ->
  0 <= lost -> 0 <= k -> k + lost < 2 ^ 20 ->
  get_frame_number_from_barcode (lossy_video lost) info k
  = Ok (if k =? 0 then 0 else k + lost).
Proof.
  intros Hops Hd Hflag Hbox Hl Hk Hmax.
  unfold get_frame_number_from_barcode. rewrite Hd.
  cbn [py_get bind]. fold (imprint_flag d). rewrite Hflag.
  cbn [py_eq_str negb]. change (String.eqb "true" "true") with true.
  cbn [negb]. unfold decode_frame_number.
  rewrite (default_coordinates_used d Hbox). cbn [bind].
  exact (lossy_video_frame Hops lost k Hl Hk Hmax).
Qed.

(** With the imprint enabled and no box declared in the metadata, the
    lookup reads the default box: on a video whose frame 0 is white and
    whose frame [k] carries the barcode of [k + lost], frame 0 gives 0 and
    frame [k] gives [k + lost]. *)
Theorem frame_number_of_coded_frame {F} {ops : FloatOps F}
    (info d : list (string * pyval F)) (lost k : Z) :
  reads_barcodes ops ->
  get_video_info_data info = PDict d ->
  imprint_flag d = PStr "true" ->
  dict_find d "BarcodeCoordinates" = None ->
  0 <= lost -> 0 < k -> k + lost < 2 ^ 20 ->
  get_frame_number_from_barcode (lossy_video lost) info 0 = Ok 0
  /\ get_frame_number_from_barcode (lossy_video lost) info k = Ok (k + lost).
Proof.
  intros Hops Hd Hflag Hbox Hl Hk Hmax. split.
  - exact (lookup_on_lossy_video info d lost 0 Hops Hd Hflag Hbox Hl
             ltac:(lia) ltac:(lia)).
  - rewrite (lookup_on_lossy_video info d lost k Hops Hd Hflag Hbox Hl
               ltac:(lia) Hmax).
    destruct (k =? 0) eqn:E; [apply Z.eqb_eq in E; lia | reflexivity].
Qed.

Lemma frame_number_of_coded_frame_witness :
  get_frame_number_from_barcode (ops := Ideal.ops) (lossy_video 3)
    [("FrameID imprint enabled", PStr "true")] 0 = Ok 0
  /\ get_frame_number_from_barcode (ops := Ideal.ops) (lossy_video 3)
       [("FrameID imprint enabled", PStr "true")] 1000 = Ok (1000 + 3).
Proof.
  apply (frame_number_of_coded_frame (ops := Ideal.ops)
           [("FrameID imprint enabled", PStr "true")]
           [("FrameID imprint enabled", PStr "true")] 3 1000
           ideal_reads_barcodes);
    reflexivity || discriminate.
Defined.

(** The barcode of the last frame counts the lost frames: on a video of
    at least two frames that lost [lost] frames, the value read in the
    last frame minus its index is [lost].  When the imprint is not
    enabled the [ValueError] of the lookup comes out as
    [AttributeError]. *)
Theorem lost_frames_from_last_barcode {F} {ops : FloatOps F}
    (video_data : VideoCapture) (info d : list (string * pyval F))
    (lost frame_count : Z) :
  get_video_info_data info = PDict d ->
  (reads_barcodes ops ->
   imprint_flag d = PStr "true" ->
   dict_find d "BarcodeCoordinates" = None ->
   0 <= lost -> 2 <= frame_count -> frame_count - 1 + lost < 2 ^ 20 ->
   num_lost_frames_from_barcode (lossy_video lost) info frame_count
   = Ok lost)
  /\ (imprint_flag d <> PStr "true" ->
      num_lost_frames_from_barcode video_data info frame_count
      = Raise AttributeError).
Proof.
  intro Hd. split.
  - intros Hops Hflag Hbox Hl Hn Hmax. unfold num_lost_frames_from_barcode.
    rewrite (lookup_on_lossy_video info d lost (frame_count - 1) Hops Hd
               Hflag Hbox Hl ltac:(lia) Hmax).
    destruct (frame_count - 1 =? 0) eqn:E; [apply Z.eqb_eq in E; lia|].
    f_equal. lia.
  - intro Hflag. unfold num_lost_frames_from_barcode,
      get_frame_number_from_barcode.
    rewrite Hd. cbn [py_get bind]. fold (imprint_flag d).
    destruct (imprint_flag d) as [| | | |s| |]; try reflexivity.
    cbn [py_eq_str]. destruct (String.eqb s "true") eqn:E; [|reflexivity].
    apply String.eqb_eq in E. congruence.
Qed.

(** A video of 500 frames that lost 7: the count from the barcode is 7;
    with the imprint off the call raises [AttributeError]. *)
Lemma lost_frames_from_last_barcode_witness :
  num_lost_frames_from_barcode (ops := Ideal.ops) (lossy_video 7)
    [("FrameID imprint enabled", PStr "true")] 500 = Ok 7
  /\ num_lost_frames_from_barcode (ops := Ideal.ops) (lossy_video 7)
       [("FrameID imprint enabled", PStr "false")] 500
     = Raise AttributeError.
Proof.
  split.
  - pose proof (lost_frames_from_last_barcode (ops := Ideal.ops)
                  (lossy_video 7)
                  [("FrameID imprint enabled", PStr "true")]
                  [("FrameID imprint enabled", PStr "true")] 7 500 eq_refl)
      as [H _].
    apply (H ideal_reads_barcodes); reflexivity || discriminate.
  - pose proof (lost_frames_from_last_barcode (ops := Ideal.ops)
                  (lossy_video 7)
                  [("FrameID imprint enabled", PStr "false")]
                  [("FrameID imprint enabled", PStr "false")] 7 500 eq_refl)
      as [_ H].
    apply H. discriminate.
Defined.

(** [get_barcode_value_from_frame] never returns 0 for a frame other than
    frame 0: a later frame that decodes to 0 fails the assertion.  What it
    returns is a 20-bit number. *)
Theorem zero_only_at_frame_zero {F} {ops : FloatOps F}
    (video_data : VideoCapture) (frame_number : Z)
    (coordinates : list (string * Z)) :
  (forall v,
      get_barcode_value_from_frame video_data frame_number coordinates
      = Ok v ->
      0 <= v < 2 ^ 20 /\ (v = 0 -> frame_number = 0))
  /\ (forall fr image barcode_image,
         read_frame video_data frame_number = Some fr ->
         get_barcode_image fr coordinates = Ok image ->
         channel0 image = Ok barcode_image ->
         get_barcode_value barcode_image = Ok 0 ->
         frame_number <> 0 ->
         get_barcode_value_from_frame video_data frame_number coordinates
         = Raise AssertionError).
Proof.
  unfold get_barcode_value_from_frame. split.
  - intro v.
    destruct (read_frame video_data frame_number) as [fr|];
      [|destruct (slice_bounds coordinates); discriminate].
    destruct (get_barcode_image fr coordinates) as [image|];
      [|discriminate].
    cbn [bind].
    destruct (channel0 image) as [barcode_image|]; [|discriminate].
    cbn [bind].
    destruct (get_barcode_value barcode_image) as [value|] eqn:Hv;
      [|discriminate].
    cbn [bind].
    pose proof (sum_white_bound (barcode_values barcode_image)) as Hsum.
    assert (Hrange : 0 <= value < 2 ^ 20).
    { revert Hv. unfold get_barcode_value.
      destruct (is_metadata_frame barcode_image) as [[]|]; cbn [bind];
        intro Hv; [| |discriminate].
      - assert (value = 0) by congruence. lia.
      - assert (Hval : value
                       = sum_white_exponents
                           (rev (barcode_values barcode_image)))
          by congruence.
        rewrite Hval. rewrite barcode_values_length in Hsum. exact Hsum. }
    destruct (value =? 0) eqn:E.
    + destruct (frame_number =? 0) eqn:E0; [|discriminate].
      intro H. assert (v = value) by congruence. subst v.
      split; [exact Hrange|]. intros _. now apply Z.eqb_eq.
    + intro H. assert (v = value) by congruence. subst v.
      split; [exact Hrange|]. apply Z.eqb_neq in E. congruence.
  - intros fr image barcode_image -> Himage Hch Hv Hn.
    rewrite Himage. cbn [bind]. rewrite Hch. cbn [bind].
    rewrite Hv. cbn [bind Z.eqb].
    destruct (frame_number =? 0) eqn:E; [|reflexivity].
    apply Z.eqb_eq in E. congruence.
Qed.

(** Frame 4 of a video whose frames are all black fails the assertion,
    and frame 9 of the coded video gives 9, not 0. *)
Lemma zero_only_at_frame_zero_witness :
  get_barcode_value_from_frame (ops := Ideal.ops)
    {| read_frame := fun _ => Some (frame_of_row (coded_row 0)) |} 4
    [("xOffset", 0); ("yOffset", 0); ("width", 129); ("height", 3)]
  = Raise AssertionError
  /\ (0 <= 9 < 2 ^ 20 /\ (9 = 0 -> 9 = 0)).
Proof.
  split.
  - pose proof (zero_only_at_frame_zero (ops := Ideal.ops)
                  {| read_frame := fun _ => Some (frame_of_row (coded_row 0)) |}
                  4
                  [("xOffset", 0); ("yOffset", 0); ("width", 129);
                   ("height", 3)]) as [_ H].
    eapply H; reflexivity || discriminate.
  - pose proof (zero_only_at_frame_zero (ops := Ideal.ops) coded_video 9
                  [("xOffset", 0); ("yOffset", 0); ("width", 129);
                   ("height", 3)]) as [H _].
    apply H. vm_compute. reflexivity.
Defined.

(** ** What the resolver does on every input *)

(** [get_camera_sync_line_name_mapping] returns a mapping on no input: it
    always raises, and once the start times and the two duration tables
    are read and the first camera is assigned, what it raises is the
    [ValueError] of looking a start time up among the line names. *)
Theorem resolver_raises_on_every_input {F} {ops : FloatOps F}
    (sync_data : SyncDataset F) (jsons : list (string * pyval F)) :
  (exists e, get_camera_sync_line_name_mapping sync_data jsons = Raise e)
  /\ (forall start_times expected actual mapping,
         get_start_times_on_sync sync_data = Ok start_times ->
         get_exposure_fingerprint_durations_from_jsons jsons = Ok expected ->
         get_exposure_fingerprint_durations_from_sync sync_data = Ok actual ->
         assign_actual_line expected actual [] "beh" = Ok mapping ->
         get_camera_sync_line_name_mapping sync_data jsons
         = Raise ValueError).
Proof.
  split.
  - unfold get_camera_sync_line_name_mapping.
    destruct (get_start_times_on_sync sync_data) as [st|e]; cbn [bind];
      [|eauto].
    destruct (get_exposure_fingerprint_durations_from_jsons jsons)
      as [ex|e]; cbn [bind]; [|eauto].
    destruct (get_exposure_fingerprint_durations_from_sync sync_data)
      as [ac|e]; cbn [bind]; [|eauto].
    unfold camera_names_on_sync. cbn [for_each].
    destruct (assign_actual_line ex ac [] "beh") as [m|e]; cbn [bind];
      [|eauto].
    destruct (assert_readout_fails st (map fst (sorted snd st)) "beh")
      as [e He].
    rewrite He. cbn [bind]. eauto.
  - intros st ex ac m Hst Hex Hac Hm.
    unfold get_camera_sync_line_name_mapping.
    rewrite Hst. cbn [bind]. rewrite Hex. cbn [bind]. rewrite Hac.
    cbn [bind]. unfold camera_names_on_sync. cbn [for_each].
    rewrite Hm. cbn [bind].
    unfold assert_readout_follows_exposing.
    assert (Hbeh : exists t, dict_get st "beh_cam_exposing" = Ok t).
    { revert Hst. unfold get_start_times_on_sync.
      cbn [camera_names_on_sync line_suffixes flat_map map app
           String.append for_each].
      repeat match goal with
             | |- context [read_edges true sync_data ?l] =>
                 destruct (read_edges true sync_data l) as [[|? ?]|];
                 cbn [bind]; try discriminate
             end.
      intro H. injection H as <-. eexists. reflexivity. }
    destruct Hbeh as [t Ht].
    change ("beh" +++ "_cam_exposing") with "beh_cam_exposing".
    rewrite Ht. cbn [bind]. unfold tuple_index.
    rewrite index_of_time_fails. reflexivity.
Qed.

Lemma resolver_raises_on_every_input_witness :
  get_camera_sync_line_name_mapping session_sync session_jsons
  = Raise ValueError.
Proof.
  pose proof (resolver_raises_on_every_input session_sync session_jsons)
    as [_ H].
  eapply H; vm_compute; reflexivity.
Defined.

(** [get_video_frame_times] resolves the line names before anything else,
    so it returns no frame times on any input either, and raises the same
    exception with and without correction. *)
Theorem video_frame_times_raise_on_every_input {F} {ops : FloatOps F}
    (sync_data : SyncDataset F) videos (jsons : list (string * pyval F))
    frame_counts :
  (forall apply_correction,
      exists e,
        get_video_frame_times sync_data videos jsons frame_counts
          apply_correction = Raise e
        /\ get_camera_sync_line_name_mapping sync_data jsons = Raise e)
  /\ get_video_frame_times sync_data videos jsons frame_counts true
     = get_video_frame_times sync_data videos jsons frame_counts false.
Proof.
  destruct (resolver_never_returns sync_data jsons) as [e He].
  split.
  - intro apply_correction. exists e.
    unfold get_video_frame_times. rewrite He. now split.
  - unfold get_video_frame_times. now rewrite He.
Qed.

(** ** Ties between lines *)

Lemma first_closest_of_three {F} {ops : FloatOps F} (e a1 a2 a3 : Z) :
  py_min (fun it : string * Z => abs_difference (PInt e) (snd it))
    [("beh_cam_exposing", a1); ("face_cam_exposing", a2);
     ("eye_cam_exposing", a3)]
  = Ok (if Z.abs (e - a2) <? Z.abs (e - a1)
        then if Z.abs (e - a3) <? Z.abs (e - a2)
             then ("eye_cam_exposing", a3)
             else ("face_cam_exposing", a2)
        else if Z.abs (e - a3) <? Z.abs (e - a1)
             then ("eye_cam_exposing", a3)
             else ("beh_cam_exposing", a1)).
Proof.
  cbn [py_min min_from abs_difference bind snd num_ltb].
  destruct (Z.abs (e - a2) <? Z.abs (e - a1));
    [destruct (Z.abs (e - a3) <? Z.abs (e - a2))
    |destruct (Z.abs (e - a3) <? Z.abs (e - a1))]; reflexivity.
Qed.

(** When several lines are equally close to a camera's nominal duration
    the first of beh, face, eye is recorded: face only if strictly closer
    than beh, eye only if strictly closer than both. *)
Theorem ties_go_to_first_line {F} {ops : FloatOps F}
    (expected : list (string * pyval F)) (mapping : list (string * string))
    (role camera : string) (e a1 a2 a3 : Z) :
  dict_find expected (role +++ "_cam_exposing") = Some (PInt e) ->
  get_camera_name role = Ok camera ->
  let d1 := Z.abs (e - a1) in
  let d2 := Z.abs (e - a2) in
  let d3 := Z.abs (e - a3) in
  exists prefix mapping',
    assign_actual_line expected
      [("beh_cam_exposing", a1); ("face_cam_exposing", a2);
       ("eye_cam_exposing", a3)] mapping role = Ok mapping'
    /\ dict_find mapping' camera = Some prefix
    /\ (prefix = "beh" /\ d1 <= d2 /\ d1 <= d3
        \/ prefix = "face" /\ d2 < d1 /\ d2 <= d3
        \/ prefix = "eye" /\ d3 < d1 /\ d3 < d2).
Proof.
  intros Hexp Hcam d1 d2 d3.
  unfold assign_actual_line, dict_get. rewrite Hexp. cbn [bind].
  rewrite first_closest_of_three. fold d1 d2 d3. cbn [bind].
  destruct (d2 <? d1) eqn:E21.
  - destruct (d3 <? d2) eqn:E32; cbn [fst].
    + change (get_camera_name_on_sync "eye_cam_exposing")
        with (@Ok string "eye").
      cbn [bind]. rewrite Hcam. cbn [bind].
      exists "eye". eexists. split; [reflexivity|].
      split; [apply dict_find_set_same|].
      apply Z.ltb_lt in E21, E32. right. right. repeat split; lia.
    + change (get_camera_name_on_sync "face_cam_exposing")
        with (@Ok string "face").
      cbn [bind]. rewrite Hcam. cbn [bind].
      exists "face". eexists. split; [reflexivity|].
      split; [apply dict_find_set_same|].
      apply Z.ltb_lt in E21. apply Z.ltb_ge in E32.
      right. left. repeat split; lia.
  - destruct (d3 <? d1) eqn:E31; cbn [fst].
    + change (get_camera_name_on_sync "eye_cam_exposing")
        with (@Ok string "eye").
      cbn [bind]. rewrite Hcam. cbn [bind].
      exists "eye". eexists. split; [reflexivity|].
      split; [apply dict_find_set_same|].
      apply Z.ltb_ge in E21. apply Z.ltb_lt in E31.
      right. right. repeat split; lia.
    + change (get_camera_name_on_sync "beh_cam_exposing")
        with (@Ok string "beh").
      cbn [bind]. rewrite Hcam. cbn [bind].
      exists "beh". eexists. split; [reflexivity|].
      split; [apply dict_find_set_same|].
      apply Z.ltb_ge in E21, E31. left. repeat split; lia.
Qed.

(** Three lines of the same signature duration: the eye camera is
    recorded on the beh line. *)
Lemma ties_go_to_first_line_witness :
  exists prefix mapping',
    assign_actual_line (ops := Ideal.ops) session_expected
      [("beh_cam_exposing", 40); ("face_cam_exposing", 40);
       ("eye_cam_exposing", 40)] [] "eye" = Ok mapping'
    /\ dict_find mapping' "eye" = Some prefix
    /\ (prefix = "beh" /\ Z.abs (62 - 40) <= Z.abs (62 - 40)
                       /\ Z.abs (62 - 40) <= Z.abs (62 - 40)
        \/ prefix = "face" /\ Z.abs (62 - 40) < Z.abs (62 - 40)
                           /\ Z.abs (62 - 40) <= Z.abs (62 - 40)
        \/ prefix = "eye" /\ Z.abs (62 - 40) < Z.abs (62 - 40)
                          /\ Z.abs (62 - 40) < Z.abs (62 - 40)).
Proof.
  apply (ties_go_to_first_line (ops := Ideal.ops) session_expected []
           "eye" "eye" 62 40 40 40); reflexivity.
Defined.

(** ** The loop of [get_video_frame_times] *)

Section FrameTimesLoop.
Context {F : Type} {ops : FloatOps F}.
Variable mapping : list (string * string).
Variable times_by_line : list (string * list F).

(** The line a camera is redirected to and the times read from it. *)
Let redirected (camera : string) (exposing : list F) : Prop :=
  exists on_sync line_camera,
    dict_find mapping camera = Some on_sync
    /\ get_camera_name on_sync = Ok line_camera
    /\ dict_find times_by_line line_camera = Some exposing.

Lemma redirect_entries (cameras : list string) :
  forall acc d,
    (forall c t, dict_find acc c = Some t -> redirected c t) ->
    for_each cameras
      (fun d camera =>
         on_sync <- dict_get mapping camera ;;
         line_camera <- get_camera_name on_sync ;;
         times <- dict_get times_by_line line_camera ;;
         Ok (dict_set d camera times))
      acc = Ok d ->
    forall c t, dict_find d c = Some t -> redirected c t.
Proof.
  intros acc d Hacc Hrun.
  refine (for_each_preserves
            (fun d => forall c t, dict_find d c = Some t -> redirected c t)
            _ cameras _ acc d Hacc Hrun).
  clear acc d Hacc Hrun. intros acc camera acc' Hacc.
  unfold dict_get.
  destruct (dict_find mapping camera) as [on_sync|] eqn:Hm; [|discriminate].
  cbn [bind].
  destruct (get_camera_name on_sync) as [line_camera|] eqn:Hn;
    [|discriminate].
  cbn [bind].
  destruct (dict_find times_by_line line_camera) as [times|] eqn:Ht;
    [|discriminate].
  cbn [bind]. intro H. injection H as <-.
  intros c t. rewrite dict_find_set.
  destruct (String.eqb c camera) eqn:E.
  - apply String.eqb_eq in E. subst c. intro H. injection H as <-.
    exists on_sync, line_camera. auto.
  - apply Hacc.
Qed.
End FrameTimesLoop.

(** Every array the loop of [get_video_frame_times] returns is the
    reconstruction of a camera of that video from the times of the line
    the resolved mapping names for the camera, with the camera's own
    metadata and the video's frame count. *)
Theorem frame_times_come_from_mapped_line {F} {ops : FloatOps F}
    (mapping : list (string * string)) (sync_data : SyncDataset F)
    (videos : list (string * string)) (jsons : list (string * pyval F))
    (frame_counts : string -> Z) (apply_correction : bool)
    (frame_times : list (string * list F)) :
  video_frame_times_of_mapping mapping sync_data videos jsons frame_counts
    apply_correction = Ok frame_times ->
  forall path times,
    In (path, times) frame_times ->
    exists camera on_sync line_camera times_by_line exposing json_data,
      dict_find videos camera = Some path
      /\ dict_find mapping camera = Some on_sync
      /\ get_camera_name on_sync = Ok line_camera
      /\ get_cam_exposing_times_on_sync sync_data = Ok times_by_line
      /\ dict_find times_by_line line_camera = Some exposing
      /\ dict_find jsons camera = Some json_data
      /\ camera_frame_times apply_correction (frame_counts path) exposing
           json_data = Ok times.
Proof.
  unfold video_frame_times_of_mapping.
  destruct (get_cam_exposing_times_on_sync sync_data) as [T|] eqn:HT;
    [|discriminate].
  cbn [bind].
  destruct (for_each (dict_keys T) _ []) as [E|] eqn:HE; [|discriminate].
  cbn [bind].
  pose proof (redirect_entries mapping T (dict_keys T) [] E
                ltac:(intros c t H; discriminate) HE) as Hred.
  set (P := fun ft : list (string * list F) =>
              forall path times,
                In (path, times) ft ->
                exists camera on_sync line_camera times_by_line exposing
                       json_data,
                  dict_find videos camera = Some path
                  /\ dict_find mapping camera = Some on_sync
                  /\ get_camera_name on_sync = Ok line_camera
                  /\ @Ok (list (string * list F)) T = Ok times_by_line
                  /\ dict_find times_by_line line_camera = Some exposing
                  /\ dict_find jsons camera = Some json_data
                  /\ camera_frame_times apply_correction
                       (frame_counts path) exposing json_data = Ok times).
  intro Hrun.
  refine (for_each_preserves P _ _ _ [] frame_times _ Hrun);
    [|intros path times []].
  clear Hrun.
  intros acc camera acc' Hacc.
  destruct (dict_mem videos camera); [|intro H; now injection H as <-].
  unfold dict_get.
  destruct (dict_find videos camera) as [path|] eqn:Hv; [|discriminate].
  cbn [bind].
  destruct (dict_find E camera) as [exposing|] eqn:He; [|discriminate].
  cbn [bind].
  destruct (dict_find jsons camera) as [json|] eqn:Hj; [|discriminate].
  cbn [bind].
  destruct (camera_frame_times apply_correction (frame_counts path)
              exposing json) as [arr|] eqn:Hc; [|discriminate].
  cbn [bind]. intro H. injection H as <-.
  assert (Hall : Forall (fun kv => P [kv]) (dict_set acc path arr)).
  { apply dict_set_Forall.
    - apply Forall_forall. intros [p t] Hpt p' t' [Heq|[]].
      injection Heq as <- <-. exact (Hacc p t Hpt).
    - intros p' t' [Heq|[]]. injection Heq as <- <-.
      destruct (Hred camera exposing He) as (on_sync & lc & Hm & Hn & Ht).
      exists camera, on_sync, lc, T, exposing, json. auto 10. }
  intros p t Hpt. rewrite Forall_forall in Hall.
  apply (Hall (p, t) Hpt). now left.
Qed.

(** On the small session, wired with face and eye swapped, the array of
    Face.mp4 is read from the line of the eye camera. *)
Lemma frame_times_come_from_mapped_line_witness :
  exists camera on_sync line_camera times_by_line exposing json_data,
    dict_find session_videos camera = Some "Face.mp4"
    /\ dict_find swapped_mapping camera = Some on_sync
    /\ get_camera_name on_sync = Ok line_camera
    /\ get_cam_exposing_times_on_sync session_sync = Ok times_by_line
    /\ dict_find times_by_line line_camera = Some exposing
    /\ dict_find session_jsons camera = Some json_data
    /\ camera_frame_times true (session_frame_counts "Face.mp4") exposing
         json_data
       = Ok [nan; Ideal.frac 12 4; Ideal.frac 14 4; Ideal.frac 15 4;
             Ideal.frac 16 4].
Proof.
  apply (frame_times_come_from_mapped_line swapped_mapping session_sync
           session_videos session_jsons session_frame_counts true _
           session_frame_times "Face.mp4").
  cbn [In]. right. left. reflexivity.
Defined.

(** ** The barcode box of the metadata *)

Lemma decimal_entries_read {F} {ops : FloatOps F}
    (entries : list (string * nat)) :
  map_result (fun kv : string * pyval F =>
                z <- py_int (snd kv) ;; Ok (fst kv, z))
    (map (fun kn => (fst kn, PStr (show_nat (snd kn)))) entries)
  = Ok (map (fun kn => (fst kn, Z.of_nat (snd kn))) entries).
Proof.
  induction entries as [|[k n] entries IH]; cbn [map map_result];
    [reflexivity|].
  cbn [fst snd py_int]. rewrite int_of_str_show_nat. cbn [bind].
  rewrite IH. reflexivity.
Qed.

(** A ["BarcodeCoordinates"] mapping whose values are decimal strings is
    read entry by entry, in order, into the numbers they spell; without
    the entry the default box at the origin, 129 wide and 3 high, is
    used. *)
Theorem barcode_coordinates_read {F} {ops : FloatOps F}
    (d : list (string * pyval F)) :
  (forall entries : list (string * nat),
      dict_find d "BarcodeCoordinates"
      = Some (PDict (map (fun kn => (fst kn, PStr (show_nat (snd kn))))
                         entries)) ->
      get_barcode_image_coordinates (PDict d)
      = Ok (map (fun kn => (fst kn, Z.of_nat (snd kn))) entries))
  /\ (dict_find d "BarcodeCoordinates" = None ->
      get_barcode_image_coordinates (PDict d)
      = Ok [("xOffset", 0); ("yOffset", 0); ("width", 129); ("height", 3)]).
Proof.
  split.
  - intros entries H. unfold get_barcode_image_coordinates.
    cbn [py_get bind]. rewrite H. apply decimal_entries_read.
  - apply default_coordinates_used.
Qed.

Lemma barcode_coordinates_read_witness :
  get_barcode_image_coordinates (ops := Ideal.ops)
    (PDict [("BarcodeCoordinates",
             PDict [("xOffset", PStr "2"); ("yOffset", PStr "0");
                    ("width", PStr "129"); ("height", PStr "4")])])
  = Ok [("xOffset", 2); ("yOffset", 0); ("width", 129); ("height", 4)].
Proof.
  pose proof (barcode_coordinates_read (ops := Ideal.ops)
                [("BarcodeCoordinates",
                  PDict [("xOffset", PStr "2"); ("yOffset", PStr "0");
                         ("width", PStr "129"); ("height", PStr "4")])])
    as [H _].
  apply (H [("xOffset", 2%nat); ("yOffset", 0%nat); ("width", 129%nat);
            ("height", 4%nat)]).
  reflexivity.
Defined.


(** ** Frame totals and lick frames *)

(** [get_total_frames_from_camera_info] returns exactly when the report
    holds ["FramesRecorded"] as an integer (a boolean counts as one), and
    then one more than it; without the entry, or with a float or a string
    there, the assertion fails. *)
Theorem total_frames_from_report {F} (info d : list (string * pyval F)) :
  get_video_info_data info = PDict d ->
  (forall v,
      get_total_frames_from_camera_info info = Ok v
      <-> (dict_find d "FramesRecorded" = Some (PInt (v - 1))
           \/ exists b, dict_find d "FramesRecorded" = Some (PBool b)
                        /\ v = bool_int b + 1))
  /\ (forall e, get_total_frames_from_camera_info info = Raise e ->
                e = AssertionError).
Proof.
  intro Hd. unfold get_total_frames_from_camera_info. rewrite Hd.
  cbn [py_get bind]. split.
  - intro v. split.
    + destruct (dict_find d "FramesRecorded") as [[]|]; try discriminate.
      * intro H. right. eexists. split; [reflexivity|]. congruence.
      * intro H. left. do 2 f_equal. injection H. lia.
    + intros [H|[b [H ->]]]; rewrite H; [f_equal; lia | reflexivity].
  - intro e. destruct (dict_find d "FramesRecorded") as [[]|];
      try discriminate; congruence.
Qed.

(** A wrapped report of 500 recorded frames: 501 frames in the video. *)
Lemma total_frames_from_report_witness :
  get_total_frames_from_camera_info (F := Ideal.F)
    [("RecordingReport", PDict [("FramesRecorded", PInt 500)])] = Ok 501.
Proof.
  pose proof (total_frames_from_report (F := Ideal.F)
                [("RecordingReport", PDict [("FramesRecorded", PInt 500)])]
                [("FramesRecorded", PInt 500)] eq_refl) as [H _].
  apply H. left. reflexivity.
Defined.

Lemma is_default_camera_input_spec {F} (v : pyval F) :
  is_default_camera_input v = true <-> v = PList [PStr "1,0"].
Proof.
  split.
  - destruct v as [| | | | |l|]; try discriminate.
    destruct l as [|x l]; try discriminate.
    destruct x; try discriminate.
    destruct l; try discriminate. cbn. intro H.
    apply String.eqb_eq in H. now subst.
  - intros ->. reflexivity.
Qed.

(** [re] is bound nowhere, so the inner function raises: [NameError] when
    the first item can be taken, the error of taking it otherwise. *)
Lemma parse_camera_input_raises {F} (v : pyval F) :
  parse_camera_input v = RaisesNameError
  \/ exists e, parse_camera_input v = Raises e
               /\ e <> ValueError /\ e <> AttributeError.
Proof.
  unfold parse_camera_input.
  change (bound_in_module "re") with false.
  destruct (py_item0 v) as [x|e] eqn:E; [now left|].
  right. exists e. split; [reflexivity|].
  destruct v as [| | | |s|l|]; cbn in E; try destruct s; try destruct l;
    inversion E; split; discriminate.
Qed.

(** [get_lick_frames_from_behavior_info] returns lick frames on no input,
    and neither does [lick_frames] without a sync file.  The latter raises
    [AttributeError] exactly when ["CameraInput"] is absent or is
    [["1,0"]]; on every other non-empty list the name [re], which the
    module never imports, raises [NameError]. *)
Theorem lick_frames_never_returned {F} (info : list (string * pyval F)) :
  (forall frames, get_lick_frames_from_behavior_info info <> Returns frames)
  /\ (forall frames, lick_frames_without_sync info <> Returns frames)
  /\ (forall d,
         get_video_info_data info = PDict d ->
         (lick_frames_without_sync info = Raises AttributeError
          <-> dict_find d "CameraInput" = None
              \/ dict_find d "CameraInput" = Some (PList [PStr "1,0"]))
         /\ (forall first rest,
                dict_find d "CameraInput" = Some (PList (first :: rest)) ->
                PList (first :: rest) <> PList [PStr "1,0"] ->
                get_lick_frames_from_behavior_info info = RaisesNameError)).
Proof.
  assert (Hlick : get_lick_frames_from_behavior_info info = RaisesNameError
                  \/ exists e,
                       get_lick_frames_from_behavior_info info = Raises e).
  { unfold get_lick_frames_from_behavior_info.
    destruct (py_get _ _ _) as [v|e]; [|right; now exists e].
    destruct (is_default_camera_input v); [right; now exists ValueError|].
    destruct (parse_camera_input_raises v) as [H|[e [H _]]]; rewrite H;
      [now left | right; now exists e]. }
  split; [|split].
  - intro frames. destruct Hlick as [H|[e H]]; rewrite H; discriminate.
  - intro frames. unfold lick_frames_without_sync.
    destruct Hlick as [H|[e H]]; rewrite H;
      [discriminate | destruct e; discriminate].
  - intros d Hd.
    unfold lick_frames_without_sync, get_lick_frames_from_behavior_info.
    rewrite Hd. cbn [py_get]. split.
    + destruct (dict_find d "CameraInput") as [v|].
      * destruct (is_default_camera_input v) eqn:E.
        -- apply is_default_camera_input_spec in E. subst v.
           split; [intros _; now right | reflexivity].
        -- split.
           ++ destruct (parse_camera_input_raises v)
                as [H|[e [H [H1 H2]]]]; rewrite H; [discriminate|].
              destruct e; try discriminate; congruence.
           ++ intros [H|H]; [discriminate|]. injection H as ->.
              discriminate E.
      * split; [intros _; now left | reflexivity].
    + intros first rest Hfind Hne. rewrite Hfind.
      destruct (is_default_camera_input (PList (first :: rest))) eqn:E.
      * apply is_default_camera_input_spec in E. contradiction.
      * reflexivity.
Qed.

(** The camera input of the docstring raises [NameError]. *)
Lemma lick_frames_never_returned_witness :
  get_lick_frames_from_behavior_info (F := Ideal.F)
    [("CameraInput", PList [PStr docstring_camera_input])]
  = RaisesNameError.
Proof.
  pose proof (lick_frames_never_returned (F := Ideal.F)
                [("CameraInput", PList [PStr docstring_camera_input])])
    as [_ [_ H]].
  destruct (H _ eq_refl) as [_ H'].
  apply (H' (PStr docstring_camera_input) []); [reflexivity|].
  unfold docstring_camera_input. discriminate.
Defined.
